(** * Sam's Club gas price tracker: store, extraction pipeline, orchestrator

    A shallow embedding of [sams_gas_prices.py].  The SQLite file is a record
    of three tables kept in insertion (rowid) order, the two module-level
    registries that the program edits in place are part of the program state,
    and everything the program asks of the outside (HTTP responses, the parsed
    documents, the wall clock) is read from a [World] indexed by a counter of
    the interactions made so far, so that two requests for one URL, or two
    readings of the clock, need not agree.

    Strings are Rocq strings, one character per byte: page text, prices and
    names are taken to be ASCII.  Failures of the SQLite layer itself are not
    modelled; the functions that only read the history for display
    ([get_price_history], [get_price_trends], [show_todays_data],
    [export_historical_data]) and the printing in [main] are left out. *)

From Stdlib Require Import String Ascii List Bool Arith NArith ZArith Lia.
From Stdlib Require Import Permutation Sorted OrdersEx RelationClasses.
Import ListNotations.
Open Scope string_scope.
Open Scope list_scope.

Set Implicit Arguments.
Set Warnings "-register-all".

(** ** Python strings and dicts *)

Module Py.

(** [sub in s] *)
Fixpoint str_in (sub s : string) : bool :=
  String.prefix sub s ||
  match s with
  | EmptyString => false
  | String _ s' => str_in sub s'
  end.

(** [s.startswith(p)] *)
Definition startswith (s p : string) : bool := String.prefix p s.

(** Truth value of a string: non-empty. *)
Definition truthy (s : string) : bool :=
  match s with EmptyString => false | _ => true end.

Definition lower_ascii (c : ascii) : ascii :=
  let n := nat_of_ascii c in
  if ((65 <=? n) && (n <=? 90))%nat then ascii_of_nat (n + 32) else c.

(** [s.lower()], on ASCII text. *)
Fixpoint lower (s : string) : string :=
  match s with
  | EmptyString => EmptyString
  | String c s' => String (lower_ascii c) (lower s')
  end.

(** [s.replace(c, '')] for a one-character [c]. *)
Fixpoint remove_char (c : ascii) (s : string) : string :=
  match s with
  | EmptyString => EmptyString
  | String a s' =>
      if Ascii.eqb a c then remove_char c s' else String a (remove_char c s')
  end.

(** [x in [..]] for a list of strings. *)
Definition mem (x : string) (l : list string) : bool :=
  existsb (String.eqb x) l.

(** A dict with string keys: an association list in insertion order,
    every key at most once. *)
Definition dict (V : Type) := list (string * V).

Fixpoint get {V} (d : dict V) (k : string) : option V :=
  match d with
  | [] => None
  | (k', v) :: d' => if String.eqb k k' then Some v else get d' k
  end.

(** [d.get(k, default)] *)
Definition get_default {V} (d : dict V) (k : string) (default : V) : V :=
  match get d k with Some v => v | None => default end.

(** [k in d] *)
Definition has_key {V} (d : dict V) (k : string) : bool :=
  match get d k with Some _ => true | None => false end.

(** [d[k] = v]: an existing key keeps its position. *)
Fixpoint set {V} (d : dict V) (k : string) (v : V) : dict V :=
  match d with
  | [] => [(k, v)]
  | (k', v') :: d' =>
      if String.eqb k k' then (k', v) :: d' else (k', v') :: set d' k v
  end.

(** [{**a, **b}] *)
Definition merge {V} (a b : dict V) : dict V :=
  fold_left (fun d kv => set d (fst kv) (snd kv)) b a.

Definition keys {V} (d : dict V) : list string := map fst d.

End Py.

(** ** Regular expressions

    The two patterns of the program use character classes, sequencing,
    [?], [*] and [+] only.  [exec] is the backtracking matcher of Python's
    [re]: greedy, leftmost, the continuation deciding whether the rest of the
    pattern accepts what an iteration left over. *)

Module Re.

Inductive re : Type :=
| Eps
| Chr (p : ascii -> bool)
| Seq (a b : re)
| Opt (a : re)
| Star (a : re).

Definition Plus (a : re) : re := Seq a (Star a).

Fixpoint exec (r : re) : string -> (string -> option string) -> option string :=
  match r with
  | Eps => fun s k => k s
  | Chr p => fun s k =>
      match s with
      | String c s' => if p c then k s' else None
      | EmptyString => None
      end
  | Seq a b => fun s k => exec a s (fun s' => exec b s' k)
  | Opt a => fun s k =>
      match exec a s k with
      | Some rest => Some rest
      | None => k s
      end
  | Star a => fun s k =>
      (fix loop (fuel : nat) (s : string) {struct fuel} : option string :=
         match fuel with
         | O => k s
         | S fuel' =>
             match exec a s (fun s' =>
                     if (String.length s' <? String.length s)%nat
                     then loop fuel' s' else None) with
             | Some rest => Some rest
             | None => k s
             end
         end) (String.length s) s
  end.

(** The text left after a match of [r] at the very start of [s]. *)
Definition match_at (r : re) (s : string) : option string := exec r s Some.

Definition matched (s rest : string) : string :=
  String.substring 0 (String.length s - String.length rest) s.

(** [re.search(r, s)], giving the text of the whole match. *)
Fixpoint search (r : re) (s : string) : option string :=
  match match_at r s with
  | Some rest => Some (matched s rest)
  | None =>
      match s with
      | EmptyString => None
      | String _ s' => search r s'
      end
  end.

(** [re.findall(r, s)] for a pattern with one group around the whole of
    it that never matches the empty string. *)
Fixpoint findall_from (fuel : nat) (r : re) (s : string) : list string :=
  match fuel with
  | O => []
  | S fuel' =>
      match match_at r s with
      | Some rest =>
          if (String.length rest <? String.length s)%nat
          then matched s rest :: findall_from fuel' r rest
          else match s with
               | EmptyString => []
               | String _ s' => findall_from fuel' r s'
               end
      | None =>
          match s with
          | EmptyString => []
          | String _ s' => findall_from fuel' r s'
          end
      end
  end.

Definition findall (r : re) (s : string) : list string :=
  findall_from (S (String.length s)) r s.

Definition in_range (lo hi : nat) (c : ascii) : bool :=
  let n := nat_of_ascii c in ((lo <=? n) && (n <=? hi))%nat.

Definition upper : ascii -> bool := in_range 65 90.     (* [A-Z] *)
Definition lower : ascii -> bool := in_range 97 122.    (* [a-z] *)
Definition digit : ascii -> bool := in_range 48 57.     (* \d *)
Definition space (c : ascii) : bool :=                  (* \s *)
  in_range 9 13 c || in_range 28 32 c.
Definition only (a : ascii) : ascii -> bool := Ascii.eqb a.
Definition either (p q : ascii -> bool) (c : ascii) : bool := p c || q c.

(** [a{n}] *)
Fixpoint times (n : nat) (a : re) : re :=
  match n with
  | O => Eps
  | S n' => Seq a (times n' a)
  end.

Definition cat (rs : list re) : re := fold_right Seq Eps rs.

End Re.

(** ** Python's [float(str)]

    The grammar of the built-in: surrounding white space, a sign, then
    [inf], [infinity] or [nan] in any case, or a decimal numeral with
    optional single underscores between digits and an optional exponent.
    A finite value is kept as the decimal that was written; [to_binary64]
    gives the binary64 value it denotes, rounded to nearest with ties to
    even, overflowing to infinity and underflowing to zero, and [lt]
    compares those.  The aggregator below is stated over any reading of
    [float] and [<]; this one serves to run it. *)

Module PyFloat.

Inductive float : Type :=
| nan
| inf (neg : bool)
| fin (neg : bool) (mant : N) (exp10 : Z).

Definition digit_val (c : ascii) : N := N.of_nat (nat_of_ascii c - 48).

Fixpoint digits_rest (acc : N) (cnt : nat) (l : list ascii)
  : N * nat * list ascii :=
  match l with
  | c :: l' =>
      if Re.digit c then digits_rest (10 * acc + digit_val c)%N (S cnt) l'
      else if Ascii.eqb c "_" then
        match l' with
        | d :: l'' =>
            if Re.digit d
            then digits_rest (10 * acc + digit_val d)%N (S cnt) l''
            else (acc, cnt, l)
        | [] => (acc, cnt, l)
        end
      else (acc, cnt, l)
  | [] => (acc, cnt, l)
  end.

(** [digitpart ::= digit (["_"] digit)*], continuing the mantissa [acc]. *)
Definition digitpart (acc : N) (l : list ascii)
  : option (N * nat * list ascii) :=
  match l with
  | c :: l' =>
      if Re.digit c
      then Some (digits_rest (10 * acc + digit_val c)%N 1 l')
      else None
  | [] => None
  end.

(** [number ::= [digitpart] "." digitpart | digitpart ["."]]: mantissa,
    number of digits after the point, rest. *)
Definition number (l : list ascii) : option (N * nat * list ascii) :=
  match digitpart 0 l with
  | Some (m, _, rest) =>
      match rest with
      | "."%char :: rest' =>
          match digitpart m rest' with
          | Some (m', frac, rest'') => Some (m', frac, rest'')
          | None => Some (m, O, rest')
          end
      | _ => Some (m, O, rest)
      end
  | None =>
      match l with
      | "."%char :: rest' => digitpart 0 rest'
      | _ => None
      end
  end.

Definition sign (l : list ascii) : bool * list ascii :=
  match l with
  | "-"%char :: l' => (true, l')
  | "+"%char :: l' => (false, l')
  | _ => (false, l)
  end.

(** [exponent ::= ("e" | "E") [sign] digitpart], to the end of the text. *)
Definition exponent (l : list ascii) : option Z :=
  match l with
  | [] => Some 0%Z
  | c :: l' =>
      if Ascii.eqb c "e" || Ascii.eqb c "E" then
        let (neg, l'') := sign l' in
        match digitpart 0 l'' with
        | Some (e, _, []) =>
            Some (if neg then (- Z.of_N e)%Z else Z.of_N e)
        | _ => None
        end
      else None
  end.

(** The white space that [float] strips from both ends of an ASCII string:
    tab, line feed, vertical tab, form feed, carriage return and space. *)
Definition is_space (c : ascii) : bool :=
  Re.in_range 9 13 c || Ascii.eqb c " ".

Fixpoint lstrip (l : list ascii) : list ascii :=
  match l with
  | c :: l' => if is_space c then lstrip l' else l
  | [] => []
  end.

Definition strip (l : list ascii) : list ascii :=
  rev (lstrip (rev (lstrip l))).

Definition of_string (s : string) : option float :=
  let (neg, body) := sign (strip (list_ascii_of_string s)) in
  let word := Py.lower (string_of_list_ascii body) in
  if String.eqb word "nan" then Some nan
  else if String.eqb word "inf" || String.eqb word "infinity"
  then Some (inf neg)
  else
    match number body with
    | Some (m, frac, rest) =>
        match exponent rest with
        | Some e => Some (fin neg m (e - Z.of_nat frac))
        | None => None
        end
    | None => None
    end.

(** A binary64 value: [m * 2 ^ e], signed, with [m < 2 ^ 53] and
    [-1074 <= e <= 971]; zero is [m = 0]. *)
Inductive binary64 : Type :=
| b_nan
| b_inf (neg : bool)
| b_fin (neg : bool) (m : Z) (e : Z).

(** The binary64 nearest to [n / d], for positive [n] and [d], ties to the
    even mantissa: what the correctly rounded conversion of Python gives.
    [l] is the binary logarithm of the quotient rounded down; below the
    normal range the exponent stays at -1074 and the mantissa gets short,
    down to zero; past the largest finite value the result is infinite. *)
Definition nearest (neg : bool) (n d : Z) : binary64 :=
  let k := (Z.log2 n - Z.log2 d)%Z in
  let l :=
    if (if 0 <=? k then d * 2 ^ k <=? n else d <=? n * 2 ^ (- k))%Z
    then k else (k - 1)%Z in
  let e := Z.max (l - 52) (-1074) in
  let num := (if 0 <=? e then n else n * 2 ^ (- e))%Z in
  let den := (if 0 <=? e then d * 2 ^ e else d)%Z in
  let q := (num / den)%Z in
  let r := (num mod den)%Z in
  let q :=
    if ((den <? 2 * r) || ((den =? 2 * r) && Z.odd q))%Z
    then (q + 1)%Z else q in
  let e' := (if q =? 2 ^ 53 then e + 1 else e)%Z in
  let q' := (if q =? 2 ^ 53 then 2 ^ 52 else q)%Z in
  if (971 <? e')%Z then b_inf neg else b_fin neg q' e'.

(** The float that a parsed text denotes. *)
Definition to_binary64 (a : float) : binary64 :=
  match a with
  | nan => b_nan
  | inf neg => b_inf neg
  | fin neg m x =>
      if (m =? 0)%N then b_fin neg 0 0
      else if (0 <=? x)%Z then nearest neg (Z.of_N m * 10 ^ x) 1
      else nearest neg (Z.of_N m) (10 ^ (- x))
  end.

Definition signed (neg : bool) (m : Z) : Z :=
  if neg then (- m)%Z else m.

(** [a < b] on binary64 values: false as soon as one side is [nan]; the two
    zeros are equal. *)
Definition b_lt (a b : binary64) : bool :=
  match a, b with
  | b_nan, _ | _, b_nan => false
  | b_inf na, b_inf nb => na && negb nb
  | b_inf na, b_fin _ _ _ => na
  | b_fin _ _ _, b_inf nb => negb nb
  | b_fin na ma ea, b_fin nb mb eb =>
      let e := Z.min ea eb in
      (signed na ma * 2 ^ (ea - e) <? signed nb mb * 2 ^ (eb - e))%Z
  end.

(** [a < b] on the floats that two parsed texts denote. *)
Definition lt (a b : float) : bool := b_lt (to_binary64 a) (to_binary64 b).

End PyFloat.

(** ** The outside world *)

(** A parsed document, or an element of one, seen through the queries the
    program makes of it.  The selectors are the program's own constants, on
    which the parser's query functions do not raise. *)
Inductive Node : Type := mkNode {
  get_text : string;                      (* .get_text() *)
  get_text_strip : string;                (* .get_text(strip=True) *)
  get_href : option string;               (* .get("href") *)
  select : string -> list Node;           (* .select(css) *)
  select_one : string -> option Node;     (* .select_one(css) *)
  find_all_div : string -> list Node;     (* .find_all("div", class_=c) *)
  find_div : string -> option Node;       (* .find("div", class_=c) *)
  find_a_string : string -> option Node   (* .find("a", string=lambda t: t and w in t) *)
}.

(** What [requests.get] followed by [raise_for_status] can give: an exception
    raised by the transport, or a response whose status check raises or
    passes; [str(e)] is the message carried. *)
Inductive Response : Type :=
| RequestFailed (message : string)
| HttpResponse (status_error : option string) (text : string) (soup : Node).

Record World : Type := mkWorld {
  net : nat -> string -> Response;        (* answer to the n-th interaction *)
  today_at : nat -> string;               (* date.today().isoformat() *)
  time_at : nat -> string                 (* datetime.now().strftime("%H:%M:%S") *)
}.

(** ** The store *)

Definition Row : Type := (string * string)%type.   (* (fuel_type, price) *)

Record ClubRow : Type := mkClubRow {
  c_name : string;
  c_address : string;
  c_club_url : string;
  c_fuel_url : string;
  c_created_date : string;
  c_last_updated : string
}.

Record PriceRow : Type := mkPriceRow {
  ph_club_name : string;
  ph_fuel_type : string;
  ph_price : string;
  ph_scraped_date : string;
  ph_scraped_time : string;
  ph_source : string
}.

Record LogRow : Type := mkLogRow {
  sl_club_name : string;
  sl_scraped_date : string;
  sl_scraped_time : string;
  sl_success : bool;
  sl_error_message : option string;
  sl_prices_found : nat
}.

Record DB : Type := mkDB {
  clubs : list ClubRow;
  price_history : list PriceRow;
  scraping_log : list LogRow
}.

Definition empty_db : DB := mkDB [] [] [].

Definition BASE_URL : string := "https://www.samsclub.com".

Definition locations : Py.dict string :=
  [ ("Avondale", "https://www.samsclub.com/club/4830-avondale-az");
    ("Bullhead City", "https://www.samsclub.com/club/4915-bullhead-city-az");
    ("Chandler", "https://www.samsclub.com/club/6213-chandler-az");
    ("Flagstaff", "https://www.samsclub.com/club/6604-flagstaff-az");
    ("Gilbert (1)", "https://www.samsclub.com/club/6605-gilbert-az");
    ("Gilbert (2)", "https://www.samsclub.com/club/4829-gilbert-az");
    ("Glendale", "https://www.samsclub.com/club/4732-glendale-az");
    ("Phoenix (1)", "https://www.samsclub.com/club/6606-phoenix-az");
    ("Phoenix (2)", "https://www.samsclub.com/club/6608-phoenix-az");
    ("Surprise", "https://www.samsclub.com/club/4955-surprise-az");
    ("Tucson", "https://www.samsclub.com/club/6692-tucson-az");
    ("Yuma", "https://www.samsclub.com/club/6205-yuma-az") ].

Definition initial_ADDITIONAL_CLUBS : Py.dict string :=
  [ ("Tempe", "https://www.samsclub.com/club/4956-tempe-az") ].

Definition initial_KNOWN_ADDRESSES : Py.dict string :=
  [ ("Avondale", "Avondale, AZ");
    ("Bullhead City", "Bullhead City, AZ");
    ("Chandler", "Chandler, AZ");
    ("Flagstaff", "Flagstaff, AZ");
    ("Gilbert (1)", "Gilbert, AZ");
    ("Gilbert (2)", "Gilbert, AZ");
    ("Glendale", "Glendale, AZ");
    ("Phoenix (1)", "Phoenix, AZ");
    ("Phoenix (2)", "Phoenix, AZ");
    ("Surprise", "Surprise, AZ");
    ("Tempe", "Tempe, AZ");
    ("Tucson", "Tucson, AZ");
    ("Yuma", "Yuma, AZ") ].

(** The program state: the database file, the two registries edited in place,
    and the number of interactions with the world so far. *)
Record State : Type := mkState {
  db : DB;
  ADDITIONAL_CLUBS : Py.dict string;
  KNOWN_ADDRESSES : Py.dict string;
  tick : nat
}.

Definition initial_state : State :=
  mkState empty_db initial_ADDITIONAL_CLUBS initial_KNOWN_ADDRESSES 0.

(** ** A state monad for the program's effects *)

Definition M (A : Type) : Type := State -> A * State.

Definition ret {A} (a : A) : M A := fun s => (a, s).

Definition bind {A B} (m : M A) (f : A -> M B) : M B :=
  fun s => f (fst (m s)) (snd (m s)).

Notation "x <- m ;; k" := (bind m (fun x => k))
  (at level 61, m at next level, right associativity).
Notation "m ;;; k" := (bind m (fun _ => k))
  (at level 61, right associativity).

Definition result {A} (m : M A) (s : State) : A := fst (m s).
Definition after {A} (m : M A) (s : State) : State := snd (m s).

Definition next (s : State) : State :=
  mkState (db s) (ADDITIONAL_CLUBS s) (KNOWN_ADDRESSES s) (S (tick s)).

Definition with_db (f : DB -> DB) (s : State) : State :=
  mkState (f (db s)) (ADDITIONAL_CLUBS s) (KNOWN_ADDRESSES s) (tick s).

Definition read_db {A} (f : DB -> A) : M A := fun s => (f (db s), s).
Definition write_db (f : DB -> DB) : M unit := fun s => (tt, with_db f s).

(** [for x in xs: body x] *)
Fixpoint for_each {A} (xs : list A) (body : A -> M unit) : M unit :=
  match xs with
  | [] => ret tt
  | x :: xs' => body x ;;; for_each xs' body
  end.

(** [[body x for x in xs]], effects in order. *)
Fixpoint map_m {A B} (body : A -> M B) (xs : list A) : M (list B) :=
  match xs with
  | [] => ret []
  | x :: xs' => y <- body x ;; ys <- map_m body xs' ;; ret (y :: ys)
  end.

(** ** ORDER BY scraped_date DESC, scraped_time DESC *)

Definition str_leb (a b : string) : bool :=
  match String_as_OT.compare a b with Gt => false | _ => true end.

(** [(d1, t1) <= (d2, t2)], dates first, both compared as text. *)
Definition stamp_leb (a b : string * string) : bool :=
  match String_as_OT.compare (fst a) (fst b) with
  | Lt => true
  | Gt => false
  | Eq => str_leb (snd a) (snd b)
  end.

Definition stamp (r : PriceRow) : string * string :=
  (ph_scraped_date r, ph_scraped_time r).

(** SQL leaves the order of rows with equal stamps open; here they stay in
    rowid order: [r], which has the smaller rowid, goes before the rows of
    [l] that are not later than it. *)
Fixpoint insert_desc (r : PriceRow) (l : list PriceRow) : list PriceRow :=
  match l with
  | [] => [r]
  | x :: l' =>
      if stamp_leb (stamp x) (stamp r) then r :: l else x :: insert_desc r l'
  end.

Definition order_by_desc (l : list PriceRow) : list PriceRow :=
  fold_right insert_desc [] l.

(** The dict the orchestrator builds for a club, key by key. *)
Record ClubInfo : Type := mkClubInfo {
  name : string;
  address : string;
  club_url : string;
  fuel_url : string;
  prices : option (list Row)      (* None: the key is not in the dict *)
}.

(** ** The program *)

Section Program.

Variable w : World.

Definition get_today_date : M string :=
  fun s => (today_at w (tick s), next s).

Definition get_current_time : M string :=
  fun s => (time_at w (tick s), next s).

Definition requests_get (url : string) : M Response :=
  fun s => (net w (tick s) url, next s).

(** time.sleep: nothing but the passing of time. *)
Definition sleep : M unit := fun s => (tt, next s).

(** *** History store *)

(** CREATE TABLE IF NOT EXISTS, three times: the tables are there from the
    start in [DB], so nothing changes. *)
Definition init_database : M unit := ret tt.

Definition check_if_scraped_today (club_name : string) : M bool :=
  today <- get_today_date ;;
  count <- read_db (fun d =>
    length (filter (fun r => String.eqb (sl_club_name r) club_name
                             && String.eqb (sl_scraped_date r) today)
                   (scraping_log d))) ;;
  ret (0 <? count)%nat.

Definition all_locations : M (Py.dict string) :=
  fun s => (Py.merge locations (ADDITIONAL_CLUBS s), s).

Fixpoint all_true (club_names : list string) : M bool :=
  match club_names with
  | [] => ret true
  | club_name :: rest =>
      scraped <- check_if_scraped_today club_name ;;
      if scraped then all_true rest else ret false
  end.

Definition check_if_all_scraped_today : M bool :=
  all_clubs <- all_locations ;;
  all_true (Py.keys all_clubs).

Definition log_scraping_attempt (club_name : string) (success : bool)
    (error_message : option string) (prices_found : nat) : M unit :=
  today <- get_today_date ;;
  current_time <- get_current_time ;;
  write_db (fun d =>
    mkDB (clubs d) (price_history d)
         (scraping_log d ++
          [mkLogRow club_name today current_time success error_message
                    prices_found])).

Definition save_club_info (club_info : ClubInfo) : M unit :=
  today <- get_today_date ;;
  current_time <- get_current_time ;;
  let now := (today ++ " " ++ current_time)%string in
  write_db (fun d =>
    let same (c : ClubRow) := String.eqb (c_name c) (name club_info) in
    mkDB
      (if existsb same (clubs d)
       then map (fun c =>
              if same c
              then mkClubRow (c_name c) (address club_info)
                     (club_url club_info) (fuel_url club_info)
                     (c_created_date c) now
              else c) (clubs d)
       else clubs d ++
            [mkClubRow (name club_info) (address club_info)
               (club_url club_info) (fuel_url club_info) now now])
      (price_history d) (scraping_log d)).

Definition insert_price (r : PriceRow) : M unit :=
  write_db (fun d =>
    mkDB (clubs d) (price_history d ++ [r]) (scraping_log d)).

Definition not_stored : list string :=
  ["Error"; "No prices found"; "Unknown"; "No prices available"].

Definition save_price_data (club_name : string) (prices : list Row) : M unit :=
  match prices with
  | [] => ret tt
  | _ =>
      today <- get_today_date ;;
      current_time <- get_current_time ;;
      for_each prices (fun '(fuel_type, price) =>
        if negb (Py.mem fuel_type not_stored)
        then insert_price (mkPriceRow club_name fuel_type price today
                             current_time "scraped")
        else ret tt)
  end.

(** The dict built by the loop of [get_latest_prices]. *)
Fixpoint first_seen (rows : list Row) (latest_prices : Py.dict string)
  : Py.dict string :=
  match rows with
  | [] => latest_prices
  | (fuel_type, price) :: rest =>
      first_seen rest
        (if negb (Py.has_key latest_prices fuel_type)
         then Py.set latest_prices fuel_type price
         else latest_prices)
  end.

Definition select_latest (club_name : string) (d : DB) : list Row :=
  map (fun r => (ph_fuel_type r, ph_price r))
    (firstn 10
       (order_by_desc
          (filter (fun r => String.eqb (ph_club_name r) club_name)
                  (price_history d)))).

Definition get_latest_prices (club_name : string) : M (list Row) :=
  rows <- read_db (select_latest club_name) ;;
  ret (first_seen rows []).

Definition add_manual_prices (club_name fuel_type price : string) : M unit :=
  today <- get_today_date ;;
  current_time <- get_current_time ;;
  insert_price (mkPriceRow club_name fuel_type price today current_time
                  "manual").

Definition add_new_club (name url : string) : M unit :=
  fun s => (tt, mkState (db s) (Py.set (ADDITIONAL_CLUBS s) name url)
                  (KNOWN_ADDRESSES s) (tick s)).

Definition update_known_address (club_name address : string) : M unit :=
  fun s => (tt, mkState (db s) (ADDITIONAL_CLUBS s)
                  (Py.set (KNOWN_ADDRESSES s) club_name address) (tick s)).

Definition known_address (club_name : string) : M string :=
  fun s => (Py.get_default (KNOWN_ADDRESSES s) club_name "NAN", s).

End Program.

(** ** Extraction pipeline *)

Record ClubPage : Type := mkClubPage {
  cp_name : string;
  cp_address : string;
  cp_club_url : string
}.

Definition address_selectors : list string :=
  ["address"; "[data-testid*='address']"; ".club-address"; ".address";
   "[class*='address']"].

(** [([A-Z][a-z]+(?:[\s,]+[A-Z][a-z]+)*,\s*[A-Z]{2}\s+\d{5}(?:-\d{4})?)] *)
Definition address_pattern : Re.re :=
  let word := Re.Seq (Re.Chr Re.upper) (Re.Plus (Re.Chr Re.lower)) in
  Re.cat
    [ word;
      Re.Star (Re.Seq (Re.Plus (Re.Chr (Re.either Re.space (Re.only ","))))
                      word);
      Re.Chr (Re.only ",");
      Re.Star (Re.Chr Re.space);
      Re.times 2 (Re.Chr Re.upper);
      Re.Plus (Re.Chr Re.space);
      Re.times 5 (Re.Chr Re.digit);
      Re.Opt (Re.Seq (Re.Chr (Re.only "-")) (Re.times 4 (Re.Chr Re.digit))) ].

(** One group around [\$[\d,]+\.?\d*]. *)
Definition price_pattern : Re.re :=
  Re.cat
    [ Re.Chr (Re.only "$");
      Re.Plus (Re.Chr (Re.either Re.digit (Re.only ",")));
      Re.Opt (Re.Chr (Re.only "."));
      Re.Star (Re.Chr Re.digit) ].

(** [for selector in selectors: e = node.select_one(selector); if e: ... break] *)
Fixpoint first_select_one (node : Node) (selectors : list string)
  : option Node :=
  match selectors with
  | [] => None
  | selector :: rest =>
      match select_one node selector with
      | Some e => Some e
      | None => first_select_one node rest
      end
  end.

Definition fuel_selectors : list string :=
  ["a[href*='fuel-center']"; "a[href*='fuel']"; "a:contains('Fuel Center')";
   "a:contains('Fuel')"].

Definition find_fuel_link (soup : Node) (selector : string) : option Node :=
  if Py.str_in "contains" selector then
    if Py.str_in "Fuel Center" selector
    then find_a_string soup "Fuel Center"
    else find_a_string soup "Fuel"
  else select_one soup selector.

Definition absolute_url (href : string) : string :=
  if Py.startswith href "/" then (BASE_URL ++ href)%string
  else if Py.startswith href "http" then href
  else (BASE_URL ++ "/" ++ href)%string.

(** The selector loop of [get_fuel_link] (lines 472-491): the first selector
    whose link has a non-empty href returns. *)
Fixpoint first_fuel_link (soup : Node) (selectors : list string)
  : option string :=
  match selectors with
  | [] => None
  | selector :: rest =>
      match find_fuel_link soup selector with
      | Some fuel_link =>
          match get_href fuel_link with
          | Some href =>
              if Py.truthy href then Some (absolute_url href)
              else first_fuel_link soup rest
          | None => first_fuel_link soup rest
          end
      | None => first_fuel_link soup rest
      end
  end.

(** One card of the primary layout (lines 511-518); a missing label or value
    element raises on [.get_text] and the card is skipped. *)
Definition price_card (card : Node) : list Row :=
  match find_div card "tc f6 fw4 lh-title" with
  | None => []
  | Some label =>
      match find_div card "flex items-center justify-center f2 fw5" with
      | None => []
      | Some value =>
          let fuel_type := get_text_strip label in
          let price := get_text_strip value in
          if Py.truthy fuel_type && Py.truthy price
          then [(fuel_type, price)] else []
      end
  end.

Definition price_selectors : list string :=
  ["div[class*='pa3'][class*='br3']"; ".fuel-price-card";
   "[data-testid*='price']"; ".price"; "[class*='price']"].

Definition price_selectors_inner : list string :=
  ["[class*='f2'][class*='fw5']"; ".price-value"; "[class*='price']"].

Definition fuel_selectors_inner : list string :=
  ["[class*='tc'][class*='f6']"; ".fuel-type"; "[class*='fuel']"].

(** One card of the fallback pass (lines 548-584). *)
Definition fallback_card (card : Node) : list Row :=
  let fuel_type :=
    match first_select_one card fuel_selectors_inner with
    | Some fuel_elem => get_text_strip fuel_elem
    | None => "Unknown"
    end in
  let price :=
    match first_select_one card price_selectors_inner with
    | Some price_elem => get_text_strip price_elem
    | None => "NAN"
    end in
  if Py.truthy fuel_type && Py.truthy price && negb (String.eqb price "NAN")
  then [(fuel_type, price)] else [].

(** The first selector family with at least one card is the only one used
    (the [break] of line 585). *)
Fixpoint first_cards (soup : Node) (selectors : list string) : list Node :=
  match selectors with
  | [] => []
  | selector :: rest =>
      match select soup selector with
      | [] => first_cards soup rest
      | cards => cards
      end
  end.

Definition get_gas_prices_fallback (soup : Node) : list Row :=
  let prices := flat_map fallback_card (first_cards soup price_selectors) in
  match prices with
  | [] =>
      map (fun price => ("Unknown", price))
          (Re.findall price_pattern (get_text soup))
  | _ => prices
  end.

(** [prices[0][0] in ["Error", "No prices found"]] *)
Definition first_is_failure (prices : list Row) : bool :=
  match prices with
  | (fuel_type, _) :: _ => Py.mem fuel_type ["Error"; "No prices found"]
  | [] => false
  end.

(** [prices and not (len(prices) == 1 and prices[0][0] in [...])] *)
Definition valid_prices (prices : list Row) : bool :=
  match prices with
  | [] => false
  | _ => negb ((length prices =? 1)%nat && first_is_failure prices)
  end.

(** [club_info["prices"] = prices] *)
Definition set_prices (club_info : ClubInfo) (prices : list Row) : ClubInfo :=
  mkClubInfo (name club_info) (address club_info) (club_url club_info)
             (fuel_url club_info) (Some prices).

Definition or_default (prices default : list Row) : list Row :=
  match prices with [] => default | _ => prices end.

Section Pipeline.

Variable w : World.

Definition bot_protected (text : string) : bool :=
  Py.str_in "robot" (Py.lower text) || Py.str_in "captcha" (Py.lower text).

Fixpoint fetch_html (url : string) (retries : nat) : M (option Node) :=
  match retries with
  | O => ret None
  | S attempts_left =>
      resp <- requests_get w url ;;
      match resp with
      | HttpResponse None text soup =>
          if bot_protected text then ret None else ret (Some soup)
      | _ =>
          (match attempts_left with O => ret tt | _ => sleep end) ;;;
          fetch_html url attempts_left
      end
  end.

Definition get_club_info (club_url club_name : string) : M ClubPage :=
  soup <- fetch_html club_url 1 ;;
  known <- known_address club_name ;;
  match soup with
  | Some soup =>
      let address := known in
      let address :=
        match first_select_one soup address_selectors with
        | Some addr_elem => get_text_strip addr_elem
        | None => address
        end in
      let address :=
        if String.eqb address "NAN" then
          match Re.search address_pattern (get_text soup) with
          | Some addr_match => addr_match
          | None => address
          end
        else address in
      ret (mkClubPage club_name address club_url)
  | None => ret (mkClubPage club_name known club_url)
  end.

Definition get_fuel_link (club_url : string) : M (option string) :=
  soup <- fetch_html club_url 1 ;;
  match match soup with
        | Some soup => first_fuel_link soup fuel_selectors
        | None => None
        end with
  | Some link => ret (Some link)
  | None =>
      if Py.str_in "/club/" club_url
      then ret (Some (club_url ++ "/fuel-center")%string)
      else ret None
  end.

Definition get_gas_prices (url : string) : M (list Row) :=
  resp <- requests_get w url ;;
  match resp with
  | RequestFailed e => ret [("Error", e)]
  | HttpResponse (Some e) _ _ => ret [("Error", e)]
  | HttpResponse None _ soup =>
      let prices :=
        flat_map price_card (find_all_div soup "pa3 br3 flex-grow-1") in
      let prices :=
        match prices with
        | [] => get_gas_prices_fallback soup
        | _ => prices
        end in
      ret (or_default prices [("No prices found", "NAN")])
  end.

(** ** Scrape orchestrator *)

Record Stats : Type := mkStats {
  total_attempts_today : nat;
  successful_today : nat;
  failed_today : nat;
  clubs_scraped_today : nat;
  total_clubs : nat;
  all_scraped_today : bool
}.

Definition get_scraping_stats : M Stats :=
  today <- get_today_date w ;;
  all_clubs <- all_locations ;;
  read_db (fun d =>
    let rows := filter (fun r => String.eqb (sl_scraped_date r) today)
                       (scraping_log d) in
    let scraped := length (nodup string_dec (map sl_club_name rows)) in
    mkStats (length rows)
            (length (filter sl_success rows))
            (length (filter (fun r => negb (sl_success r)) rows))
            scraped (length all_clubs)
            (scraped =? length all_clubs)%nat).

(** The branch of the loop of [scrape_all_clubs] for a club that has a log
    row for today (lines 673-690). *)
Definition use_cached (name url : string) : M ClubInfo :=
  prices <- get_latest_prices name ;;
  let prices := or_default prices [("No cached prices", "NAN")] in
  known <- known_address name ;;
  ret (mkClubInfo name known url "Cached data" (Some prices)).

(** Profile, fuel page and prices of a club that is to be scraped
    (lines 695-714). *)
Definition fetch_club (name url : string) : M (ClubInfo * list Row) :=
  club_info <- get_club_info url name ;;
  fuel_url <- get_fuel_link url ;;
  let shown :=
    match fuel_url with
    | Some u => if Py.truthy u then u else "No Fuel Center"
    | None => "No Fuel Center"
    end in
  let club_info :=
    mkClubInfo (cp_name club_info) (cp_address club_info)
               (cp_club_url club_info) shown None in
  prices <-
    match fuel_url with
    | Some u =>
        if Py.truthy u && negb (String.eqb u "No Fuel Center")
        then get_gas_prices u else get_gas_prices url
    | None => get_gas_prices url
    end ;;
  ret (club_info, prices).

(** The classification of the attempt and what is stored for it
    (lines 716-742). *)
Definition reconcile (name : string) (club_info : ClubInfo)
    (prices : list Row) : M ClubInfo :=
  outcome <-
    (if valid_prices prices
     then ret (true, None, length prices, prices)
     else
       cached_prices <- get_latest_prices name ;;
       ret (false, Some "No valid prices found", O,
            or_default cached_prices [("No prices available", "NAN")])) ;;
  let '(success, error_message, prices_found, prices) := outcome in
  log_scraping_attempt w name success error_message prices_found ;;;
  save_club_info w club_info ;;;
  save_price_data w name prices ;;;
  ret (set_prices club_info prices).

(** The branch of the loop for a club without a log row for today
    (lines 692-745). *)
Definition scrape_club (name url : string) : M ClubInfo :=
  fetched <- fetch_club name url ;;
  club_info <- reconcile name (fst fetched) (snd fetched) ;;
  sleep ;;;
  ret club_info.

(** The body of the loop of [scrape_all_clubs]. *)
Definition process_club (name url : string) : M ClubInfo :=
  scraped <- check_if_scraped_today w name ;;
  if scraped then use_cached name url else scrape_club name url.

Definition scrape_all_clubs : M (list ClubInfo) :=
  all_locations <- all_locations ;;
  get_scraping_stats ;;;
  map_m (fun '(name, url) => process_club name url) all_locations.

End Pipeline.

(** ** Aggregator *)

Record Lowest (F : Type) : Type := mkLowest {
  lp_price : F;
  lp_club : string;
  lp_address : string
}.

(** [identify_lowest_prices] over any reading of [float(..)] and of [<] on
    floats: [to_float s = None] is the [ValueError]. *)
Section Aggregator.

Variable F : Type.
Variable to_float : string -> option F.
Variable float_lt : F -> F -> bool.

Definition not_aggregated : list string :=
  ["Error"; "No prices found"; "Unknown"; "No prices available"].

(** The body of the inner loop, for one row of one club. *)
Definition consider (club : ClubInfo) (price_categories : Py.dict (Lowest F))
    (row : Row) : Py.dict (Lowest F) :=
  let '(fuel_type, price) := row in
  if negb (Py.mem fuel_type not_aggregated) then
    match to_float (Py.remove_char "," (Py.remove_char "$" price)) with
    | Some price_value =>
        let entry := mkLowest price_value (name club) (address club) in
        match Py.get price_categories fuel_type with
        | None => Py.set price_categories fuel_type entry
        | Some current =>
            if float_lt price_value (lp_price current)
            then Py.set price_categories fuel_type entry
            else price_categories
        end
    | None => price_categories
    end
  else price_categories.

Definition consider_club (price_categories : Py.dict (Lowest F))
    (club : ClubInfo) : Py.dict (Lowest F) :=
  match prices club with
  | Some [] | None => price_categories
  | Some rows => fold_left (consider club) rows price_categories
  end.

Definition identify_lowest_prices (clubs_data : list ClubInfo)
  : Py.dict (Lowest F) :=
  fold_left consider_club clubs_data [].

End Aggregator.

(** ** Operations of the core, as a step relation *)

Inductive Op : Type :=
| OpInit
| OpCheck (club_name : string)
| OpCheckAll
| OpLog (club_name : string) (success : bool) (error_message : option string)
        (prices_found : nat)
| OpSaveClub (club_info : ClubInfo)
| OpSavePrices (club_name : string) (prices : list Row)
| OpLatest (club_name : string)
| OpManual (club_name fuel_type price : string)
| OpAddClub (name url : string)
| OpKnownAddress (club_name address : string)
| OpStats
| OpClubInfo (club_url club_name : string)
| OpFuelLink (club_url : string)
| OpGasPrices (url : string)
| OpScrapeAll.

Definition run (w : World) (op : Op) (s : State) : State :=
  match op with
  | OpInit => after init_database s
  | OpCheck n => after (check_if_scraped_today w n) s
  | OpCheckAll => after (check_if_all_scraped_today w) s
  | OpLog n ok e k => after (log_scraping_attempt w n ok e k) s
  | OpSaveClub c => after (save_club_info w c) s
  | OpSavePrices n ps => after (save_price_data w n ps) s
  | OpLatest n => after (get_latest_prices n) s
  | OpManual n f p => after (add_manual_prices w n f p) s
  | OpAddClub n u => after (add_new_club n u) s
  | OpKnownAddress n a => after (update_known_address n a) s
  | OpStats => after (get_scraping_stats w) s
  | OpClubInfo u n => after (get_club_info w u n) s
  | OpFuelLink u => after (get_fuel_link w u) s
  | OpGasPrices u => after (get_gas_prices w u) s
  | OpScrapeAll => after (scrape_all_clubs w) s
  end.

Inductive steps (w : World) : State -> State -> Prop :=
| steps_refl s : steps w s s
| steps_then s s' op : steps w s s' -> steps w s (run w op s').

(** ** Sample worlds and documents *)

Module Sample.

Definition day : string := "2025-08-26".
Definition hour : string := "09:30:00".

(** An element with text and nothing inside. *)
Definition leaf (text : string) (href : option string) : Node :=
  mkNode text text href (fun _ => []) (fun _ => None) (fun _ => [])
         (fun _ => None) (fun _ => None).

(** A document in which no query of the program finds anything. *)
Definition plain_page (text : string) : Node := leaf text None.

(** Every request times out. *)
Definition offline : World :=
  mkWorld (fun _ _ => RequestFailed "Timeout") (fun _ => day) (fun _ => hour).

(** Every request is answered with the same document. *)
Definition serving (page : Node) : World :=
  mkWorld (fun _ _ => HttpResponse None (get_text page) page)
          (fun _ => day) (fun _ => hour).

Definition avondale_url : string :=
  "https://www.samsclub.com/club/4830-avondale-az".
Definition tempe_url : string :=
  "https://www.samsclub.com/club/4956-tempe-az".

Definition phoenix_page : Node := plain_page "Phoenix, AZ 85001".
Definition price_text_page : Node := plain_page "Today only $3.19".

Definition regular_yesterday : PriceRow :=
  mkPriceRow "Tempe" "Regular" "$3.10" "2025-08-25" "08:00:00" "scraped".
Definition regular_today : PriceRow :=
  mkPriceRow "Tempe" "Regular" "$3.05" "2025-08-26" "08:00:00" "scraped".
Definition premium_today : PriceRow :=
  mkPriceRow "Tempe" "Premium" "$3.99" "2025-08-26" "08:00:00" "manual".

Definition with_history (rows : list PriceRow) : State :=
  mkState (mkDB [] rows []) initial_ADDITIONAL_CLUBS
          initial_KNOWN_ADDRESSES 0.

(** Tempe was tried today without success and has no price on record. *)
Definition tempe_failed_today : State :=
  mkState
    (mkDB [] []
       [mkLogRow "Tempe" day "07:00:00" false
                 (Some "No valid prices found") 0])
    initial_ADDITIONAL_CLUBS initial_KNOWN_ADDRESSES 0.

Definition tempe_cached : ClubInfo :=
  mkClubInfo "Tempe" "Tempe, AZ" tempe_url "Cached data"
             (Some [("No cached prices", "NAN")]).

End Sample.

(** A computation keeps [R] when the database it leaves is [R]-related to
    the one it found. *)
Definition keeps (R : DB -> DB -> Prop) {A} (m : M A) : Prop :=
  forall s, R (db s) (db (after m s)).

(** The log has only been appended to. *)
Definition log_extended (d d' : DB) : Prop :=
  exists more, scraping_log d' = scraping_log d ++ more.

(** Same attempt log. *)
Definition same_log (d d' : DB) : Prop := scraping_log d' = scraping_log d.

(** Same price history. *)
Definition same_history (d d' : DB) : Prop :=
  price_history d' = price_history d.

(** The rows of [prices] that [save_price_data] writes. *)
Definition stored_rows (club_name today current_time : string)
    (prices : list Row) : list PriceRow :=
  map (fun row => mkPriceRow club_name (fst row) (snd row) today current_time
                    "scraped")
      (filter (fun row => negb (Py.mem (fst row) not_stored)) prices).

(** The price rows that [process_club] extracts for a club it scrapes: the
    result of [get_gas_prices] in [fetch_club], reached once the check for
    today has been made. *)
Definition scraped_prices (w : World) (club url : string) (s : State)
  : list Row :=
  snd (result (fetch_club w club url)
         (after (check_if_scraped_today w club) s)).

(** The sentinel categories of the taxonomy: FETCH_ERROR, the three spellings
    of NO_DATA_FOUND, UNSPECIFIED_CATEGORY. *)
Definition sentinel_categories : list string :=
  ["Error"; "No prices found"; "No cached prices"; "No prices available";
   "Unknown"].

Definition is_sentinel (category : string) : bool :=
  Py.mem category sentinel_categories.

(** [(d, t)] is the stamp of some row of [club_name] for [fuel_type], and no
    row of that club and fuel type has a later one. *)
Definition newest_for (d : DB) (club_name fuel_type price : string) : Prop :=
  exists r,
    In r (price_history d) /\ ph_club_name r = club_name /\
    ph_fuel_type r = fuel_type /\ ph_price r = price /\
    forall r', In r' (price_history d) -> ph_club_name r' = club_name ->
               ph_fuel_type r' = fuel_type ->
               stamp_leb (stamp r') (stamp r) = true.

(** ** History queries and the run as a whole *)

(** A row of the frame that [get_price_history] returns. *)
Record HistoryRow : Type := mkHistoryRow {
  h_club_name : string;
  h_fuel_type : string;
  h_price : string;
  h_scraped_date : string;
  h_scraped_time : string
}.

Definition history_row (r : PriceRow) : HistoryRow :=
  mkHistoryRow (ph_club_name r) (ph_fuel_type r) (ph_price r)
               (ph_scraped_date r) (ph_scraped_time r).

(** The WHERE clause of [get_price_history]: [if club_name:] chooses the
    query, dates are compared as text. *)
Definition in_window (club_name : option string) (cutoff : string)
    (r : PriceRow) : bool :=
  match club_name with
  | Some c =>
      if Py.truthy c
      then String.eqb (ph_club_name r) c && str_leb cutoff (ph_scraped_date r)
      else str_leb cutoff (ph_scraped_date r)
  | None => str_leb cutoff (ph_scraped_date r)
  end.

(** A row of [expanded_data] in [main]. *)
Record ExportRow : Type := mkExportRow {
  x_club_name : string;
  x_address : string;
  x_club_url : string;
  x_fuel_center_url : string;
  x_fuel_type : string;
  x_price : string
}.

(** The rows of one club in [expanded_data] (lines 801-820); [None] is the
    KeyError of [club["prices"]] on a dict without that key. *)
Definition expanded_rows (club : ClubInfo) : option (list ExportRow) :=
  match prices club with
  | None => None
  | Some [] =>
      Some [mkExportRow (name club) (address club) (club_url club)
              (fuel_url club) "N/A" "N/A"]
  | Some rows =>
      Some (map (fun row =>
                   mkExportRow (name club) (address club) (club_url club)
                     (fuel_url club) (fst row) (snd row)) rows)
  end.

Fixpoint expanded_data (clubs_data : list ClubInfo)
  : option (list ExportRow) :=
  match clubs_data with
  | [] => Some []
  | club :: rest =>
      match expanded_rows club with
      | None => None
      | Some rows =>
          match expanded_data rest with
          | None => None
          | Some more => Some (rows ++ more)
          end
      end
  end.

Section History.

Variable w : World.

(** [date('now', '-N days')] as SQLite evaluates it at the n-th interaction;
    its clock is UTC, not the local one of [today_at].  [days] is a natural
    number: the program passes 1, 7 and 30. *)
Variable sqlite_date_before : nat -> nat -> string.

Definition get_price_history (club_name : option string) (days : nat)
  : M (list HistoryRow) :=
  fun s =>
    (map history_row
       (order_by_desc
          (filter (in_window club_name (sqlite_date_before (tick s) days))
                  (price_history (db s)))),
     next s).

(** What [show_todays_data] reads; what it prints is left out. *)
Definition show_todays_data : M unit :=
  get_today_date w ;;;
  get_price_history None 1 ;;;
  ret tt.

(** [main] with its printing and the CSV file left out: [None] when the run
    stops at the check that every club was scraped today, else the batch. *)
Definition main : M (option (list ClubInfo)) :=
  init_database ;;;
  all_scraped <- check_if_all_scraped_today w ;;
  if all_scraped then
    show_todays_data ;;;
    ret None
  else
    clubs_data <- scrape_all_clubs w ;;
    match clubs_data with
    | [] => ret (Some [])
    | _ =>
        get_scraping_stats w ;;;
        ret (Some clubs_data)
    end.

End History.

(** ** Trends *)

Record Trend (F : Type) : Type := mkTrend {
  t_current : F;
  t_lowest : F;
  t_highest : F;
  t_average : F;
  t_data_points : nat
}.

(** [series.unique()]: the values in order of first appearance. *)
Fixpoint unique (seen : list string) (l : list string) : list string :=
  match l with
  | [] => []
  | x :: l' =>
      if Py.mem x seen then unique seen l' else x :: unique (x :: seen) l'
  end.

(** [get_price_trends] over any reading of [float(..)], of [<] on floats and
    of [sum(prices) / len(prices)]. *)
Section Trends.

Variable F : Type.
Variable to_float : string -> option F.
Variable float_lt : F -> F -> bool.
Variable mean : list F -> F.
Variable sqlite_date_before : nat -> nat -> string.

(** The inner loop: the prices that parse, in the order of the rows. *)
Definition float_prices (fuel_data : list HistoryRow) : list F :=
  flat_map (fun r =>
              match to_float (Py.remove_char ","
                                (Py.remove_char "$" (h_price r))) with
              | Some price_val => [price_val]
              | None => []
              end) fuel_data.

(** [min(x :: xs)]: a later item replaces the current one when it is [<]. *)
Definition py_min (x : F) (xs : list F) : F :=
  fold_left (fun m item => if float_lt item m then item else m) xs x.

(** [max(x :: xs)]: a later item replaces the current one when it is [>]. *)
Definition py_max (x : F) (xs : list F) : F :=
  fold_left (fun m item => if float_lt m item then item else m) xs x.

Definition trend_of (fuel_data : list HistoryRow) : option (Trend F) :=
  if (1 <? length fuel_data)%nat then
    match float_prices fuel_data with
    | [] => None
    | p :: ps =>
        Some (mkTrend p (py_min p ps) (py_max p ps) (mean (p :: ps))
                      (length (p :: ps)))
    end
  else None.

Definition trends_of (df : list HistoryRow) : Py.dict (Trend F) :=
  flat_map (fun fuel_type =>
              match trend_of (filter (fun r =>
                                String.eqb (h_fuel_type r) fuel_type) df) with
              | Some t => [(fuel_type, t)]
              | None => []
              end)
           (unique [] (map h_fuel_type df)).

Definition get_price_trends (club_name : option string) (days : nat)
  : M (Py.dict (Trend F)) :=
  df <- get_price_history sqlite_date_before club_name days ;;
  ret (trends_of df).

End Trends.

(** A computation preserves [R] when the state it leaves is [R]-related to
    the one it found. *)
Definition preserves (R : State -> State -> Prop) {A} (m : M A) : Prop :=
  forall s, R s (after m s).

(** Neither registry has changed. *)
Definition same_registries (s s' : State) : Prop :=
  ADDITIONAL_CLUBS s' = ADDITIONAL_CLUBS s /\
  KNOWN_ADDRESSES s' = KNOWN_ADDRESSES s.

(** The UNIQUE constraint on [clubs.name]. *)
Definition names_unique (d : DB) : Prop := NoDup (map c_name (clubs d)).

(** The club has a row in the attempt log for the date. *)
Definition attempted (d : DB) (club_name date : string) : Prop :=
  exists r, In r (scraping_log d) /\ sl_club_name r = club_name /\
            sl_scraped_date r = date.

(** The clock shows one date throughout. *)
Definition same_day (w : World) (date : string) : Prop :=
  forall n, today_at w n = date.

Module Cases.

(** SQLite's clock on the sample day: the cut-off dates of the windows the
    program asks for. *)
Definition date_before (_ : nat) (days : nat) : string :=
  match days with
  | 0 => "2025-08-26"
  | 1 => "2025-08-25"
  | 7 => "2025-08-19"
  | _ => "2025-07-27"
  end.

(** All thirteen clubs have a row for the sample day. *)
Definition all_attempted : State :=
  mkState
    (mkDB [] [Sample.regular_yesterday]
       (map (fun kv => mkLogRow (fst kv) Sample.day "07:00:00" true None 1)
            (Py.merge locations initial_ADDITIONAL_CLUBS)))
    initial_ADDITIONAL_CLUBS initial_KNOWN_ADDRESSES 0.

Definition tempe_row : ClubRow :=
  mkClubRow "Tempe" "Tempe, AZ" Sample.tempe_url "No Fuel Center"
            "2025-08-20 10:00:00" "2025-08-20 10:00:00".

Definition with_clubs (rows : list ClubRow) : State :=
  mkState (mkDB rows [] []) initial_ADDITIONAL_CLUBS
          initial_KNOWN_ADDRESSES 0.

Definition tempe_info : ClubInfo :=
  mkClubInfo "Tempe" "1459 W Elliot Rd, Tempe, AZ 85284" Sample.tempe_url
             "https://www.samsclub.com/club/4956-tempe-az/fuel-center" None.

(** An element of the fallback layout: a price and no label. *)
Definition unlabelled_card : Node :=
  mkNode "$3.19" "$3.19" None (fun _ => [])
    (fun selector =>
       if String.eqb selector "[class*='price']"
       then Some (Sample.leaf "$3.19" None) else None)
    (fun _ => []) (fun _ => None) (fun _ => None).

(** A page with that one card under [.fuel-price-card]. *)
Definition fallback_page : Node :=
  mkNode "$3.19" "$3.19" None
    (fun selector =>
       if String.eqb selector ".fuel-price-card" then [unlabelled_card]
       else [])
    (fun _ => None) (fun _ => []) (fun _ => None) (fun _ => None).

(** A page whose only link reads "Fuel Center" and is relative. *)
Definition linked_page : Node :=
  mkNode "Fuel Center" "Fuel Center" None (fun _ => []) (fun _ => None)
    (fun _ => []) (fun _ => None)
    (fun word => Some (Sample.leaf "Fuel Center" (Some "fuel/4956"))).

Definition two_clubs : list ClubInfo :=
  [ mkClubInfo "A" "a" "" "" (Some [("Regular", "$3.459");
                                   ("Premium", "$3.999")]);
    mkClubInfo "B" "b" "" "" (Some [("Regular", "$3.40");
                                   ("Unknown", "$1.00")]) ].

Definition week : list PriceRow :=
  [ mkPriceRow "Tempe" "Regular" "$3.10" "2025-08-24" "08:00:00" "scraped";
    mkPriceRow "Tempe" "Regular" "$3.05" "2025-08-25" "08:00:00" "scraped";
    mkPriceRow "Tempe" "Premium" "$3.99" "2025-08-25" "08:00:00" "scraped";
    mkPriceRow "Yuma" "Regular" "n/a" "2025-08-26" "08:00:00" "manual";
    mkPriceRow "Tempe" "Regular" "$2.99" "2025-08-10" "08:00:00" "scraped" ].

(** Stands in for [sum(prices) / len(prices)] when [get_price_trends] is run
    on the sample data; no property depends on it. *)
Definition first_price (l : list PyFloat.float) : PyFloat.float :=
  match l with
  | x :: _ => x
  | [] => PyFloat.nan
  end.

(** A page with an [address] element. *)
Definition address_page : Node :=
  mkNode "Sam's Club 1459 W Elliot Rd" "Sam's Club 1459 W Elliot Rd" None
    (fun _ => [])
    (fun selector =>
       if String.eqb selector "address"
       then Some (Sample.leaf "1459 W Elliot Rd" None) else None)
    (fun _ => []) (fun _ => None) (fun _ => None).

(** A page that asks whether the visitor is a robot. *)
Definition challenge_page : Node := Sample.plain_page "Are you a robot?".

(** A card of the primary layout that reads "No prices available" where a
    fuel type would be and "NAN" where a price would be. *)
Definition no_prices_card : Node :=
  mkNode "No prices availableNAN" "No prices availableNAN" None
    (fun _ => []) (fun _ => None) (fun _ => [])
    (fun class =>
       if String.eqb class "tc f6 fw4 lh-title"
       then Some (Sample.leaf "No prices available" None)
       else if String.eqb class "flex items-center justify-center f2 fw5"
       then Some (Sample.leaf "NAN" None)
       else None)
    (fun _ => None).

(** A page with that one card. *)
Definition no_prices_page : Node :=
  mkNode "No prices availableNAN" "No prices availableNAN" None
    (fun _ => []) (fun _ => None)
    (fun class =>
       if String.eqb class "pa3 br3 flex-grow-1" then [no_prices_card]
       else [])
    (fun _ => None) (fun _ => None).

End Cases.

(** A price that parses, offered for a fuel type by a row of the batch that
    [identify_lowest_prices] does not filter out. *)
Definition offered {F} (to_float : string -> option F)
    (clubs_data : list ClubInfo) (fuel_type : string) (value : F)
    (club : ClubInfo) : Prop :=
  exists rows price,
    In club clubs_data /\ prices club = Some rows /\
    In (fuel_type, price) rows /\ Py.mem fuel_type not_aggregated = false /\
    to_float (Py.remove_char "," (Py.remove_char "$" price)) = Some value.

(** Every price in [P] has an entry of the dict for its fuel type, and is
    not less than that entry's. *)
Definition bounded {F} (float_lt : F -> F -> bool)
    (acc : Py.dict (Lowest F)) (P : string -> F -> Prop) : Prop :=
  forall category value, P category value ->
    exists entry, Py.get acc category = Some entry /\
                  float_lt value (lp_price entry) = false.

(** * Properties *)

Lemma after_bind A B (m : M A) (f : A -> M B) s :
  after (bind m f) s = after (f (result m s)) (after m s).
Proof. reflexivity. Qed.

Lemma result_bind A B (m : M A) (f : A -> M B) s :
  result (bind m f) s = result (f (result m s)) (after m s).
Proof. reflexivity. Qed.

Lemma after_ret A (a : A) s : after (ret a) s = s.
Proof. reflexivity. Qed.

Lemma result_ret A (a : A) s : result (ret a) s = a.
Proof. reflexivity. Qed.

(** ** Frame rules, for any reflexive and transitive relation on databases *)

Create HintDb keeps.

Section Frames.

Variable R : DB -> DB -> Prop.
Hypothesis R_refl : forall d, R d d.
Hypothesis R_trans : forall a b c, R a b -> R b c -> R a c.

Lemma keeps_ret A (a : A) : keeps R (ret a).
Proof. intro s. apply R_refl. Qed.

Lemma keeps_bind A B (m : M A) (f : A -> M B) :
  keeps R m -> (forall a, keeps R (f a)) -> keeps R (bind m f).
Proof.
  intros Hm Hf s. rewrite after_bind.
  eapply R_trans; [apply Hm | apply Hf].
Qed.

Lemma keeps_same_db A (m : M A) :
  (forall s, db (after m s) = db s) -> keeps R m.
Proof. intros H s. rewrite H. apply R_refl. Qed.

Lemma keeps_write_db (f : DB -> DB) :
  (forall d, R d (f d)) -> keeps R (write_db f).
Proof. intros H s. apply H. Qed.

Lemma keeps_for_each A (xs : list A) (body : A -> M unit) :
  (forall x, keeps R (body x)) -> keeps R (for_each xs body).
Proof.
  intro H. induction xs as [|x xs IH]; simpl.
  - apply keeps_ret.
  - apply keeps_bind; auto.
Qed.

Lemma keeps_map_m A B (body : A -> M B) (xs : list A) :
  (forall x, keeps R (body x)) -> keeps R (map_m body xs).
Proof.
  intro H. induction xs as [|x xs IH]; simpl.
  - apply keeps_ret.
  - apply keeps_bind; [apply H|]. intro y.
    apply keeps_bind; [apply IH|]. intro ys. apply keeps_ret.
Qed.

Variable w : World.

Lemma keeps_get_today_date : keeps R (get_today_date w).
Proof. apply keeps_same_db. reflexivity. Qed.

Lemma keeps_get_current_time : keeps R (get_current_time w).
Proof. apply keeps_same_db. reflexivity. Qed.

Lemma keeps_requests_get url : keeps R (requests_get w url).
Proof. apply keeps_same_db. reflexivity. Qed.

Lemma keeps_sleep : keeps R sleep.
Proof. apply keeps_same_db. reflexivity. Qed.

Lemma keeps_read_db A (f : DB -> A) : keeps R (read_db f).
Proof. apply keeps_same_db. reflexivity. Qed.

Lemma keeps_known_address club_name : keeps R (known_address club_name).
Proof. apply keeps_same_db. reflexivity. Qed.

Lemma keeps_all_locations : keeps R all_locations.
Proof. apply keeps_same_db. reflexivity. Qed.

Lemma keeps_add_new_club n u : keeps R (add_new_club n u).
Proof. apply keeps_same_db. reflexivity. Qed.

Lemma keeps_update_known_address n a : keeps R (update_known_address n a).
Proof. apply keeps_same_db. reflexivity. Qed.

#[local] Hint Resolve keeps_ret keeps_get_today_date keeps_get_current_time
  keeps_requests_get keeps_sleep keeps_read_db keeps_known_address
  keeps_all_locations : keeps.

(** Splits a computation along its binds and case distinctions. *)
Ltac frame :=
  repeat first
    [ apply keeps_for_each; intro
    | apply keeps_bind; [| intro]
    | solve [auto with keeps]
    | match goal with
      | |- keeps _ (match ?x with _ => _ end) => destruct x
      | |- keeps _ (if ?x then _ else _) => destruct x
      | |- keeps _ (let (_, _) := ?x in _) => destruct x
      end ].

Lemma keeps_check_if_scraped_today club_name :
  keeps R (check_if_scraped_today w club_name).
Proof. unfold check_if_scraped_today. frame. Qed.

Lemma keeps_check_if_all_scraped_today : keeps R (check_if_all_scraped_today w).
Proof.
  unfold check_if_all_scraped_today. apply keeps_bind; [frame|].
  intro d. induction (Py.keys d) as [|k ks IH]; simpl.
  - frame.
  - apply keeps_bind; [apply keeps_check_if_scraped_today|].
    intros []; [exact IH | frame].
Qed.

Lemma keeps_get_latest_prices club_name : keeps R (get_latest_prices club_name).
Proof. unfold get_latest_prices. frame. Qed.

Lemma keeps_get_scraping_stats : keeps R (get_scraping_stats w).
Proof. unfold get_scraping_stats. frame. Qed.

Lemma keeps_fetch_html url retries : keeps R (fetch_html w url retries).
Proof.
  induction retries as [|n IH]; simpl; [frame|].
  apply keeps_bind; [frame|]. intro resp.
  destruct resp as [e|[e|] text soup]; frame; exact IH.
Qed.

Lemma keeps_get_club_info club_url club_name :
  keeps R (get_club_info w club_url club_name).
Proof.
  unfold get_club_info.
  apply keeps_bind; [apply keeps_fetch_html|]. intro soup. frame.
Qed.

Lemma keeps_get_fuel_link club_url : keeps R (get_fuel_link w club_url).
Proof.
  unfold get_fuel_link.
  apply keeps_bind; [apply keeps_fetch_html|]. intro soup. frame.
Qed.

Lemma keeps_get_gas_prices url : keeps R (get_gas_prices w url).
Proof. unfold get_gas_prices. frame. Qed.

Lemma keeps_use_cached n u : keeps R (use_cached n u).
Proof.
  unfold use_cached.
  apply keeps_bind; [apply keeps_get_latest_prices|]. intro. frame.
Qed.

Lemma keeps_fetch_club n u : keeps R (fetch_club w n u).
Proof.
  unfold fetch_club.
  apply keeps_bind; [apply keeps_get_club_info|]. intro.
  apply keeps_bind; [apply keeps_get_fuel_link|]. intro fuel.
  apply keeps_bind; [|intro; apply keeps_ret].
  destruct fuel as [u'|]; [destruct (_ && _)|]; apply keeps_get_gas_prices.
Qed.

(** What remains to be shown of the three writers for a given [R]. *)
Hypothesis R_log : forall d r,
  R d (mkDB (clubs d) (price_history d) (scraping_log d ++ [r])).
Hypothesis R_price : forall d r,
  R d (mkDB (clubs d) (price_history d ++ [r]) (scraping_log d)).
Hypothesis R_clubs : forall d cs,
  R d (mkDB cs (price_history d) (scraping_log d)).

Lemma keeps_log_scraping_attempt n ok e k :
  keeps R (log_scraping_attempt w n ok e k).
Proof.
  unfold log_scraping_attempt. frame.
  apply keeps_write_db. intro d. apply R_log.
Qed.

Lemma keeps_save_club_info c : keeps R (save_club_info w c).
Proof.
  unfold save_club_info. frame.
  apply keeps_write_db. intro d. cbv zeta. apply R_clubs.
Qed.

Lemma keeps_insert_price r : keeps R (insert_price r).
Proof. apply keeps_write_db. intro d. apply R_price. Qed.

Lemma keeps_save_price_data n ps : keeps R (save_price_data w n ps).
Proof.
  unfold save_price_data. destruct ps as [|p ps]; [frame|].
  frame. apply keeps_insert_price.
Qed.

Lemma keeps_add_manual_prices n f p : keeps R (add_manual_prices w n f p).
Proof. unfold add_manual_prices. frame. apply keeps_insert_price. Qed.

Lemma keeps_reconcile n c ps : keeps R (reconcile w n c ps).
Proof.
  unfold reconcile.
  apply keeps_bind.
  - destruct (valid_prices ps); [frame|].
    apply keeps_bind; [apply keeps_get_latest_prices|]. intro. frame.
  - intros [[[ok e] k] ps'].
    apply keeps_bind; [apply keeps_log_scraping_attempt|]. intro.
    apply keeps_bind; [apply keeps_save_club_info|]. intro.
    apply keeps_bind; [apply keeps_save_price_data|]. intro. frame.
Qed.

Lemma keeps_scrape_club n u : keeps R (scrape_club w n u).
Proof.
  unfold scrape_club.
  apply keeps_bind; [apply keeps_fetch_club|]. intro.
  apply keeps_bind; [apply keeps_reconcile|]. intro. frame.
Qed.

Lemma keeps_process_club n u : keeps R (process_club w n u).
Proof.
  unfold process_club.
  apply keeps_bind; [apply keeps_check_if_scraped_today|].
  intros []; [apply keeps_use_cached | apply keeps_scrape_club].
Qed.

Lemma keeps_scrape_all_clubs : keeps R (scrape_all_clubs w).
Proof.
  unfold scrape_all_clubs.
  apply keeps_bind; [frame|]. intro.
  apply keeps_bind; [apply keeps_get_scraping_stats|]. intro.
  apply keeps_map_m. intros [n u]. apply keeps_process_club.
Qed.

(** Every operation of the core keeps [R]. *)
Lemma keeps_run op s : R (db s) (db (run w op s)).
Proof.
  destruct op; unfold run.
  - apply keeps_ret.
  - apply keeps_check_if_scraped_today.
  - apply keeps_check_if_all_scraped_today.
  - apply keeps_log_scraping_attempt.
  - apply keeps_save_club_info.
  - apply keeps_save_price_data.
  - apply keeps_get_latest_prices.
  - apply keeps_add_manual_prices.
  - apply keeps_add_new_club.
  - apply keeps_update_known_address.
  - apply keeps_get_scraping_stats.
  - apply keeps_get_club_info.
  - apply keeps_get_fuel_link.
  - apply keeps_get_gas_prices.
  - apply keeps_scrape_all_clubs.
Qed.

Lemma keeps_steps s s' : steps w s s' -> R (db s) (db s').
Proof.
  induction 1 as [s|s s' op _ IH].
  - apply R_refl.
  - eapply R_trans; [exact IH | apply keeps_run].
Qed.

End Frames.

(** ** The three relations are preorders, and which writers they admit *)

Lemma log_extended_refl d : log_extended d d.
Proof. exists []. now rewrite app_nil_r. Qed.

Lemma log_extended_trans a b c :
  log_extended a b -> log_extended b c -> log_extended a c.
Proof.
  intros [m1 H1] [m2 H2]. exists (m1 ++ m2).
  now rewrite H2, H1, app_assoc.
Qed.

Lemma same_log_trans a b c : same_log a b -> same_log b c -> same_log a c.
Proof. unfold same_log. congruence. Qed.

Lemma same_history_trans a b c :
  same_history a b -> same_history b c -> same_history a c.
Proof. unfold same_history. congruence. Qed.

Lemma eq_db_trans (a b c : DB) : a = b -> b = c -> a = c.
Proof. congruence. Qed.

(** No operation of the core removes or rewrites a row of the attempt log. *)
Lemma steps_extend_log w s s' :
  steps w s s' -> log_extended (db s) (db s').
Proof.
  apply keeps_steps.
  - apply log_extended_refl.
  - apply log_extended_trans.
  - intros d r. now exists [r].
  - intros d r. exists []. simpl. now rewrite app_nil_r.
  - intros d cs. exists []. simpl. now rewrite app_nil_r.
Qed.

(** ** History store *)

Lemma check_if_scraped_today_result w club_name s :
  result (check_if_scraped_today w club_name) s = true <->
  exists r, In r (scraping_log (db s)) /\ sl_club_name r = club_name /\
            sl_scraped_date r = today_at w (tick s).
Proof.
  unfold check_if_scraped_today, result, bind, get_today_date, read_db, ret.
  simpl. rewrite Nat.ltb_lt. split.
  - intro H.
    destruct (filter _ (scraping_log (db s))) as [|r l] eqn:E;
      [simpl in H; lia|].
    assert (Hin : In r (r :: l)) by now left.
    rewrite <- E in Hin. apply filter_In in Hin as [Hin Hr].
    apply andb_true_iff in Hr as [Hn Hd].
    apply String.eqb_eq in Hn, Hd. now exists r.
  - intros [r [Hin [Hn Hd]]].
    assert (Hf : In r (filter
                  (fun r => (sl_club_name r =? club_name)%string
                            && (sl_scraped_date r =? today_at w (tick s))%string)
                  (scraping_log (db s)))).
    { apply filter_In. split; [exact Hin|].
      rewrite Hn, Hd, !String.eqb_refl. reflexivity. }
    destruct (filter _ _); [destruct Hf | simpl; lia].
Qed.

Lemma log_scraping_attempt_after w n ok e k s :
  after (log_scraping_attempt w n ok e k) s =
  mkState
    (mkDB (clubs (db s)) (price_history (db s))
       (scraping_log (db s) ++
        [mkLogRow n (today_at w (tick s)) (time_at w (S (tick s))) ok e k]))
    (ADDITIONAL_CLUBS s) (KNOWN_ADDRESSES s) (S (S (tick s))).
Proof. reflexivity. Qed.

(** C1. Once [log_scraping_attempt] has written a row for a club on a date,
    [check_if_scraped_today] answers true for that club at every later point
    of the run at which the clock still shows that date, whatever operations
    of the core were run in between. *)
Theorem already_attempted_stays_true w club_name ok e k s s' :
  steps w (after (log_scraping_attempt w club_name ok e k) s) s' ->
  today_at w (tick s') = today_at w (tick s) ->
  result (check_if_scraped_today w club_name) s' = true.
Proof.
  intros Hsteps Hday.
  apply steps_extend_log in Hsteps as [more Hlog].
  rewrite log_scraping_attempt_after in Hlog. simpl in Hlog.
  apply check_if_scraped_today_result.
  exists (mkLogRow club_name (today_at w (tick s)) (time_at w (S (tick s)))
            ok e k).
  split; [|now split].
  rewrite Hlog, !in_app_iff. left. right. now left.
Qed.

Lemma already_attempted_stays_true_witness :
  let w := Sample.offline in
  let logged :=
    after (log_scraping_attempt w "Tempe" false (Some "No valid prices found") 0)
          initial_state in
  let later :=
    run w (OpCheck "Tempe")
      (run w (OpManual "Tempe" "Regular" "$3.45")
         (run w (OpSavePrices "Tempe" [("Regular", "$3.19")]) logged)) in
  result (check_if_scraped_today w "Tempe") logged = true /\
  result (check_if_scraped_today w "Tempe") later = true.
Proof.
  split.
  - apply (@already_attempted_stays_true Sample.offline "Tempe" false
             (Some "No valid prices found") 0 initial_state).
    + apply steps_refl.
    + reflexivity.
  - apply (@already_attempted_stays_true Sample.offline "Tempe" false
             (Some "No valid prices found") 0 initial_state).
    + repeat apply steps_then. apply steps_refl.
    + reflexivity.
Defined.

Lemma for_each_insert_history club_name today current_time prices s :
  price_history (db (after
    (for_each prices (fun '(fuel_type, price) =>
       if negb (Py.mem fuel_type not_stored)
       then insert_price (mkPriceRow club_name fuel_type price today
                            current_time "scraped")
       else ret tt)) s)) =
  price_history (db s) ++ stored_rows club_name today current_time prices
  /\ tick (after
    (for_each prices (fun '(fuel_type, price) =>
       if negb (Py.mem fuel_type not_stored)
       then insert_price (mkPriceRow club_name fuel_type price today
                            current_time "scraped")
       else ret tt)) s) = tick s.
Proof.
  revert s. unfold stored_rows.
  induction prices as [|[f p] ps IH]; intro s.
  - simpl. now rewrite app_nil_r.
  - cbn [for_each]. rewrite !after_bind.
    destruct (IH (after (if negb (Py.mem f not_stored)
                     then insert_price (mkPriceRow club_name f p today
                                          current_time "scraped")
                     else ret tt) s)) as [IHh IHt].
    rewrite IHh, IHt. cbn [filter fst snd].
    destruct (negb (Py.mem f not_stored)); simpl.
    + now rewrite <- app_assoc.
    + easy.
Qed.

(** What [save_price_data] appends: the rows whose fuel type is none of the
    four strings of its list, in order, stamped with the date and time read
    at the call. *)
Lemma save_price_data_history w club_name prices s :
  price_history (db (after (save_price_data w club_name prices) s)) =
  price_history (db s) ++
  stored_rows club_name (today_at w (tick s)) (time_at w (S (tick s))) prices.
Proof.
  destruct prices as [|row rest].
  - simpl. now rewrite app_nil_r.
  - unfold save_price_data. rewrite !after_bind.
    now rewrite (proj1 (for_each_insert_history _ _ _ _ _)).
Qed.

Lemma save_price_data_same_log w club_name prices s :
  scraping_log (db (after (save_price_data w club_name prices) s)) =
  scraping_log (db s).
Proof.
  apply (@keeps_save_price_data same_log); unfold same_log; try reflexivity.
  apply same_log_trans.
Qed.

Lemma stored_rows_none club_name today current_time prices :
  Forall (fun row => Py.mem (fst row) not_stored = true) prices ->
  stored_rows club_name today current_time prices = [].
Proof.
  unfold stored_rows. induction 1 as [|row rows Hrow _ IH].
  - reflexivity.
  - cbn [filter]. rewrite Hrow. exact IH.
Qed.

(** C2. A row whose category is the NO_DATA_FOUND spelling "No cached prices"
    is not dropped by [save_price_data]: it is appended to the price history
    like a price. *)
Theorem save_price_data_keeps_no_cached_prices w club_name value s :
  is_sentinel "No cached prices" = true /\
  price_history
    (db (after (save_price_data w club_name [("No cached prices", value)]) s))
  = price_history (db s) ++
    [mkPriceRow club_name "No cached prices" value (today_at w (tick s))
                (time_at w (S (tick s))) "scraped"].
Proof. split; [reflexivity | apply save_price_data_history]. Qed.

(** C10. [add_manual_prices] appends its row with source "manual" whatever
    the fuel type, also one that [save_price_data] would drop. *)
Theorem add_manual_prices_unconditional w club_name fuel_type price s :
  price_history (db (after (add_manual_prices w club_name fuel_type price) s))
  = price_history (db s) ++
    [mkPriceRow club_name fuel_type price (today_at w (tick s))
                (time_at w (S (tick s))) "manual"]
  /\ (Py.mem fuel_type not_stored = true ->
      price_history
        (db (after (save_price_data w club_name [(fuel_type, price)]) s))
      = price_history (db s)).
Proof.
  split; [reflexivity|]. intro H.
  rewrite save_price_data_history, stored_rows_none, app_nil_r; auto.
Qed.

Lemma add_manual_prices_unconditional_witness :
  let w := Sample.offline in
  price_history (db (after (add_manual_prices w "Tempe" "Unknown" "$3.19")
                       initial_state))
  = [mkPriceRow "Tempe" "Unknown" "$3.19" Sample.day Sample.hour "manual"]
  /\ price_history (db (after (save_price_data w "Tempe" [("Unknown", "$3.19")])
                          initial_state)) = [].
Proof.
  destruct (add_manual_prices_unconditional Sample.offline "Tempe" "Unknown"
              "$3.19" initial_state) as [Hmanual Hscraped].
  split; [exact Hmanual | apply Hscraped; reflexivity].
Defined.

(** ** Reconciliation *)

Lemma valid_prices_iff prices :
  valid_prices prices = true <->
  prices <> [] /\
  ~ exists category value,
      prices = [(category, value)] /\
      (category = "Error" \/ category = "No prices found").
Proof.
  destruct prices as [|[c v] [|row rest]]; simpl.
  - split; [discriminate | intros [H _]; now destruct H].
  - rewrite orb_false_r, negb_true_iff, orb_false_iff, !String.eqb_neq.
    split.
    + intros [H1 H2]. split; [discriminate|].
      intros (c' & v' & Heq & Hc). injection Heq as -> ->. tauto.
    + intros [_ H]. split; intro Hc; apply H; exists c, v; auto.
  - split; [|reflexivity]. intros _. split; [discriminate|].
    intros (c' & v' & Heq & _). discriminate.
Qed.

Lemma save_club_info_frame w club_info s :
  scraping_log (db (after (save_club_info w club_info) s))
  = scraping_log (db s) /\
  price_history (db (after (save_club_info w club_info) s))
  = price_history (db s) /\
  tick (after (save_club_info w club_info) s) = S (S (tick s)).
Proof. repeat split. Qed.

(** What [reconcile] leaves in the log and in the price history. *)
Lemma reconcile_effect w club club_info prices s :
  let ok := valid_prices prices in
  let kept :=
    if ok then prices
    else or_default (result (get_latest_prices club) s)
                    [("No prices available", "NAN")] in
  scraping_log (db (after (reconcile w club club_info prices) s))
  = scraping_log (db s) ++
    [mkLogRow club (today_at w (tick s)) (time_at w (S (tick s))) ok
       (if ok then None else Some "No valid prices found")
       (if ok then length prices else 0)]
  /\ price_history (db (after (reconcile w club club_info prices) s))
  = price_history (db s) ++
    stored_rows club (today_at w (4 + tick s)) (time_at w (5 + tick s)) kept.
Proof.
  intros ok kept. unfold reconcile. rewrite after_bind.
  assert (Hout :
    result (if valid_prices prices
            then ret (true, None, length prices, prices)
            else cached_prices <- get_latest_prices club ;;
                 ret (false, Some "No valid prices found", 0,
                      or_default cached_prices
                        [("No prices available", "NAN")])) s
    = (ok, if ok then None else Some "No valid prices found",
       if ok then length prices else 0, kept)
    /\ after (if valid_prices prices
            then ret (true, None, length prices, prices)
            else cached_prices <- get_latest_prices club ;;
                 ret (false, Some "No valid prices found", 0,
                      or_default cached_prices
                        [("No prices available", "NAN")])) s = s).
  { subst ok kept. destruct (valid_prices prices); split; reflexivity. }
  destruct Hout as [-> ->].
  rewrite !after_bind, after_ret.
  split.
  - rewrite save_price_data_same_log.
    rewrite (proj1 (save_club_info_frame w club_info _)).
    now rewrite log_scraping_attempt_after.
  - rewrite save_price_data_history.
    rewrite (proj1 (proj2 (save_club_info_frame w club_info _))).
    rewrite (proj2 (proj2 (save_club_info_frame w club_info _))).
    rewrite log_scraping_attempt_after. reflexivity.
Qed.

Lemma fetch_club_same_db w club url s :
  db (after (fetch_club w club url) s) = db s.
Proof.
  symmetry. apply (@keeps_fetch_club eq); [reflexivity | apply eq_db_trans].
Qed.

Lemma check_if_scraped_today_same_db w club s :
  db (after (check_if_scraped_today w club) s) = db s.
Proof. reflexivity. Qed.

(** A club without a log row for today is scraped: what that leaves. *)
Lemma process_club_scrapes w club url s :
  result (check_if_scraped_today w club) s = false ->
  let prices := scraped_prices w club url s in
  let ok := valid_prices prices in
  exists today now today' now' kept,
    scraping_log (db (after (process_club w club url) s))
    = scraping_log (db s) ++
      [mkLogRow club today now ok
         (if ok then None else Some "No valid prices found")
         (if ok then length prices else 0)]
    /\ price_history (db (after (process_club w club url) s))
    = price_history (db s) ++ stored_rows club today' now' kept
    /\ (ok = true -> kept = prices).
Proof.
  intros Hcheck prices ok.
  unfold process_club. rewrite after_bind, Hcheck.
  unfold scrape_club. rewrite !after_bind, after_ret.
  change (after sleep ?x) with (next x).
  change (db (next ?x)) with (db x).
  set (s0 := after (check_if_scraped_today w club) s).
  set (s1 := after (fetch_club w club url) s0).
  destruct (reconcile_effect w club (fst (result (fetch_club w club url) s0))
              (snd (result (fetch_club w club url) s0)) s1) as [Hlog Hhist].
  assert (Hdb : db s1 = db s).
  { subst s1 s0. now rewrite fetch_club_same_db. }
  rewrite Hdb in Hlog, Hhist.
  do 5 eexists. split; [exact Hlog|]. split; [exact Hhist|].
  intro Hok. subst ok prices. unfold scraped_prices in *. fold s0 in Hok |- *.
  now rewrite Hok.
Qed.

(** C3, as the code has it. When a club is scraped (no log row for it
    today), exactly one row is added to the attempt log, and its success
    flag is set iff the extracted price rows are non-empty and are not a
    single row whose category is "Error" or "No prices found", the two rows
    that [get_gas_prices] makes up itself; the other two spellings of
    NO_DATA_FOUND are not looked for. *)
Theorem attempt_classified w club url s :
  result (check_if_scraped_today w club) s = false ->
  exists r,
    scraping_log (db (after (process_club w club url) s))
    = scraping_log (db s) ++ [r] /\
    sl_club_name r = club /\
    (sl_success r = true <->
     scraped_prices w club url s <> [] /\
     ~ exists category value,
         scraped_prices w club url s = [(category, value)] /\
         (category = "Error" \/ category = "No prices found")).
Proof.
  intro Hcheck.
  destruct (process_club_scrapes w club url s Hcheck)
    as (today & now & _ & _ & _ & Hlog & _).
  eexists. split; [exact Hlog|]. split; [reflexivity|].
  simpl. apply valid_prices_iff.
Qed.

Lemma attempt_classified_witness :
  exists r,
    scraping_log (db (after (process_club Sample.offline "Tempe"
                               Sample.tempe_url) initial_state))
    = [] ++ [r] /\
    sl_club_name r = "Tempe" /\
    (sl_success r = true <->
     scraped_prices Sample.offline "Tempe" Sample.tempe_url initial_state
       <> [] /\
     ~ exists category value,
         scraped_prices Sample.offline "Tempe" Sample.tempe_url initial_state
         = [(category, value)] /\
         (category = "Error" \/ category = "No prices found")).
Proof.
  apply (attempt_classified Sample.offline "Tempe" Sample.tempe_url
           initial_state).
  reflexivity.
Defined.

(** C3, as the claim has it, fails. The page of Tempe shows one card that
    reads "No prices available": the extracted rows are the single row
    ("No prices available", "NAN"), whose category is a sentinel of the
    taxonomy, a spelling of NO_DATA_FOUND, and the attempt is logged as a
    success with one price found. *)
Lemma single_no_data_row_logged_as_success :
  let w := Sample.serving Cases.no_prices_page in
  result (check_if_scraped_today w "Tempe") initial_state = false /\
  scraped_prices w "Tempe" Sample.tempe_url initial_state
  = [("No prices available", "NAN")] /\
  is_sentinel "No prices available" = true /\
  scraping_log (db (after (process_club w "Tempe" Sample.tempe_url)
                      initial_state))
  = [mkLogRow "Tempe" Sample.day Sample.hour true None 1].
Proof. repeat split. Qed.

(** C9. When the scrape of a club yields one or more rows that are all
    tagged "Unknown", the attempt is logged as a success with [prices_found]
    the number of rows, and not one row is added to the price history. *)
Theorem unknown_rows_counted_not_stored w club url s :
  result (check_if_scraped_today w club) s = false ->
  scraped_prices w club url s <> [] ->
  Forall (fun row => fst row = "Unknown") (scraped_prices w club url s) ->
  exists r,
    scraping_log (db (after (process_club w club url) s))
    = scraping_log (db s) ++ [r] /\
    sl_success r = true /\
    sl_prices_found r = length (scraped_prices w club url s) /\
    price_history (db (after (process_club w club url) s))
    = price_history (db s).
Proof.
  intros Hcheck Hne Hall.
  destruct (process_club_scrapes w club url s Hcheck)
    as (today & now & today' & now' & kept & Hlog & Hhist & Hkept).
  assert (Hok : valid_prices (scraped_prices w club url s) = true).
  { apply valid_prices_iff. split; [exact Hne|].
    intros (c & v & Heq & Hc). rewrite Heq in Hall.
    inversion Hall as [|? ? Hrow _]. simpl in Hrow. subst c.
    destruct Hc; discriminate. }
  rewrite Hok in Hlog. rewrite (Hkept Hok) in Hhist.
  eexists. split; [exact Hlog|]. repeat split.
  rewrite Hhist, stored_rows_none; [apply app_nil_r|].
  eapply Forall_impl; [|exact Hall]. intros row ->. reflexivity.
Qed.

Lemma unknown_rows_counted_not_stored_witness :
  let w := Sample.serving Sample.price_text_page in
  scraped_prices w "Tempe" Sample.tempe_url initial_state
  = [("Unknown", "$3.19")] /\
  exists r,
    scraping_log (db (after (process_club w "Tempe" Sample.tempe_url)
                        initial_state)) = [] ++ [r] /\
    sl_success r = true /\
    sl_prices_found r =
      length (scraped_prices w "Tempe" Sample.tempe_url initial_state) /\
    price_history (db (after (process_club w "Tempe" Sample.tempe_url)
                         initial_state)) = [].
Proof.
  split; [reflexivity|].
  apply (unknown_rows_counted_not_stored
           (Sample.serving Sample.price_text_page) "Tempe" Sample.tempe_url
           initial_state).
  - reflexivity.
  - discriminate.
  - repeat constructor.
Defined.

(** ** Latest value per category *)

Lemma compare_lt_trans a b c :
  String_as_OT.compare a b = Lt -> String_as_OT.compare b c = Lt ->
  String_as_OT.compare a c = Lt.
Proof.
  intros H1 H2.
  exact (@StrictOrder_Transitive _ _ String_as_OT.lt_strorder a b c H1 H2).
Qed.

Lemma compare_eq a b : String_as_OT.compare a b = Eq -> a = b.
Proof.
  intro H. destruct (String_as_OT.compare_spec a b); congruence.
Qed.

Lemma compare_refl a : String_as_OT.compare a a = Eq.
Proof.
  destruct (String_as_OT.compare_spec a a) as [_|H|H]; [reflexivity| |];
    exfalso; exact (@StrictOrder_Irreflexive _ _ String_as_OT.lt_strorder a H).
Qed.

Lemma compare_gt_lt a b :
  String_as_OT.compare a b = Gt -> String_as_OT.compare b a = Lt.
Proof.
  intro H. destruct (String_as_OT.compare_spec a b) as [|Hlt|Hlt];
    try discriminate. exact Hlt.
Qed.

Lemma compare_lt_not_gt a b :
  String_as_OT.compare a b = Lt -> String_as_OT.compare b a = Gt.
Proof.
  intro H. destruct (String_as_OT.compare b a) eqn:E; [| |reflexivity].
  - apply compare_eq in E. subst. rewrite compare_refl in H. discriminate.
  - pose proof (compare_lt_trans _ _ _ H E) as Hc.
    rewrite compare_refl in Hc. discriminate.
Qed.

Lemma str_leb_refl a : str_leb a a = true.
Proof. unfold str_leb. now rewrite compare_refl. Qed.

Lemma str_leb_trans a b c :
  str_leb a b = true -> str_leb b c = true -> str_leb a c = true.
Proof.
  unfold str_leb.
  destruct (String_as_OT.compare a b) eqn:E1; try discriminate;
  destruct (String_as_OT.compare b c) eqn:E2; try discriminate; intros _ _.
  - apply compare_eq in E1, E2. subst. now rewrite compare_refl.
  - apply compare_eq in E1. subst. now rewrite E2.
  - apply compare_eq in E2. subst. now rewrite E1.
  - now rewrite (compare_lt_trans _ _ _ E1 E2).
Qed.

Lemma str_leb_total a b : str_leb a b = false -> str_leb b a = true.
Proof.
  unfold str_leb. destruct (String_as_OT.compare a b) eqn:E; try discriminate.
  intros _. now rewrite (compare_gt_lt _ _ E).
Qed.

Lemma stamp_leb_refl a : stamp_leb a a = true.
Proof. unfold stamp_leb. rewrite compare_refl. apply str_leb_refl. Qed.

Lemma stamp_leb_trans a b c :
  stamp_leb a b = true -> stamp_leb b c = true -> stamp_leb a c = true.
Proof.
  unfold stamp_leb.
  destruct (String_as_OT.compare (fst a) (fst b)) eqn:E1; try discriminate;
  destruct (String_as_OT.compare (fst b) (fst c)) eqn:E2; try discriminate.
  - apply compare_eq in E1, E2. rewrite E1, E2, compare_refl.
    apply str_leb_trans.
  - apply compare_eq in E1. rewrite E1, E2. reflexivity.
  - apply compare_eq in E2. rewrite <- E2, E1. reflexivity.
  - now rewrite (compare_lt_trans _ _ _ E1 E2).
Qed.

Lemma stamp_leb_total a b : stamp_leb a b = false -> stamp_leb b a = true.
Proof.
  unfold stamp_leb.
  destruct (String_as_OT.compare (fst a) (fst b)) eqn:E; try discriminate.
  - apply compare_eq in E. rewrite E, compare_refl. apply str_leb_total.
  - intros _. now rewrite (compare_gt_lt _ _ E).
Qed.

Lemma insert_desc_In r l x : In x (insert_desc r l) <-> x = r \/ In x l.
Proof.
  induction l as [|y l IH]; simpl.
  - intuition.
  - destruct (stamp_leb (stamp y) (stamp r)); simpl; rewrite ?IH; intuition.
Qed.

Lemma order_by_desc_In l x : In x (order_by_desc l) <-> In x l.
Proof.
  induction l as [|y l IH]; simpl; [tauto|].
  rewrite insert_desc_In, IH. intuition.
Qed.

Lemma insert_desc_sorted r l :
  StronglySorted (fun a b => stamp_leb (stamp b) (stamp a) = true) l ->
  StronglySorted (fun a b => stamp_leb (stamp b) (stamp a) = true)
                 (insert_desc r l).
Proof.
  induction 1 as [|y l Hs IH Hall]; simpl.
  - repeat constructor.
  - destruct (stamp_leb (stamp y) (stamp r)) eqn:E.
    + constructor; [now constructor|].
      constructor; [exact E|].
      eapply Forall_impl; [|exact Hall].
      intros x Hx. simpl in Hx. eapply stamp_leb_trans; eauto.
    + apply stamp_leb_total in E.
      constructor; [exact IH|].
      apply Forall_forall. intros x Hx.
      apply insert_desc_In in Hx as [->|Hx]; [exact E|].
      rewrite Forall_forall in Hall. now apply Hall.
Qed.

Lemma order_by_desc_sorted l :
  StronglySorted (fun a b => stamp_leb (stamp b) (stamp a) = true)
                 (order_by_desc l).
Proof.
  induction l as [|y l IH]; simpl; [constructor|].
  now apply insert_desc_sorted.
Qed.

Lemma sorted_after A (R : A -> A -> Prop) l1 x l2 :
  StronglySorted R (l1 ++ x :: l2) -> Forall (R x) l2.
Proof.
  induction l1 as [|y l1 IH]; simpl; intro H;
    apply StronglySorted_inv in H as [H1 H2]; auto.
Qed.

Lemma get_None_keys V (d : Py.dict V) k :
  Py.get d k = None <-> ~ In k (Py.keys d).
Proof.
  induction d as [|[k' v] d IH]; simpl; [tauto|].
  destruct (String.eqb_spec k k') as [->|Hne].
  - split; [discriminate | intro H; exfalso; apply H; now left].
  - rewrite IH. split; [intros H [E|Hin]; congruence | tauto].
Qed.

Lemma set_absent V (d : Py.dict V) k v :
  Py.get d k = None -> Py.set d k v = d ++ [(k, v)].
Proof.
  induction d as [|[k' v'] d IH]; simpl; [reflexivity|].
  destruct (String.eqb k k'); [discriminate|].
  intro H. now rewrite IH.
Qed.

Lemma first_seen_step fuel_type price rest latest :
  first_seen ((fuel_type, price) :: rest) latest =
  first_seen rest
    (match Py.get latest fuel_type with
     | Some _ => latest
     | None => latest ++ [(fuel_type, price)]
     end).
Proof.
  simpl. unfold Py.has_key.
  destruct (Py.get latest fuel_type) eqn:E; simpl; [reflexivity|].
  now rewrite set_absent.
Qed.

Lemma first_seen_NoDup rows latest :
  NoDup (Py.keys latest) -> NoDup (Py.keys (first_seen rows latest)).
Proof.
  revert latest. induction rows as [|[f p] rest IH]; intros latest H.
  - exact H.
  - rewrite first_seen_step. apply IH.
    destruct (Py.get latest f) eqn:E; [exact H|].
    unfold Py.keys. rewrite map_app. simpl.
    apply Permutation_NoDup with (l := f :: map fst latest).
    + apply Permutation_cons_append.
    + constructor; [now apply get_None_keys | exact H].
Qed.

(** A pair of the dict comes from the first row with its key. *)
Lemma first_seen_first rows latest fuel_type price :
  In (fuel_type, price) (first_seen rows latest) ->
  In (fuel_type, price) latest \/
  (Py.get latest fuel_type = None /\
   exists before later,
     rows = before ++ (fuel_type, price) :: later /\
     ~ In fuel_type (map fst before)).
Proof.
  revert latest. induction rows as [|[f p] rest IH]; intros latest H.
  - now left.
  - rewrite first_seen_step in H. apply IH in H.
    destruct (Py.get latest f) eqn:E.
    + destruct H as [H|(Hget & before & later & -> & Hnot)]; [now left|].
      right. split; [exact Hget|].
      exists ((f, p) :: before), later. split; [reflexivity|].
      simpl. intros [->|Hin]; [congruence | tauto].
    + destruct H as [H|(Hget & before & later & -> & Hnot)].
      * apply in_app_or in H as [H|[H|[]]]; [now left|].
        injection H as -> ->. right. split; [exact E|].
        now exists [], rest.
      * apply get_None_keys in Hget. unfold Py.keys in Hget.
        rewrite map_app, in_app_iff in Hget. simpl in Hget.
        right. split; [apply get_None_keys; tauto|].
        exists ((f, p) :: before), later. split; [reflexivity|].
        simpl. intros [->|Hin]; tauto.
Qed.

(** Whatever order the query gives to rows with equal stamps: the first row
    of a fuel type among the ten first of a newest-first listing of the
    club's rows is one than which no row of the club for that fuel type is
    later. *)
Lemma first_seen_newest (listing : list PriceRow) d club_name :
  StronglySorted (fun a b => stamp_leb (stamp b) (stamp a) = true) listing ->
  (forall r, In r listing <->
             In r (price_history d) /\ ph_club_name r = club_name) ->
  forall fuel_type price,
    In (fuel_type, price)
       (first_seen (map (fun r => (ph_fuel_type r, ph_price r))
                        (firstn 10 listing)) []) ->
    newest_for d club_name fuel_type price.
Proof.
  intros Hord Hmem c v H.
  apply first_seen_first in H
    as [[]|(_ & before & later & Hrows & Hnot)].
  apply map_eq_app in Hrows as (top & rest & Htop & Hbefore & Hrest).
  apply map_eq_cons in Hrest as (r & below & -> & Hr & _).
  injection Hr as Hc Hv.
  assert (Hlisting : listing = top ++ r :: (below ++ skipn 10 listing)).
  { rewrite <- (firstn_skipn 10 listing) at 1. rewrite Htop.
    now rewrite <- app_assoc. }
  assert (Hin : In r listing).
  { rewrite Hlisting. apply in_elt. }
  apply Hmem in Hin as [Hin Hclub].
  exists r. repeat split; auto.
  intros r' Hin' Hclub' Hfuel'.
  assert (Hs : In r' listing) by now apply Hmem.
  rewrite Hlisting in Hord, Hs.
  apply sorted_after in Hord. rewrite Forall_forall in Hord.
  apply in_app_or in Hs as [Hs|[<-|Hs]].
  - exfalso. apply Hnot. rewrite <- Hbefore, map_map.
    apply in_map_iff. exists r'. split; [simpl; congruence | exact Hs].
  - apply stamp_leb_refl.
  - now apply Hord.
Qed.

(** C4. [get_latest_prices] gives at most one price per fuel type, and each
    price it gives is that of a row of the club for that fuel type than which
    no row of the club for that fuel type has a later (date, time). *)
Theorem latest_prices_newest club_name s :
  NoDup (map fst (result (get_latest_prices club_name) s)) /\
  forall fuel_type price,
    In (fuel_type, price) (result (get_latest_prices club_name) s) ->
    newest_for (db s) club_name fuel_type price.
Proof.
  change (result (get_latest_prices club_name) s)
    with (first_seen (select_latest club_name (db s)) []).
  split; [apply first_seen_NoDup; constructor|].
  apply first_seen_newest.
  - apply order_by_desc_sorted.
  - intro r. rewrite order_by_desc_In, filter_In, String.eqb_eq. tauto.
Qed.

Lemma latest_prices_newest_witness :
  let s := Sample.with_history
             [Sample.regular_yesterday; Sample.regular_today;
              Sample.premium_today] in
  In ("Regular", "$3.05") (result (get_latest_prices "Tempe") s) /\
  newest_for (db s) "Tempe" "Regular" "$3.05".
Proof.
  split.
  - left. reflexivity.
  - apply (proj2 (latest_prices_newest "Tempe"
             (Sample.with_history
                [Sample.regular_yesterday; Sample.regular_today;
                 Sample.premium_today]))).
    left. reflexivity.
Defined.

(** ** Extraction pipeline *)

Lemma fetch_html_registry w url retries s :
  KNOWN_ADDRESSES (after (fetch_html w url retries) s) = KNOWN_ADDRESSES s.
Proof.
  revert s. induction retries as [|n IH]; intro s; [reflexivity|].
  cbn [fetch_html]. rewrite after_bind.
  change (result (requests_get w url) s) with (net w (tick s) url).
  destruct (net w (tick s) url) as [e|[e|] text soup].
  - rewrite after_bind, IH. now destruct n.
  - rewrite after_bind, IH. now destruct n.
  - now destruct (bot_protected text).
Qed.

Lemma get_club_info_address w club_url club_name s :
  cp_address (result (get_club_info w club_url club_name) s) =
  let known := Py.get_default (KNOWN_ADDRESSES s) club_name "NAN" in
  match result (fetch_html w club_url 1) s with
  | None => known
  | Some soup =>
      let address :=
        match first_select_one soup address_selectors with
        | Some addr_elem => get_text_strip addr_elem
        | None => known
        end in
      if String.eqb address "NAN"
      then match Re.search address_pattern (get_text soup) with
           | Some addr_match => addr_match
           | None => address
           end
      else address
  end.
Proof.
  unfold get_club_info. rewrite !result_bind.
  pose proof (fetch_html_registry w club_url 1 s) as Hk.
  change (result (known_address club_name) ?x)
    with (Py.get_default (KNOWN_ADDRESSES x) club_name "NAN").
  rewrite Hk.
  destruct (result (fetch_html w club_url 1) s); reflexivity.
Qed.

(** With a known address on record, the text of a fetched page is not
    scanned, whatever it holds, when no selector matches. *)
Lemma known_address_skips_scan w club_url club_name s soup known :
  result (fetch_html w club_url 1) s = Some soup ->
  first_select_one soup address_selectors = None ->
  Py.get (KNOWN_ADDRESSES s) club_name = Some known ->
  known <> "NAN" ->
  cp_address (result (get_club_info w club_url club_name) s) = known.
Proof.
  intros Hfetch Hsel Hknown Hne.
  rewrite get_club_info_address, Hfetch, Hsel.
  unfold Py.get_default. rewrite Hknown. cbv zeta.
  apply String.eqb_neq in Hne. now rewrite Hne.
Qed.

(** For a club without a known address the strategies come in the order
    selectors, text scan, "NAN". *)
Lemma address_order_without_known w club_url club_name s soup :
  result (fetch_html w club_url 1) s = Some soup ->
  Py.get (KNOWN_ADDRESSES s) club_name = None ->
  (forall addr_elem,
     first_select_one soup address_selectors = Some addr_elem ->
     get_text_strip addr_elem <> "NAN" ->
     cp_address (result (get_club_info w club_url club_name) s)
     = get_text_strip addr_elem) /\
  (first_select_one soup address_selectors = None ->
   cp_address (result (get_club_info w club_url club_name) s)
   = match Re.search address_pattern (get_text soup) with
     | Some addr_match => addr_match
     | None => "NAN"
     end).
Proof.
  intros Hfetch Hknown.
  rewrite get_club_info_address, Hfetch.
  unfold Py.get_default. rewrite Hknown. cbv zeta. split.
  - intros e -> Hne. apply String.eqb_neq in Hne. now rewrite Hne.
  - intros ->. reflexivity.
Qed.

(** C5. For "Avondale", which has a known address, and a fetched page on
    which no address selector matches and whose text holds "Phoenix, AZ
    85001", the address returned is the known one: the scan of the page text,
    which would have found the token, is not consulted. *)
Theorem known_address_preempts_text_scan :
  let w := Sample.serving Sample.phoenix_page in
  result (fetch_html w Sample.avondale_url 1) initial_state
  = Some Sample.phoenix_page /\
  first_select_one Sample.phoenix_page address_selectors = None /\
  Re.search address_pattern (get_text Sample.phoenix_page)
  = Some "Phoenix, AZ 85001" /\
  cp_address
    (result (get_club_info w Sample.avondale_url "Avondale") initial_state)
  = "Avondale, AZ".
Proof. repeat split. Qed.

Lemma get_fuel_link_result w club_url s :
  result (get_fuel_link w club_url) s =
  match match result (fetch_html w club_url 1) s with
        | Some soup => first_fuel_link soup fuel_selectors
        | None => None
        end with
  | Some link => Some link
  | None =>
      if Py.str_in "/club/" club_url
      then Some (club_url ++ "/fuel-center")%string
      else None
  end.
Proof.
  unfold get_fuel_link. rewrite result_bind.
  destruct (match result (fetch_html w club_url 1) s with
            | Some soup => first_fuel_link soup fuel_selectors
            | None => None
            end); [reflexivity|].
  now destruct (Py.str_in "/club/" club_url).
Qed.

(** C6, as the code has it. Whenever the selectors give no link, be it that
    the page could not be fetched or that it was fetched and nothing matched,
    [get_fuel_link] answers [club_url + "/fuel-center"] if [club_url]
    contains "/club/", and "no fuel page" only if it does not. *)
Theorem fuel_link_fallback w club_url s :
  (result (fetch_html w club_url 1) s = None \/
   exists soup, result (fetch_html w club_url 1) s = Some soup /\
                first_fuel_link soup fuel_selectors = None) ->
  result (get_fuel_link w club_url) s =
  if Py.str_in "/club/" club_url
  then Some (club_url ++ "/fuel-center")%string
  else None.
Proof.
  intro H. rewrite get_fuel_link_result.
  destruct H as [->|(soup & -> & ->)]; reflexivity.
Qed.

Lemma fuel_link_fallback_witness :
  result (get_fuel_link Sample.offline "https://example.com/store/12")
         initial_state = None /\
  result (get_fuel_link (Sample.serving Sample.phoenix_page)
            Sample.tempe_url) initial_state
  = Some "https://www.samsclub.com/club/4956-tempe-az/fuel-center".
Proof.
  split.
  - apply (fuel_link_fallback Sample.offline "https://example.com/store/12"
             initial_state).
    left. reflexivity.
  - apply (fuel_link_fallback (Sample.serving Sample.phoenix_page)
             Sample.tempe_url initial_state).
    right. exists Sample.phoenix_page. split; reflexivity.
Defined.

(** C6, as the claim has it, fails: the page of Avondale cannot be fetched,
    and the answer is a synthesized link, not "no fuel page". *)
Lemma unfetched_page_gets_synthesized_link :
  result (fetch_html Sample.offline Sample.avondale_url 1) initial_state
  = None /\
  result (get_fuel_link Sample.offline Sample.avondale_url) initial_state
  = Some "https://www.samsclub.com/club/4830-avondale-az/fuel-center" /\
  result (get_fuel_link Sample.offline Sample.avondale_url) initial_state
  <> None.
Proof. repeat split. discriminate. Qed.

Lemma or_default_nonempty (prices default : list Row) :
  default <> [] -> or_default prices default <> [].
Proof. destruct prices; [auto | discriminate]. Qed.

(** C8. [get_gas_prices] is total and its result is never empty: a request
    that raises, or a status check that raises, gives the single row
    ("Error", message), and a fetched document on which the whole pass finds
    nothing gives the single row ("No prices found", "NAN"). *)
Theorem get_gas_prices_never_empty w url s :
  result (get_gas_prices w url) s <> [] /\
  (forall e, net w (tick s) url = RequestFailed e ->
     result (get_gas_prices w url) s = [("Error", e)]) /\
  (forall e text soup, net w (tick s) url = HttpResponse (Some e) text soup ->
     result (get_gas_prices w url) s = [("Error", e)]) /\
  (forall text soup, net w (tick s) url = HttpResponse None text soup ->
     flat_map price_card (find_all_div soup "pa3 br3 flex-grow-1") = [] ->
     get_gas_prices_fallback soup = [] ->
     result (get_gas_prices w url) s = [("No prices found", "NAN")]).
Proof.
  unfold get_gas_prices. rewrite result_bind.
  change (result (requests_get w url) s) with (net w (tick s) url).
  destruct (net w (tick s) url) as [e|[e|] text soup].
  - repeat split; try discriminate. intros e' [= ->]. reflexivity.
  - repeat split; try discriminate. intros e' ? ? [= -> _ _]. reflexivity.
  - split; [|repeat split; try discriminate].
    + rewrite result_ret. apply or_default_nonempty. discriminate.
    + intros text' soup' [= _ <-] Hcards Hfall.
      now rewrite result_ret, Hcards, Hfall.
Qed.

Lemma get_gas_prices_never_empty_witness :
  result (get_gas_prices Sample.offline Sample.tempe_url) initial_state
  = [("Error", "Timeout")] /\
  result (get_gas_prices (Sample.serving (Sample.plain_page "Closed"))
            Sample.tempe_url) initial_state
  = [("No prices found", "NAN")].
Proof.
  split.
  - apply (proj1 (proj2 (get_gas_prices_never_empty Sample.offline
                           Sample.tempe_url initial_state))).
    reflexivity.
  - apply (proj2 (proj2 (proj2 (get_gas_prices_never_empty
             (Sample.serving (Sample.plain_page "Closed"))
             Sample.tempe_url initial_state)))
           "Closed" (Sample.plain_page "Closed")); reflexivity.
Defined.

(** ** Aggregator *)

Lemma keys_set V (d : Py.dict V) k v x :
  In x (Py.keys (Py.set d k v)) <-> x = k \/ In x (Py.keys d).
Proof.
  induction d as [|[k' v'] d IH]; simpl.
  - intuition.
  - destruct (String.eqb_spec k k') as [->|Hne]; simpl.
    + intuition.
    + rewrite IH. intuition.
Qed.

Section AggregatorFacts.

Variable F : Type.
Variable to_float : string -> option F.
Variable float_lt : F -> F -> bool.

Lemma consider_keys club acc row category :
  In category (Py.keys (consider to_float float_lt club acc row)) ->
  In category (Py.keys acc) \/
  (fst row = category /\ Py.mem category not_aggregated = false /\
   to_float (Py.remove_char "," (Py.remove_char "$" (snd row))) <> None).
Proof.
  destruct row as [fuel_type price]. unfold consider.
  destruct (Py.mem fuel_type not_aggregated) eqn:Hmem; cbn [negb]; auto.
  destruct (to_float _) as [value|] eqn:Hfloat; auto.
  assert (Hnew : forall entry,
    In category (Py.keys (Py.set acc fuel_type entry)) ->
    In category (Py.keys acc) \/
    (fuel_type = category /\ Py.mem category not_aggregated = false /\
     Some value <> None)).
  { intros entry H. apply keys_set in H as [->|H]; auto.
    right. repeat split; auto. discriminate. }
  destruct (Py.get acc fuel_type) as [current|]; [|apply Hnew].
  destruct (float_lt value (lp_price current)); [apply Hnew | auto].
Qed.

Lemma consider_rows_keys club rows acc category :
  In category (Py.keys (fold_left (consider to_float float_lt club) rows acc))
  ->
  In category (Py.keys acc) \/
  exists price,
    In (category, price) rows /\ Py.mem category not_aggregated = false /\
    to_float (Py.remove_char "," (Py.remove_char "$" price)) <> None.
Proof.
  revert acc. induction rows as [|row rows IH]; intros acc H; [now left|].
  simpl in H. apply IH in H as [H|(price & Hin & Hrest)].
  - apply consider_keys in H as [H|(Hrow & Hrest)]; [now left|].
    right. exists (snd row). split; [|exact Hrest].
    left. destruct row; simpl in *; congruence.
  - right. exists price. split; [now right | exact Hrest].
Qed.

(** Every fuel type that [identify_lowest_prices] reports comes from a row
    of the batch whose fuel type is none of the four strings of its list and
    whose price [float] accepts. *)
Lemma lowest_keys_from_rows clubs_data category :
  In category (Py.keys (identify_lowest_prices to_float float_lt clubs_data))
  ->
  exists club rows price,
    In club clubs_data /\ prices club = Some rows /\
    In (category, price) rows /\ Py.mem category not_aggregated = false /\
    to_float (Py.remove_char "," (Py.remove_char "$" price)) <> None.
Proof.
  unfold identify_lowest_prices.
  assert (H : forall acc,
    In category (Py.keys (fold_left (consider_club to_float float_lt)
                            clubs_data acc)) ->
    In category (Py.keys acc) \/
    exists club rows price,
      In club clubs_data /\ prices club = Some rows /\
      In (category, price) rows /\ Py.mem category not_aggregated = false /\
      to_float (Py.remove_char "," (Py.remove_char "$" price)) <> None).
  { induction clubs_data as [|club rest IH]; intros acc H; [now left|].
    simpl in H. apply IH in H as [H|(c & rows & p & Hin & Hrest)].
    - unfold consider_club in H.
      destruct (prices club) as [[|row rows]|] eqn:Hp; auto.
      apply consider_rows_keys in H as [H|(p & Hin & Hrest)]; [now left|].
      right. exists club, (row :: rows), p. split; [now left|]. now split.
    - right. exists c, rows, p. split; [now right | exact Hrest]. }
  intro Hin. apply H in Hin as [[]|Hin]. exact Hin.
Qed.

End AggregatorFacts.

(** C7. On a day on which Tempe was tried without success and has no price
    on record, and every request times out, every row of the batch that
    [scrape_all_clubs] returns is a sentinel row, Tempe's being the
    placeholder ("No cached prices", "NAN"); and [identify_lowest_prices]
    reports "No cached prices" as a fuel type, at price nan. *)
Theorem lowest_reports_no_cached_prices :
  let batch := result (scrape_all_clubs Sample.offline)
                      Sample.tempe_failed_today in
  In Sample.tempe_cached batch /\
  forallb (fun club =>
             match prices club with
             | Some rows => forallb (fun row => is_sentinel (fst row)) rows
             | None => true
             end) batch = true /\
  identify_lowest_prices PyFloat.of_string PyFloat.lt batch
  = [("No cached prices", mkLowest PyFloat.nan "Tempe" "Tempe, AZ")].
Proof. vm_compute. split; [tauto|]. split; reflexivity. Qed.

(** The same at the one club alone. *)
Lemma lowest_of_placeholder :
  identify_lowest_prices PyFloat.of_string PyFloat.lt [Sample.tempe_cached]
  = [("No cached prices", mkLowest PyFloat.nan "Tempe" "Tempe, AZ")].
Proof. reflexivity. Qed.

(** * Further properties of the program *)

(** ** Frame rules on states *)

Create HintDb preserves.

Section StateFrames.

Variable R : State -> State -> Prop.
Hypothesis R_refl : forall s, R s s.
Hypothesis R_trans : forall a b c, R a b -> R b c -> R a c.
Hypothesis R_next : forall s, R s (next s).

Lemma preserves_ret A (a : A) : preserves R (ret a).
Proof. intro s. apply R_refl. Qed.

Lemma preserves_bind A B (m : M A) (f : A -> M B) :
  preserves R m -> (forall a, preserves R (f a)) -> preserves R (bind m f).
Proof.
  intros Hm Hf s. rewrite after_bind.
  eapply R_trans; [apply Hm | apply Hf].
Qed.

Lemma preserves_for_each A (xs : list A) (body : A -> M unit) :
  (forall x, preserves R (body x)) -> preserves R (for_each xs body).
Proof.
  intro H. induction xs as [|x xs IH]; simpl.
  - apply preserves_ret.
  - apply preserves_bind; auto.
Qed.

Lemma preserves_map_m A B (body : A -> M B) (xs : list A) :
  (forall x, preserves R (body x)) -> preserves R (map_m body xs).
Proof.
  intro H. induction xs as [|x xs IH]; simpl.
  - apply preserves_ret.
  - apply preserves_bind; [apply H|]. intro y.
    apply preserves_bind; [apply IH|]. intro ys. apply preserves_ret.
Qed.

Variable w : World.

Lemma preserves_get_today_date : preserves R (get_today_date w).
Proof. intro s. apply R_next. Qed.

Lemma preserves_get_current_time : preserves R (get_current_time w).
Proof. intro s. apply R_next. Qed.

Lemma preserves_requests_get url : preserves R (requests_get w url).
Proof. intro s. apply R_next. Qed.

Lemma preserves_sleep : preserves R sleep.
Proof. intro s. apply R_next. Qed.

Lemma preserves_read_db A (f : DB -> A) : preserves R (read_db f).
Proof. intro s. apply R_refl. Qed.

Lemma preserves_known_address club_name :
  preserves R (known_address club_name).
Proof. intro s. apply R_refl. Qed.

Lemma preserves_all_locations : preserves R all_locations.
Proof. intro s. apply R_refl. Qed.

Lemma preserves_get_price_history cutoff club_name days :
  preserves R (get_price_history cutoff club_name days).
Proof. intro s. apply R_next. Qed.

#[local] Hint Resolve preserves_ret preserves_get_today_date
  preserves_get_current_time preserves_requests_get preserves_sleep
  preserves_read_db preserves_known_address preserves_all_locations
  preserves_get_price_history : preserves.

Ltac pframe :=
  repeat first
    [ apply preserves_for_each; intro
    | apply preserves_bind; [| intro]
    | solve [auto with preserves]
    | match goal with
      | |- preserves _ (match ?x with _ => _ end) => destruct x
      | |- preserves _ (if ?x then _ else _) => destruct x
      | |- preserves _ (let (_, _) := ?x in _) => destruct x
      end ].

Lemma preserves_check_if_scraped_today club_name :
  preserves R (check_if_scraped_today w club_name).
Proof. unfold check_if_scraped_today. pframe. Qed.

Lemma preserves_check_if_all_scraped_today :
  preserves R (check_if_all_scraped_today w).
Proof.
  unfold check_if_all_scraped_today. apply preserves_bind; [pframe|].
  intro d. induction (Py.keys d) as [|k ks IH]; simpl.
  - pframe.
  - apply preserves_bind; [apply preserves_check_if_scraped_today|].
    intros []; [exact IH | pframe].
Qed.

Lemma preserves_get_latest_prices club_name :
  preserves R (get_latest_prices club_name).
Proof. unfold get_latest_prices. pframe. Qed.

Lemma preserves_get_scraping_stats : preserves R (get_scraping_stats w).
Proof. unfold get_scraping_stats. pframe. Qed.

Lemma preserves_fetch_html url retries : preserves R (fetch_html w url retries).
Proof.
  induction retries as [|n IH]; simpl; [pframe|].
  apply preserves_bind; [pframe|]. intro resp.
  destruct resp as [e|[e|] text soup]; pframe; exact IH.
Qed.

Lemma preserves_get_club_info club_url club_name :
  preserves R (get_club_info w club_url club_name).
Proof.
  unfold get_club_info.
  apply preserves_bind; [apply preserves_fetch_html|]. intro soup. pframe.
Qed.

Lemma preserves_get_fuel_link club_url : preserves R (get_fuel_link w club_url).
Proof.
  unfold get_fuel_link.
  apply preserves_bind; [apply preserves_fetch_html|]. intro soup. pframe.
Qed.

Lemma preserves_get_gas_prices url : preserves R (get_gas_prices w url).
Proof. unfold get_gas_prices. pframe. Qed.

Lemma preserves_use_cached n u : preserves R (use_cached n u).
Proof.
  unfold use_cached.
  apply preserves_bind; [apply preserves_get_latest_prices|]. intro. pframe.
Qed.

Lemma preserves_fetch_club n u : preserves R (fetch_club w n u).
Proof.
  unfold fetch_club.
  apply preserves_bind; [apply preserves_get_club_info|]. intro.
  apply preserves_bind; [apply preserves_get_fuel_link|]. intro fuel.
  apply preserves_bind; [|intro; apply preserves_ret].
  destruct fuel as [u'|]; [destruct (_ && _)|]; apply preserves_get_gas_prices.
Qed.

Lemma preserves_show_todays_data cutoff :
  preserves R (show_todays_data w cutoff).
Proof. unfold show_todays_data. pframe. Qed.

(** The writers of the database, to be shown for a given [R]. *)
Hypothesis R_log : forall n ok e k,
  preserves R (log_scraping_attempt w n ok e k).
Hypothesis R_club : forall c, preserves R (save_club_info w c).
Hypothesis R_price : forall r, preserves R (insert_price r).

Lemma preserves_save_price_data n ps : preserves R (save_price_data w n ps).
Proof.
  unfold save_price_data. destruct ps as [|p ps]; pframe.
Qed.

Lemma preserves_add_manual_prices n f p :
  preserves R (add_manual_prices w n f p).
Proof. unfold add_manual_prices. pframe. Qed.

Lemma preserves_reconcile n c ps : preserves R (reconcile w n c ps).
Proof.
  unfold reconcile.
  apply preserves_bind.
  - destruct (valid_prices ps); [pframe|].
    apply preserves_bind; [apply preserves_get_latest_prices|]. intro. pframe.
  - intros [[[ok e] k] ps'].
    apply preserves_bind; [apply R_log|]. intro.
    apply preserves_bind; [apply R_club|]. intro.
    apply preserves_bind; [apply preserves_save_price_data|]. intro. pframe.
Qed.

Lemma preserves_scrape_club n u : preserves R (scrape_club w n u).
Proof.
  unfold scrape_club.
  apply preserves_bind; [apply preserves_fetch_club|]. intro.
  apply preserves_bind; [apply preserves_reconcile|]. intro. pframe.
Qed.

Lemma preserves_process_club n u : preserves R (process_club w n u).
Proof.
  unfold process_club.
  apply preserves_bind; [apply preserves_check_if_scraped_today|].
  intros []; [apply preserves_use_cached | apply preserves_scrape_club].
Qed.

Lemma preserves_scrape_all_clubs : preserves R (scrape_all_clubs w).
Proof.
  unfold scrape_all_clubs.
  apply preserves_bind; [pframe|]. intro.
  apply preserves_bind; [apply preserves_get_scraping_stats|]. intro.
  apply preserves_map_m. intros [n u]. apply preserves_process_club.
Qed.

Lemma preserves_main cutoff : preserves R (main w cutoff).
Proof.
  unfold main, init_database.
  apply preserves_bind; [pframe|]. intro.
  apply preserves_bind; [apply preserves_check_if_all_scraped_today|].
  intros [].
  - apply preserves_bind; [apply preserves_show_todays_data|]. intro. pframe.
  - apply preserves_bind; [apply preserves_scrape_all_clubs|].
    intros [|c cs]; [pframe|].
    apply preserves_bind; [apply preserves_get_scraping_stats|]. intro.
    pframe.
Qed.

(** The writers of the registries. *)
Hypothesis R_add : forall n u, preserves R (add_new_club n u).
Hypothesis R_update : forall n a, preserves R (update_known_address n a).

Lemma preserves_run op s : R s (run w op s).
Proof.
  destruct op; unfold run.
  - apply preserves_ret.
  - apply preserves_check_if_scraped_today.
  - apply preserves_check_if_all_scraped_today.
  - apply R_log.
  - apply R_club.
  - apply preserves_save_price_data.
  - apply preserves_get_latest_prices.
  - apply preserves_add_manual_prices.
  - apply R_add.
  - apply R_update.
  - apply preserves_get_scraping_stats.
  - apply preserves_get_club_info.
  - apply preserves_get_fuel_link.
  - apply preserves_get_gas_prices.
  - apply preserves_scrape_all_clubs.
Qed.

Lemma preserves_steps s s' : steps w s s' -> R s s'.
Proof.
  induction 1 as [s|s s' op _ IH].
  - apply R_refl.
  - eapply R_trans; [exact IH | apply preserves_run].
Qed.

End StateFrames.

(** ** The store is append-only *)

Lemma history_extended_trans (a b c : DB) :
  (exists m, price_history b = price_history a ++ m) ->
  (exists m, price_history c = price_history b ++ m) ->
  exists m, price_history c = price_history a ++ m.
Proof.
  intros [m1 H1] [m2 H2]. exists (m1 ++ m2).
  now rewrite H2, H1, app_assoc.
Qed.

Lemma steps_extend_history w s s' :
  steps w s s' ->
  exists more, price_history (db s') = price_history (db s) ++ more.
Proof.
  apply (@keeps_steps
           (fun d d' => exists m, price_history d' = price_history d ++ m)).
  - intro d. exists []. now rewrite app_nil_r.
  - apply history_extended_trans.
  - intros d r. exists []. simpl. now rewrite app_nil_r.
  - intros d r. now exists [r].
  - intros d cs. exists []. simpl. now rewrite app_nil_r.
Qed.

(** X1. Whatever operations of the core are run, in whatever order and with
    whatever arguments, the rows already in the attempt log and in the price
    history stay as they are and where they are: both tables are only
    appended to. *)
Theorem store_append_only w s s' :
  steps w s s' ->
  (exists more, scraping_log (db s') = scraping_log (db s) ++ more) /\
  (exists more, price_history (db s') = price_history (db s) ++ more).
Proof.
  intro H. split.
  - exact (steps_extend_log H).
  - exact (steps_extend_history H).
Qed.

Lemma store_append_only_witness :
  let w := Sample.offline in
  let s := Sample.with_history [Sample.regular_yesterday] in
  let s' := run w OpScrapeAll (run w (OpManual "Yuma" "Regular" "$3.01") s) in
  (exists more, scraping_log (db s') = scraping_log (db s) ++ more) /\
  (exists more, price_history (db s') = price_history (db s) ++ more).
Proof.
  apply (@store_append_only Sample.offline
           (Sample.with_history [Sample.regular_yesterday])).
  repeat apply steps_then. apply steps_refl.
Defined.

(** ** The clubs table *)

Lemma save_club_info_clubs w club_info s :
  clubs (db (after (save_club_info w club_info) s)) =
  let now := (today_at w (tick s) ++ " " ++ time_at w (S (tick s)))%string in
  let same (c : ClubRow) := String.eqb (c_name c) (name club_info) in
  if existsb same (clubs (db s))
  then map (fun c =>
              if same c
              then mkClubRow (c_name c) (address club_info)
                     (club_url club_info) (fuel_url club_info)
                     (c_created_date c) now
              else c) (clubs (db s))
  else clubs (db s) ++
       [mkClubRow (name club_info) (address club_info) (club_url club_info)
          (fuel_url club_info) now now].
Proof. reflexivity. Qed.

Lemma existsb_name_false (cs : list ClubRow) n :
  existsb (fun c => String.eqb (c_name c) n) cs = false ->
  ~ In n (map c_name cs).
Proof.
  intros H Hin. apply in_map_iff in Hin as (c & Hc & Hin).
  assert (existsb (fun c => String.eqb (c_name c) n) cs = true).
  { apply existsb_exists. exists c. split; [exact Hin|].
    now apply String.eqb_eq. }
  congruence.
Qed.

Lemma save_club_info_spec w club_info s :
  let now := (today_at w (tick s) ++ " " ++ time_at w (S (tick s)))%string in
  let before := clubs (db s) in
  let after_ := clubs (db (after (save_club_info w club_info) s)) in
  (exists r, In r after_ /\ c_name r = name club_info) /\
  (forall r, In r after_ -> c_name r = name club_info ->
     c_address r = address club_info /\ c_club_url r = club_url club_info /\
     c_fuel_url r = fuel_url club_info /\ c_last_updated r = now) /\
  (forall old, In old before -> c_name old = name club_info ->
     exists r, In r after_ /\ c_name r = name club_info /\
               c_created_date r = c_created_date old) /\
  (forall r, c_name r <> name club_info -> (In r after_ <-> In r before)) /\
  (~ In (name club_info) (map c_name before) ->
   after_ = before ++
     [mkClubRow (name club_info) (address club_info) (club_url club_info)
        (fuel_url club_info) now now]).
Proof.
  intros now before after_. subst after_.
  rewrite save_club_info_clubs. cbv zeta. fold now. fold before.
  destruct (existsb (fun c => (c_name c =? name club_info)%string) before)
    eqn:E.
  - repeat split.
    + apply existsb_exists in E as (c & Hin & Hc).
      eexists. split; [apply in_map; exact Hin|].
      rewrite Hc. simpl. now apply String.eqb_eq.
    + apply in_map_iff in H as (c & <- & _).
      destruct (String.eqb_spec (c_name c) (name club_info)); simpl; congruence.
    + apply in_map_iff in H as (c & <- & _).
      destruct (String.eqb_spec (c_name c) (name club_info)); simpl; congruence.
    + apply in_map_iff in H as (c & <- & _).
      destruct (String.eqb_spec (c_name c) (name club_info)); simpl; congruence.
    + apply in_map_iff in H as (c & <- & _).
      destruct (String.eqb_spec (c_name c) (name club_info)); simpl; congruence.
    + intros old Hin Hname. eexists. split; [apply in_map; exact Hin|].
      apply String.eqb_eq in Hname. rewrite Hname. simpl.
      apply String.eqb_eq in Hname. now split.
    + intro Hin. apply in_map_iff in Hin as (c & Hc & Hin).
      destruct (String.eqb_spec (c_name c) (name club_info)) as [Heq|Hne].
      * subst r. simpl in H. congruence.
      * now subst r.
    + intro Hin. apply in_map_iff. exists r. split; [|exact Hin].
      apply String.eqb_neq in H. now rewrite H.
    + intro Hnot. exfalso. apply Hnot.
      apply existsb_exists in E as (c & Hin & Hc).
      apply String.eqb_eq in Hc. rewrite <- Hc. now apply in_map.
  - apply existsb_name_false in E. repeat split.
    + eexists. split; [apply in_or_app; right; now left | reflexivity].
    + apply in_app_or in H as [H|[<-|[]]]; [|reflexivity].
      exfalso. apply E. rewrite <- H0. now apply in_map.
    + apply in_app_or in H as [H|[<-|[]]]; [|reflexivity].
      exfalso. apply E. rewrite <- H0. now apply in_map.
    + apply in_app_or in H as [H|[<-|[]]]; [|reflexivity].
      exfalso. apply E. rewrite <- H0. now apply in_map.
    + apply in_app_or in H as [H|[<-|[]]]; [|reflexivity].
      exfalso. apply E. rewrite <- H0. now apply in_map.
    + intros old Hin Hname. exfalso. apply E. rewrite <- Hname.
      now apply in_map.
    + intro Hin. apply in_app_or in Hin as [Hin|[<-|[]]]; [exact Hin|].
      simpl in H. congruence.
    + intro Hin. apply in_or_app. now left.
Qed.


(** X2. [save_club_info] is an upsert keyed by name: afterwards there is a
    row for the club, every row of that name carries the address, the two
    URLs and the time of this call, a row that was there keeps its creation
    date, and the rows of other clubs are untouched. *)
Theorem save_club_info_upserts w club_info s :
  let now := (today_at w (tick s) ++ " " ++ time_at w (S (tick s)))%string in
  let before := clubs (db s) in
  let after_ := clubs (db (after (save_club_info w club_info) s)) in
  (exists r, In r after_ /\ c_name r = name club_info) /\
  (forall r, In r after_ -> c_name r = name club_info ->
     c_address r = address club_info /\ c_club_url r = club_url club_info /\
     c_fuel_url r = fuel_url club_info /\ c_last_updated r = now) /\
  (forall old, In old before -> c_name old = name club_info ->
     exists r, In r after_ /\ c_name r = name club_info /\
               c_created_date r = c_created_date old) /\
  (forall r, c_name r <> name club_info -> (In r after_ <-> In r before)) /\
  (~ In (name club_info) (map c_name before) ->
   after_ = before ++
     [mkClubRow (name club_info) (address club_info) (club_url club_info)
        (fuel_url club_info) now now]).
Proof. apply save_club_info_spec. Qed.

Lemma save_club_info_keeps_names_unique w club_info s :
  names_unique (db s) ->
  names_unique (db (after (save_club_info w club_info) s)).
Proof.
  unfold names_unique. rewrite save_club_info_clubs. cbv zeta.
  destruct (existsb _ (clubs (db s))) eqn:E; intro H.
  - rewrite map_map.
    erewrite map_ext; [exact H|].
    intro c. now destruct (c_name c =? name club_info)%string.
  - apply existsb_name_false in E.
    rewrite map_app. simpl.
    apply Permutation_NoDup with (l := name club_info :: map c_name (clubs (db s))).
    + apply Permutation_cons_append.
    + now constructor.
Qed.

(** X3. No operation of the core ever puts two rows of one name into the
    clubs table: if the names are distinct they stay distinct. *)
Theorem club_names_stay_unique w s s' :
  steps w s s' -> names_unique (db s) -> names_unique (db s').
Proof.
  apply (@preserves_steps
           (fun s s' => names_unique (db s) -> names_unique (db s'))); auto.
  - intros n ok e k s0. exact (fun H => H).
  - intros c s0. apply save_club_info_keeps_names_unique.
  - intros r s0. exact (fun H => H).
  - intros n u s0. exact (fun H => H).
  - intros n a s0. exact (fun H => H).
Qed.

Lemma club_names_stay_unique_witness :
  let w := Sample.offline in
  names_unique
    (db (run w OpScrapeAll
           (run w (OpSaveClub Cases.tempe_info)
              (Cases.with_clubs [Cases.tempe_row])))).
Proof.
  apply (@club_names_stay_unique Sample.offline
           (Cases.with_clubs [Cases.tempe_row])).
  - repeat apply steps_then. apply steps_refl.
  - repeat constructor. simpl. tauto.
Defined.

(** ** The registries *)

Lemma get_set_same V (d : Py.dict V) k v : Py.get (Py.set d k v) k = Some v.
Proof.
  induction d as [|[k' v'] d IH]; simpl.
  - now rewrite String.eqb_refl.
  - destruct (String.eqb_spec k k') as [->|Hne]; simpl.
    + now rewrite String.eqb_refl.
    + apply String.eqb_neq in Hne. now rewrite Hne.
Qed.

Lemma get_set_other V (d : Py.dict V) k v k' :
  k' <> k -> Py.get (Py.set d k v) k' = Py.get d k'.
Proof.
  intro Hne. induction d as [|[k0 v0] d IH]; simpl.
  - apply String.eqb_neq in Hne. now rewrite Hne.
  - destruct (String.eqb_spec k k0) as [->|Hk]; simpl.
    + apply String.eqb_neq in Hne. now rewrite Hne.
    + now rewrite IH.
Qed.

Lemma keys_set_NoDup V (d : Py.dict V) k v :
  NoDup (Py.keys d) -> NoDup (Py.keys (Py.set d k v)).
Proof.
  destruct (Py.get d k) eqn:E.
  - intro H. replace (Py.keys (Py.set d k v)) with (Py.keys d); [exact H|].
    clear H. induction d as [|[k' v'] d IH]; [discriminate|].
    simpl in *. destruct (String.eqb k k'); simpl; [reflexivity|].
    f_equal. now apply IH.
  - rewrite set_absent by exact E. unfold Py.keys. rewrite map_app. simpl.
    intro H.
    apply Permutation_NoDup with (l := k :: map fst d).
    + apply Permutation_cons_append.
    + constructor; [now apply get_None_keys | exact H].
Qed.

(** Looking a key up in [{**a, **b}]: [b] first. *)
Lemma get_merge V (a b : Py.dict V) k :
  NoDup (Py.keys b) ->
  Py.get (Py.merge a b) k =
  match Py.get b k with Some v => Some v | None => Py.get a k end.
Proof.
  unfold Py.merge. revert a.
  induction b as [|[k' v'] b IH]; intros a Hb; [reflexivity|].
  simpl in Hb. apply NoDup_cons_iff in Hb as [Hnot Hb].
  simpl. rewrite IH by exact Hb.
  destruct (String.eqb_spec k k') as [->|Hne].
  - apply get_None_keys in Hnot. rewrite Hnot. apply get_set_same.
  - now rewrite get_set_other.
Qed.

(** X4. A club added with [add_new_club] is in the set of locations that
    the orchestrator goes through, under the URL given (which replaces the
    one of a built-in location of that name), and every other location keeps
    its URL. *)
Theorem add_new_club_is_listed club url s :
  NoDup (Py.keys (ADDITIONAL_CLUBS s)) ->
  Py.get (result all_locations (after (add_new_club club url) s)) club
  = Some url /\
  forall other, other <> club ->
    Py.get (result all_locations (after (add_new_club club url) s)) other
    = Py.get (result all_locations s) other.
Proof.
  intro H.
  change (result all_locations (after (add_new_club club url) s))
    with (Py.merge locations (Py.set (ADDITIONAL_CLUBS s) club url)).
  change (result all_locations s)
    with (Py.merge locations (ADDITIONAL_CLUBS s)).
  split.
  - rewrite get_merge by now apply keys_set_NoDup.
    now rewrite get_set_same.
  - intros other Hne.
    rewrite !get_merge by (try apply keys_set_NoDup; exact H).
    now rewrite get_set_other.
Qed.

Lemma add_new_club_is_listed_witness :
  Py.get (result all_locations
            (after (add_new_club "Mesa"
                      "https://www.samsclub.com/club/6207-mesa-az")
                   initial_state)) "Mesa"
  = Some "https://www.samsclub.com/club/6207-mesa-az".
Proof.
  apply (proj1 (@add_new_club_is_listed "Mesa"
                  "https://www.samsclub.com/club/6207-mesa-az"
                  initial_state
                  ltac:(repeat constructor; simpl; tauto))).
Defined.

(** X5. An address set with [update_known_address] is the one
    [get_club_info] falls back to when the club page cannot be fetched. *)
Theorem updated_address_is_the_fallback w club_url club_name address s :
  result (fetch_html w club_url 1)
         (after (update_known_address club_name address) s) = None ->
  cp_address (result (get_club_info w club_url club_name)
                (after (update_known_address club_name address) s))
  = address.
Proof.
  intro H. rewrite get_club_info_address, H. cbv zeta.
  unfold Py.get_default. simpl. now rewrite get_set_same.
Qed.

Lemma updated_address_is_the_fallback_witness :
  cp_address
    (result (get_club_info Sample.offline Sample.avondale_url "Avondale")
       (after (update_known_address "Avondale"
                 "1459 N Dysart Rd, Avondale, AZ 85323") initial_state))
  = "1459 N Dysart Rd, Avondale, AZ 85323".
Proof.
  apply (@updated_address_is_the_fallback Sample.offline Sample.avondale_url
           "Avondale" "1459 N Dysart Rd, Avondale, AZ 85323" initial_state).
  reflexivity.
Defined.

Lemma registries_refl s : same_registries s s.
Proof. now split. Qed.

Lemma registries_trans a b c :
  same_registries a b -> same_registries b c -> same_registries a c.
Proof. unfold same_registries. intros [] []. split; congruence. Qed.

Lemma scrape_all_clubs_same_registries w s :
  same_registries s (after (scrape_all_clubs w) s).
Proof.
  apply (@preserves_scrape_all_clubs same_registries);
    [ apply registries_refl | apply registries_trans | .. ];
    repeat intro; split; reflexivity.
Qed.

(** ** The orchestrator over a day *)

Lemma checked_today w date club s :
  same_day w date ->
  (result (check_if_scraped_today w club) s = true <->
   attempted (db s) club date).
Proof.
  intro Hday. rewrite check_if_scraped_today_result, (Hday (tick s)).
  reflexivity.
Qed.

Lemma attempted_extended d d' club date :
  log_extended d d' -> attempted d club date -> attempted d' club date.
Proof.
  intros [more Hlog] (r & Hin & Hr). exists r. split; [|exact Hr].
  rewrite Hlog. apply in_or_app. now left.
Qed.

Lemma process_club_extends_log w club url s :
  log_extended (db s) (db (after (process_club w club url) s)).
Proof.
  apply (@keeps_process_club log_extended).
  - apply log_extended_refl.
  - apply log_extended_trans.
  - intros d r. now exists [r].
  - intros d r. exists []. simpl. now rewrite app_nil_r.
  - intros d cs. exists []. simpl. now rewrite app_nil_r.
Qed.

Lemma use_cached_same_db club url s :
  db (after (use_cached club url) s) = db s.
Proof.
  symmetry. apply (@keeps_use_cached eq); [reflexivity | apply eq_db_trans].
Qed.

Lemma process_club_cached w club url s :
  result (check_if_scraped_today w club) s = true ->
  db (after (process_club w club url) s) = db s /\
  result (process_club w club url) s =
  mkClubInfo club (Py.get_default (KNOWN_ADDRESSES s) club "NAN") url
    "Cached data"
    (Some (or_default (result (get_latest_prices club) s)
                      [("No cached prices", "NAN")])).
Proof.
  intro H. unfold process_club. rewrite after_bind, result_bind, H.
  split; [now rewrite use_cached_same_db | reflexivity].
Qed.

(** X6. For a club that has a row in the attempt log for today, the
    orchestrator writes nothing to the database: the result is built from
    the latest stored prices, or the placeholder ("No cached prices",
    "NAN") when there are none, with the known address and the fuel URL
    "Cached data". *)
Theorem attempted_club_is_served_from_store w club url s :
  result (check_if_scraped_today w club) s = true ->
  db (after (process_club w club url) s) = db s /\
  result (process_club w club url) s =
  mkClubInfo club (Py.get_default (KNOWN_ADDRESSES s) club "NAN") url
    "Cached data"
    (Some (or_default (result (get_latest_prices club) s)
                      [("No cached prices", "NAN")])).
Proof. apply process_club_cached. Qed.

Lemma attempted_club_is_served_from_store_witness :
  db (after (process_club Sample.offline "Tempe" Sample.tempe_url)
            Sample.tempe_failed_today)
  = db Sample.tempe_failed_today /\
  result (process_club Sample.offline "Tempe" Sample.tempe_url)
         Sample.tempe_failed_today
  = Sample.tempe_cached.
Proof.
  apply (@attempted_club_is_served_from_store Sample.offline "Tempe"
           Sample.tempe_url Sample.tempe_failed_today).
  reflexivity.
Defined.

Lemma process_club_attempts w date club url s :
  same_day w date ->
  attempted (db (after (process_club w club url) s)) club date.
Proof.
  intro Hday.
  destruct (result (check_if_scraped_today w club) s) eqn:Hcheck.
  - apply attempted_extended with (d := db s).
    + apply process_club_extends_log.
    + now apply (@checked_today w date club s Hday).
  - unfold process_club. rewrite after_bind, Hcheck.
    unfold scrape_club. rewrite !after_bind, after_ret.
    change (after sleep ?x) with (next x).
    change (db (next ?x)) with (db x).
    set (s1 := after (fetch_club w club url)
                 (after (check_if_scraped_today w club) s)).
    destruct (reconcile_effect w club
                (fst (result (fetch_club w club url)
                        (after (check_if_scraped_today w club) s)))
                (snd (result (fetch_club w club url)
                        (after (check_if_scraped_today w club) s))) s1)
      as [Hlog _].
    eexists. split; [rewrite Hlog; apply in_or_app; right; now left|].
    split; [reflexivity | apply Hday].
Qed.

Lemma after_map_m_cons A B (body : A -> M B) x xs s :
  after (map_m body (x :: xs)) s = after (map_m body xs) (after (body x) s).
Proof. reflexivity. Qed.

Lemma result_map_m_cons A B (body : A -> M B) x xs s :
  result (map_m body (x :: xs)) s =
  result (body x) s :: result (map_m body xs) (after (body x) s).
Proof. reflexivity. Qed.

Lemma process_all_extends_log w (l : list (string * string)) s :
  log_extended (db s)
    (db (after (map_m (fun '(name, url) => process_club w name url) l) s)).
Proof.
  revert s. induction l as [|[n u] l IH]; intro s.
  - apply log_extended_refl.
  - rewrite after_map_m_cons.
    eapply log_extended_trans; [apply process_club_extends_log | apply IH].
Qed.

Lemma process_all_attempts w date (l : list (string * string)) s club :
  same_day w date -> In club (map fst l) ->
  attempted
    (db (after (map_m (fun '(name, url) => process_club w name url) l) s))
    club date.
Proof.
  intros Hday. revert s. induction l as [|[n u] l IH]; intros s Hin.
  - destruct Hin.
  - rewrite after_map_m_cons. destruct Hin as [Hn|Hin].
    + simpl in Hn. subst n.
      eapply attempted_extended; [apply process_all_extends_log|].
      now apply process_club_attempts.
    + now apply IH.
Qed.

Lemma scrape_all_clubs_after w s :
  after (scrape_all_clubs w) s =
  after (map_m (fun '(name, url) => process_club w name url)
               (Py.merge locations (ADDITIONAL_CLUBS s)))
        (after (get_scraping_stats w) s).
Proof. reflexivity. Qed.

Lemma scrape_all_clubs_result w s :
  result (scrape_all_clubs w) s =
  result (map_m (fun '(name, url) => process_club w name url)
                (Py.merge locations (ADDITIONAL_CLUBS s)))
         (after (get_scraping_stats w) s).
Proof. reflexivity. Qed.

Lemma all_true_iff w date names s :
  same_day w date ->
  (result (all_true w names) s = true <->
   forall club, In club names -> attempted (db s) club date).
Proof.
  intro Hday. revert s. induction names as [|n names IH]; intro s.
  - split; [intros _ club [] | reflexivity].
  - cbn [all_true]. rewrite result_bind.
    destruct (result (check_if_scraped_today w n) s) eqn:Hcheck.
    + rewrite IH. change (db (after (check_if_scraped_today w n) s))
        with (db s).
      apply (@checked_today w date n s Hday) in Hcheck.
      split.
      * intros H club [<-|Hin]; auto.
      * intros H club Hin. apply H. now right.
    + split; [discriminate|]. intro H.
      assert (Hn : attempted (db s) n date) by (apply H; now left).
      apply (@checked_today w date n s Hday) in Hn. congruence.
Qed.

Lemma check_all_iff w date s :
  same_day w date ->
  (result (check_if_all_scraped_today w) s = true <->
   forall club, In club (Py.keys (result all_locations s)) ->
                attempted (db s) club date).
Proof.
  intro Hday. unfold check_if_all_scraped_today. rewrite result_bind.
  change (after all_locations s) with s.
  now apply all_true_iff.
Qed.

(** X7. On a day (the clock showing one date throughout),
    [check_if_all_scraped_today] answers true exactly when every location,
    built-in or added, has a row in the attempt log for that date. *)
Theorem all_scraped_iff_each_attempted w date s :
  same_day w date ->
  (result (check_if_all_scraped_today w) s = true <->
   forall club, In club (Py.keys (result all_locations s)) ->
                attempted (db s) club date).
Proof. apply check_all_iff. Qed.

Lemma all_scraped_iff_each_attempted_witness :
  result (check_if_all_scraped_today Sample.offline) Sample.tempe_failed_today
  = true <->
  forall club,
    In club (Py.keys (result all_locations Sample.tempe_failed_today)) ->
    attempted (db Sample.tempe_failed_today) club Sample.day.
Proof.
  apply (@all_scraped_iff_each_attempted Sample.offline Sample.day
           Sample.tempe_failed_today).
  intro n. reflexivity.
Defined.

Lemma scrape_all_clubs_attempts_all w date s club :
  same_day w date ->
  In club (Py.keys (result all_locations s)) ->
  attempted (db (after (scrape_all_clubs w) s)) club date.
Proof.
  intros Hday Hin. rewrite scrape_all_clubs_after.
  now apply process_all_attempts.
Qed.

(** X8. On a day, once [scrape_all_clubs] has returned, every location has
    a row in the attempt log for that date, whether its scrape succeeded or
    not: [check_if_all_scraped_today] answers true. *)
Theorem scrape_all_clubs_marks_every_club w date s :
  same_day w date ->
  result (check_if_all_scraped_today w) (after (scrape_all_clubs w) s) = true.
Proof.
  intro Hday. apply (@check_all_iff w date _ Hday).
  intros club Hin.
  destruct (scrape_all_clubs_same_registries w s) as [Hadd _].
  change (result all_locations (after (scrape_all_clubs w) s))
    with (Py.merge locations
            (ADDITIONAL_CLUBS (after (scrape_all_clubs w) s))) in Hin.
  rewrite Hadd in Hin.
  now apply scrape_all_clubs_attempts_all.
Qed.

Lemma scrape_all_clubs_marks_every_club_witness :
  result (check_if_all_scraped_today Sample.offline)
         (after (scrape_all_clubs Sample.offline) Sample.tempe_failed_today)
  = true.
Proof.
  apply (@scrape_all_clubs_marks_every_club Sample.offline Sample.day
           Sample.tempe_failed_today).
  intro n. reflexivity.
Defined.

Lemma process_all_cached w date (l : list (string * string)) s :
  same_day w date ->
  (forall club, In club (map fst l) -> attempted (db s) club date) ->
  db (after (map_m (fun '(name, url) => process_club w name url) l) s) = db s
  /\ Forall (fun club_info => fuel_url club_info = "Cached data")
       (result (map_m (fun '(name, url) => process_club w name url) l) s).
Proof.
  intros Hday. revert s. induction l as [|[n u] l IH]; intros s Hall.
  - split; [reflexivity | constructor].
  - rewrite after_map_m_cons, result_map_m_cons.
    assert (Hn : result (check_if_scraped_today w n) s = true).
    { apply (@checked_today w date n s Hday). apply Hall. now left. }
    destruct (@process_club_cached w n u s Hn) as [Hdb Hres].
    destruct (IH (after (process_club w n u) s)) as [IHdb IHres].
    { intros club Hin. rewrite Hdb. apply Hall. now right. }
    split; [congruence|].
    constructor; [now rewrite Hres | exact IHres].
Qed.

(** X9. On a day on which every location already has a row in the attempt
    log, a run of [scrape_all_clubs] leaves the database exactly as it was
    and serves every club from the store. *)
Theorem second_run_writes_nothing w date s :
  same_day w date ->
  (forall club, In club (Py.keys (result all_locations s)) ->
                attempted (db s) club date) ->
  db (after (scrape_all_clubs w) s) = db s /\
  Forall (fun club_info => fuel_url club_info = "Cached data")
         (result (scrape_all_clubs w) s).
Proof.
  intros Hday Hall.
  rewrite scrape_all_clubs_after, scrape_all_clubs_result.
  exact (@process_all_cached w date
           (Py.merge locations (ADDITIONAL_CLUBS s))
           (after (get_scraping_stats w) s) Hday Hall).
Qed.

Lemma second_run_writes_nothing_witness :
  db (after (scrape_all_clubs Sample.offline) Cases.all_attempted)
  = db Cases.all_attempted /\
  Forall (fun club_info => fuel_url club_info = "Cached data")
         (result (scrape_all_clubs Sample.offline) Cases.all_attempted).
Proof.
  apply (@second_run_writes_nothing Sample.offline Sample.day
           Cases.all_attempted).
  - intro n. reflexivity.
  - intros club Hin. simpl in Hin.
    exists (mkLogRow club Sample.day "07:00:00" true None 1).
    split; [|split; reflexivity].
    repeat (destruct Hin as [<-|Hin];
            [simpl; repeat ((left; reflexivity) || right)|]).
    destruct Hin.
Defined.

Lemma get_club_info_echo w club_url club_name s :
  cp_name (result (get_club_info w club_url club_name) s) = club_name /\
  cp_club_url (result (get_club_info w club_url club_name) s) = club_url.
Proof.
  unfold get_club_info. rewrite !result_bind.
  destruct (result (fetch_html w club_url 1) s); split; reflexivity.
Qed.

Lemma fetch_club_echo w club url s :
  name (fst (result (fetch_club w club url) s)) = club /\
  club_url (fst (result (fetch_club w club url) s)) = url.
Proof.
  unfold fetch_club. rewrite !result_bind, result_ret. cbn [fst name club_url].
  apply get_club_info_echo.
Qed.

Lemma reconcile_result w club club_info rows s :
  exists kept,
    kept <> [] /\
    result (reconcile w club club_info rows) s = set_prices club_info kept.
Proof.
  unfold reconcile. rewrite result_bind.
  destruct (valid_prices rows) eqn:E.
  - exists rows. split; [now destruct rows | reflexivity].
  - eexists. split; [|reflexivity].
    apply or_default_nonempty. discriminate.
Qed.

Lemma process_club_result w club url s :
  name (result (process_club w club url) s) = club /\
  club_url (result (process_club w club url) s) = url /\
  exists rows, prices (result (process_club w club url) s) = Some rows /\
               rows <> [].
Proof.
  destruct (result (check_if_scraped_today w club) s) eqn:Hcheck.
  - destruct (@process_club_cached w club url s Hcheck) as [_ ->].
    repeat split. eexists. split; [reflexivity|].
    apply or_default_nonempty. discriminate.
  - unfold process_club. rewrite result_bind, Hcheck.
    unfold scrape_club. rewrite !result_bind, result_ret.
    set (s0 := after (check_if_scraped_today w club) s).
    destruct (reconcile_result w club (fst (result (fetch_club w club url) s0))
                (snd (result (fetch_club w club url) s0))
                (after (fetch_club w club url) s0)) as (kept & Hne & ->).
    destruct (fetch_club_echo w club url s0) as [Hn Hu].
    repeat split; [exact Hn | exact Hu |].
    now exists kept.
Qed.

Lemma results_follow_locations w s :
  map (fun club_info => (name club_info, club_url club_info))
      (result (scrape_all_clubs w) s)
  = result all_locations s /\
  Forall (fun club_info =>
            exists rows, prices club_info = Some rows /\ rows <> [])
         (result (scrape_all_clubs w) s).
Proof.
  rewrite scrape_all_clubs_result.
  change (result all_locations s)
    with (Py.merge locations (ADDITIONAL_CLUBS s)).
  generalize (after (get_scraping_stats w) s).
  induction (Py.merge locations (ADDITIONAL_CLUBS s)) as [|[n u] l IH];
    intro s0.
  - split; [reflexivity | constructor].
  - rewrite result_map_m_cons.
    destruct (process_club_result w n u s0) as (Hn & Hu & Hrows).
    destruct (IH (after (process_club w n u) s0)) as [IHm IHr].
    split.
    + cbn [map]. now rewrite Hn, Hu, IHm.
    + now constructor.
Qed.


(** X10. [scrape_all_clubs] returns one result per location, in the order
    of the locations and under their names and URLs, and each result has
    at least one price row: downstream code never sees a club without
    rows. *)
Theorem one_result_per_club w s :
  map (fun club_info => (name club_info, club_url club_info))
      (result (scrape_all_clubs w) s)
  = result all_locations s /\
  Forall (fun club_info =>
            exists rows, prices club_info = Some rows /\ rows <> [])
         (result (scrape_all_clubs w) s).
Proof. apply results_follow_locations. Qed.

Lemma expanded_rows_of_rows club rows :
  prices club = Some rows -> rows <> [] ->
  expanded_rows club =
  Some (map (fun row =>
               mkExportRow (name club) (address club) (club_url club)
                 (fuel_url club) (fst row) (snd row)) rows).
Proof.
  intros Hp Hne. unfold expanded_rows. rewrite Hp.
  destruct rows; [now destruct Hne | reflexivity].
Qed.

(** X11. The flattened export that [main] builds from a batch of the
    orchestrator never raises on a missing key and never uses the "N/A"
    filler row: it is the price rows of the batch, club after club, each
    with the name, address and URLs of its club. *)
Theorem export_is_the_price_rows w s :
  expanded_data (result (scrape_all_clubs w) s) =
  Some (flat_map
          (fun club =>
             match prices club with
             | Some rows =>
                 map (fun row =>
                        mkExportRow (name club) (address club)
                          (club_url club) (fuel_url club) (fst row) (snd row))
                     rows
             | None => []
             end)
          (result (scrape_all_clubs w) s)).
Proof.
  destruct (results_follow_locations w s) as [_ H].
  induction H as [|club rest (rows & Hp & Hne) _ IH].
  - reflexivity.
  - cbn [expanded_data flat_map].
    rewrite (@expanded_rows_of_rows club rows Hp Hne), IH, Hp.
    reflexivity.
Qed.

(** ** A run of [main] *)

Lemma untouched_refl s : db s = db s /\ same_registries s s.
Proof. split; [reflexivity | apply registries_refl]. Qed.

Lemma untouched_trans a b c :
  db b = db a /\ same_registries a b ->
  db c = db b /\ same_registries b c ->
  db c = db a /\ same_registries a c.
Proof.
  intros [H1 R1] [H2 R2]. split; [congruence|].
  eapply registries_trans; eauto.
Qed.

Lemma untouched_next s : db (next s) = db s /\ same_registries s (next s).
Proof. split; [reflexivity | split; reflexivity]. Qed.

Lemma check_if_all_scraped_today_untouched w s :
  db (after (check_if_all_scraped_today w) s) = db s /\
  same_registries s (after (check_if_all_scraped_today w) s).
Proof.
  apply (@preserves_check_if_all_scraped_today
           (fun s s' => db s' = db s /\ same_registries s s')).
  - apply untouched_refl.
  - apply untouched_trans.
  - apply untouched_next.
Qed.

Lemma show_todays_data_untouched w cutoff s :
  db (after (show_todays_data w cutoff) s) = db s /\
  same_registries s (after (show_todays_data w cutoff) s).
Proof.
  apply (@preserves_show_todays_data
           (fun s s' => db s' = db s /\ same_registries s s')).
  - apply untouched_refl.
  - apply untouched_trans.
  - apply untouched_next.
Qed.

Lemma all_attempted_transfer date s s' :
  db s' = db s -> same_registries s s' ->
  (forall club, In club (Py.keys (result all_locations s)) ->
                attempted (db s) club date) ->
  forall club, In club (Py.keys (result all_locations s')) ->
               attempted (db s') club date.
Proof.
  intros Hdb [Hadd _] H club Hin. rewrite Hdb. apply H.
  change (result all_locations s')
    with (Py.merge locations (ADDITIONAL_CLUBS s')) in Hin.
  now rewrite Hadd in Hin.
Qed.

(** X12. On a day, a run of [main] that finds every location attempted
    stops before any scraping and leaves the database as it was; and after
    any run of [main], every location counts as attempted, so that the next
    run of that day is of the first kind. *)
Theorem main_runs_once_a_day w cutoff date s :
  same_day w date ->
  ((forall club, In club (Py.keys (result all_locations s)) ->
                 attempted (db s) club date) ->
   result (main w cutoff) s = None /\ db (after (main w cutoff) s) = db s) /\
  result (check_if_all_scraped_today w) (after (main w cutoff) s) = true.
Proof.
  intro Hday.
  destruct (check_if_all_scraped_today_untouched w s) as [Hdb Hreg].
  unfold main, init_database.
  rewrite !after_bind, !result_bind, !after_ret.
  change (result (ret tt) s) with tt.
  destruct (result (check_if_all_scraped_today w) s) eqn:Hall.
  - pose proof (proj1 (@check_all_iff w date s Hday) Hall)
      as Hatt.
    rewrite !after_bind, !result_bind, after_ret, result_ret.
    destruct (show_todays_data_untouched w cutoff
                (after (check_if_all_scraped_today w) s)) as [Hdb' Hreg'].
    split.
    + intros _. split; [reflexivity | congruence].
    + apply (@check_all_iff w date _ Hday).
      eapply all_attempted_transfer; [| |exact Hatt].
      * congruence.
      * eapply registries_trans; eauto.
  - split.
    + intro Hatt.
      apply (@check_all_iff w date s Hday) in Hatt.
      congruence.
    + rewrite after_bind.
      set (s1 := after (check_if_all_scraped_today w) s).
      apply (@check_all_iff w date _ Hday).
      intros club Hin.
      assert (Hfin :
        db (after
              (match result (scrape_all_clubs w) s1 with
               | [] => ret (Some [])
               | _ => get_scraping_stats w ;;;
                      ret (Some (result (scrape_all_clubs w) s1))
               end) (after (scrape_all_clubs w) s1))
        = db (after (scrape_all_clubs w) s1) /\
        ADDITIONAL_CLUBS
          (after
              (match result (scrape_all_clubs w) s1 with
               | [] => ret (Some [])
               | _ => get_scraping_stats w ;;;
                      ret (Some (result (scrape_all_clubs w) s1))
               end) (after (scrape_all_clubs w) s1))
        = ADDITIONAL_CLUBS (after (scrape_all_clubs w) s1)).
      { destruct (result (scrape_all_clubs w) s1); split; reflexivity. }
      destruct Hfin as [Hdbf Haddf].
      change (result all_locations ?x)
        with (Py.merge locations (ADDITIONAL_CLUBS x)) in Hin.
      rewrite Hdbf. rewrite Haddf in Hin.
      destruct (scrape_all_clubs_same_registries w s1) as [Hadd1 _].
      rewrite Hadd1 in Hin.
      now apply scrape_all_clubs_attempts_all.
Qed.

Lemma main_runs_once_a_day_witness :
  (result (main Sample.offline Cases.date_before) Cases.all_attempted = None /\
   db (after (main Sample.offline Cases.date_before) Cases.all_attempted)
   = db Cases.all_attempted) /\
  result (check_if_all_scraped_today Sample.offline)
    (after (main Sample.offline Cases.date_before) Sample.tempe_failed_today)
  = true.
Proof.
  split.
  - apply (proj1 (@main_runs_once_a_day Sample.offline Cases.date_before
                    Sample.day Cases.all_attempted
                    (fun n => eq_refl))).
    intros club Hin. simpl in Hin.
    exists (mkLogRow club Sample.day "07:00:00" true None 1).
    split; [|split; reflexivity].
    repeat (destruct Hin as [<-|Hin];
            [simpl; repeat ((left; reflexivity) || right)|]).
    destruct Hin.
  - apply (proj2 (@main_runs_once_a_day Sample.offline Cases.date_before
                    Sample.day Sample.tempe_failed_today
                    (fun n => eq_refl))).
Defined.

(** ** A failed scrape and the cache *)

(** X13. When a scrape yields no valid prices and the club has prices on
    record, the attempt is logged as failed and yet every latest stored
    price whose fuel type is not in the filter list is written to the price
    history once more, as a scraped row under a stamp read during this
    run. *)
Theorem failed_scrape_stores_cache_again w club url s fuel_type price :
  result (check_if_scraped_today w club) s = false ->
  valid_prices (scraped_prices w club url s) = false ->
  In (fuel_type, price) (result (get_latest_prices club) s) ->
  Py.mem fuel_type not_stored = false ->
  exists n,
    In (mkPriceRow club fuel_type price (today_at w n) (time_at w (S n))
                   "scraped")
       (price_history (db (after (process_club w club url) s))) /\
    exists r, In r (scraping_log (db (after (process_club w club url) s))) /\
              sl_club_name r = club /\ sl_success r = false /\
              sl_scraped_date r = today_at w (n - 4).
Proof.
  intros Hcheck Hbad Hin Hmem.
  unfold process_club. rewrite after_bind, Hcheck.
  unfold scrape_club. rewrite !after_bind, after_ret.
  change (after sleep ?x) with (next x).
  change (db (next ?x)) with (db x).
  set (s0 := after (check_if_scraped_today w club) s).
  set (s1 := after (fetch_club w club url) s0).
  destruct (reconcile_effect w club (fst (result (fetch_club w club url) s0))
              (snd (result (fetch_club w club url) s0)) s1) as [Hlog Hhist].
  fold s0 in Hbad. unfold scraped_prices in Hbad. fold s0 in Hbad.
  rewrite Hbad in Hlog, Hhist.
  assert (Hdb : db s1 = db s).
  { subst s1 s0. now rewrite fetch_club_same_db. }
  assert (Hlatest : result (get_latest_prices club) s1
                    = result (get_latest_prices club) s).
  { change (result (get_latest_prices club) ?x)
      with (first_seen (select_latest club (db x)) []).
    now rewrite Hdb. }
  rewrite Hlatest in Hhist.
  exists (4 + tick s1). split.
  - rewrite Hhist. apply in_or_app. right.
    unfold stored_rows.
    destruct (result (get_latest_prices club) s) as [|row rows] eqn:E;
      [destruct Hin|]. cbn [or_default].
    apply in_map_iff. exists (fuel_type, price). split; [reflexivity|].
    apply filter_In. split; [exact Hin|]. cbn [fst]. now rewrite Hmem.
  - eexists. split; [rewrite Hlog; apply in_or_app; right; now left|].
    repeat split. cbn [sl_scraped_date]. f_equal. lia.
Qed.

Lemma failed_scrape_stores_cache_again_witness :
  let s := Sample.with_history [Sample.regular_yesterday] in
  exists n,
    In (mkPriceRow "Tempe" "Regular" "$3.10" (today_at Sample.offline n)
                   (time_at Sample.offline (S n)) "scraped")
       (price_history
          (db (after (process_club Sample.offline "Tempe" Sample.tempe_url)
                     s))) /\
    exists r,
      In r (scraping_log
              (db (after (process_club Sample.offline "Tempe"
                            Sample.tempe_url) s))) /\
      sl_club_name r = "Tempe" /\ sl_success r = false /\
      sl_scraped_date r = today_at Sample.offline (n - 4).
Proof.
  apply (@failed_scrape_stores_cache_again Sample.offline "Tempe"
           Sample.tempe_url
           (Sample.with_history [Sample.regular_yesterday])
           "Regular" "$3.10").
  - reflexivity.
  - reflexivity.
  - left. reflexivity.
  - reflexivity.
Defined.

(** ** Reading the latest prices back *)

Lemma first_seen_keeps rows latest (x : string * string) :
  In x latest -> In x (first_seen rows latest).
Proof.
  revert latest. induction rows as [|[f p] rest IH]; intros latest H.
  - exact H.
  - rewrite first_seen_step. apply IH.
    destruct (Py.get latest f); [exact H|].
    apply in_or_app. now left.
Qed.

Lemma first_seen_length rows latest :
  length (first_seen rows latest) <= length rows + length latest.
Proof.
  revert latest. induction rows as [|[f p] rest IH]; intro latest.
  - simpl. lia.
  - rewrite first_seen_step.
    destruct (Py.get latest f).
    + specialize (IH latest). simpl. lia.
    + specialize (IH (latest ++ [(f, p)])).
      rewrite length_app in IH. simpl in *. lia.
Qed.

Lemma first_seen_nil rows : first_seen rows [] = [] <-> rows = [].
Proof.
  split; [|intros ->; reflexivity].
  destruct rows as [|[f p] rest]; [reflexivity|]. intro H. exfalso.
  pose proof (@first_seen_keeps rest [(f, p)] (f, p) (or_introl eq_refl))
    as Hin.
  rewrite first_seen_step in H. cbn [Py.get app] in H.
  rewrite H in Hin. destruct Hin.
Qed.

Lemma order_by_desc_nil l : order_by_desc l = [] <-> l = [].
Proof.
  split; [|intros ->; reflexivity].
  destruct l as [|x l]; [reflexivity|]. intro H. exfalso.
  assert (Hin : In x (order_by_desc (x :: l))).
  { apply order_by_desc_In. now left. }
  rewrite H in Hin. destruct Hin.
Qed.

(** X14. [get_latest_prices] reports at most ten fuel types, and it
    reports none exactly when the club has no row in the price history. *)
Theorem latest_prices_bounded club_name s :
  length (result (get_latest_prices club_name) s) <= 10 /\
  (result (get_latest_prices club_name) s = [] <->
   forall r, In r (price_history (db s)) -> ph_club_name r <> club_name).
Proof.
  change (result (get_latest_prices club_name) s)
    with (first_seen (select_latest club_name (db s)) []).
  split.
  - pose proof (first_seen_length (select_latest club_name (db s)) []) as H.
    unfold select_latest in *. rewrite length_map in H.
    pose proof (firstn_le_length 10
      (order_by_desc (filter (fun r => (ph_club_name r =? club_name)%string)
                             (price_history (db s))))) as H10.
    cbn [length] in H. rewrite Nat.add_0_r in H.
    eapply Nat.le_trans; [exact H | exact H10].
  - rewrite first_seen_nil. unfold select_latest.
    set (rows := filter (fun r => (ph_club_name r =? club_name)%string)
                        (price_history (db s))).
    assert (Hrows : rows = [] <->
      forall r, In r (price_history (db s)) -> ph_club_name r <> club_name).
    { subst rows. split.
      - intros H r Hin Hname.
        assert (Hf : In r (filter
                       (fun r => (ph_club_name r =? club_name)%string)
                       (price_history (db s)))).
        { apply filter_In. split; [exact Hin | now apply String.eqb_eq]. }
        rewrite H in Hf. destruct Hf.
      - intro H.
        destruct (filter _ (price_history (db s))) as [|r l] eqn:E;
          [reflexivity|]. exfalso.
        assert (Hf : In r (r :: l)) by now left.
        rewrite <- E in Hf. apply filter_In in Hf as [Hin Hname].
        apply String.eqb_eq in Hname. exact (H r Hin Hname). }
    rewrite <- Hrows, <- order_by_desc_nil.
    split.
    + intro H. apply map_eq_nil in H.
      destruct (order_by_desc rows); [reflexivity | discriminate].
    + intros ->. reflexivity.
Qed.

Lemma latest_prices_bounded_witness :
  result (get_latest_prices "Yuma")
         (Sample.with_history [Sample.regular_yesterday]) = [].
Proof.
  apply (proj2 (latest_prices_bounded "Yuma"
                  (Sample.with_history [Sample.regular_yesterday]))).
  intros r [<-|[]]. discriminate.
Defined.

Lemma order_by_desc_newest r l :
  (forall x, In x l -> stamp_leb (stamp r) (stamp x) = false) ->
  order_by_desc (l ++ [r]) = r :: order_by_desc l.
Proof.
  induction l as [|x l IH]; intro H; [reflexivity|].
  simpl. rewrite IH by (intros y Hy; apply H; now right).
  simpl. rewrite (H x) by now left. reflexivity.
Qed.

(** X15. A price entered with [add_manual_prices] at a (date, time) later
    than that of every row the club has is what [get_latest_prices] reports
    for its fuel type from then on. *)
Theorem manual_price_is_latest w club_name fuel_type price s :
  (forall r, In r (price_history (db s)) -> ph_club_name r = club_name ->
     stamp_leb (today_at w (tick s), time_at w (S (tick s))) (stamp r)
     = false) ->
  In (fuel_type, price)
     (result (get_latest_prices club_name)
        (after (add_manual_prices w club_name fuel_type price) s)).
Proof.
  intro Hnew.
  change (result (get_latest_prices club_name)
            (after (add_manual_prices w club_name fuel_type price) s))
    with (first_seen
            (select_latest club_name
               (mkDB (clubs (db s))
                  (price_history (db s) ++
                   [mkPriceRow club_name fuel_type price
                      (today_at w (tick s)) (time_at w (S (tick s)))
                      "manual"])
                  (scraping_log (db s)))) []).
  unfold select_latest. cbn [price_history].
  rewrite filter_app. cbn [filter ph_club_name].
  rewrite String.eqb_refl.
  rewrite order_by_desc_newest.
  - cbn [firstn map ph_fuel_type ph_price].
    rewrite first_seen_step. apply first_seen_keeps. now left.
  - intros x Hx. apply filter_In in Hx as [Hin Hname].
    apply String.eqb_eq in Hname. now apply Hnew.
Qed.

Lemma manual_price_is_latest_witness :
  In ("Regular", "$2.95")
     (result (get_latest_prices "Tempe")
        (after (add_manual_prices Sample.offline "Tempe" "Regular" "$2.95")
               (Sample.with_history [Sample.regular_yesterday]))).
Proof.
  apply (@manual_price_is_latest Sample.offline "Tempe" "Regular" "$2.95"
           (Sample.with_history [Sample.regular_yesterday])).
  intros r [<-|[]] _. reflexivity.
Defined.

(** ** The lowest price per fuel type *)

Lemma scaled_lt (a b : Z) (ea eb m : Z) :
  (m <= ea)%Z -> (m <= eb)%Z ->
  ((a * 2 ^ (ea - Z.min ea eb) <? b * 2 ^ (eb - Z.min ea eb))%Z = true <->
   (a * 2 ^ (ea - m) < b * 2 ^ (eb - m))%Z).
Proof.
  intros Ha Hb. rewrite Z.ltb_lt.
  set (e := Z.min ea eb).
  assert (He : (m <= e)%Z) by (subst e; lia).
  assert (Hea : (e <= ea)%Z) by (subst e; lia).
  assert (Heb : (e <= eb)%Z) by (subst e; lia).
  replace (ea - m)%Z with ((ea - e) + (e - m))%Z by lia.
  replace (eb - m)%Z with ((eb - e) + (e - m))%Z by lia.
  rewrite !Z.pow_add_r by lia. rewrite !Z.mul_assoc.
  assert (Hk : (0 < 2 ^ (e - m))%Z) by (apply Z.pow_pos_nonneg; lia).
  split; intro H.
  - now apply Z.mul_lt_mono_pos_r.
  - now apply Z.mul_lt_mono_pos_r in H.
Qed.

Lemma b_lt_irrefl a : PyFloat.b_lt a a = false.
Proof.
  destruct a as [|n|n m e]; simpl.
  - reflexivity.
  - now destruct n.
  - apply Z.ltb_irrefl.
Qed.

Lemma b_lt_trans a b c :
  PyFloat.b_lt a b = true -> PyFloat.b_lt b c = true ->
  PyFloat.b_lt a c = true.
Proof.
  destruct a as [|na|na ma ea], b as [|nb|nb mb eb], c as [|nc|nc mc ec];
    cbn [PyFloat.b_lt]; try discriminate;
    try (destruct na; simpl; try discriminate);
    try (destruct nb; simpl; try discriminate);
    try (destruct nc; simpl; try discriminate); auto.
  all: intros H1 H2.
  all: set (m := Z.min ea (Z.min eb ec)).
  all: apply (@scaled_lt _ _ ea eb m) in H1; [|subst m; lia..].
  all: apply (@scaled_lt _ _ eb ec m) in H2; [|subst m; lia..].
  all: apply (@scaled_lt _ _ ea ec m); [subst m; lia..|].
  all: lia.
Qed.

Lemma PyFloat_lt_irrefl a : PyFloat.lt a a = false.
Proof. apply b_lt_irrefl. Qed.

Lemma PyFloat_lt_trans a b c :
  PyFloat.lt a b = true -> PyFloat.lt b c = true -> PyFloat.lt a c = true.
Proof. apply b_lt_trans. Qed.

Section LowestFacts.

Variable F : Type.
Variable to_float : string -> option F.
Variable float_lt : F -> F -> bool.

Lemma consider_get club acc row category entry :
  Py.get (consider to_float float_lt club acc row) category = Some entry ->
  Py.get acc category = Some entry \/
  (fst row = category /\ Py.mem category not_aggregated = false /\
   to_float (Py.remove_char "," (Py.remove_char "$" (snd row)))
   = Some (lp_price entry) /\
   lp_club entry = name club /\ lp_address entry = address club).
Proof.
  destruct row as [fuel_type price]. unfold consider.
  destruct (Py.mem fuel_type not_aggregated) eqn:Hmem; cbn [negb]; auto.
  destruct (to_float _) as [value|] eqn:Hfloat; auto.
  assert (Hnew :
    Py.get (Py.set acc fuel_type (mkLowest value (name club) (address club)))
           category = Some entry ->
    Py.get acc category = Some entry \/
    (fuel_type = category /\ Py.mem category not_aggregated = false /\
     Some value = Some (lp_price entry) /\
     lp_club entry = name club /\ lp_address entry = address club)).
  { intro H. destruct (String.eqb_spec category fuel_type) as [->|Hne].
    - rewrite get_set_same in H. injection H as <-. right. now repeat split.
    - rewrite get_set_other in H by exact Hne. now left. }
  destruct (Py.get acc fuel_type) as [current|]; [|exact Hnew].
  destruct (float_lt value (lp_price current)); [exact Hnew | auto].
Qed.

Lemma consider_rows_get club rows acc category entry :
  Py.get (fold_left (consider to_float float_lt club) rows acc) category
  = Some entry ->
  Py.get acc category = Some entry \/
  exists price,
    In (category, price) rows /\ Py.mem category not_aggregated = false /\
    to_float (Py.remove_char "," (Py.remove_char "$" price))
    = Some (lp_price entry) /\
    lp_club entry = name club /\ lp_address entry = address club.
Proof.
  revert acc. induction rows as [|row rows IH]; intros acc H; [now left|].
  simpl in H. apply IH in H as [H|(price & Hin & Hrest)].
  - apply consider_get in H as [H|(Hrow & Hrest)]; [now left|].
    right. exists (snd row). split; [|exact Hrest].
    left. destruct row; simpl in *; congruence.
  - right. exists price. split; [now right | exact Hrest].
Qed.

Lemma lowest_get clubs_data acc category entry :
  Py.get (fold_left (consider_club to_float float_lt) clubs_data acc) category
  = Some entry ->
  Py.get acc category = Some entry \/
  exists club,
    offered to_float clubs_data category (lp_price entry) club /\
    lp_club entry = name club /\ lp_address entry = address club.
Proof.
  revert acc. induction clubs_data as [|club rest IH]; intros acc H;
    [now left|].
  simpl in H. apply IH in H as [H|(c & (rows & p & Hin & Hrest) & Hc)].
  - unfold consider_club in H.
    destruct (prices club) as [[|row rows]|] eqn:Hp; auto.
    apply consider_rows_get in H
      as [H|(p & Hin & Hmem & Hfloat & Hc)]; [now left|].
    right. exists club. split; [|exact Hc].
    exists (row :: rows), p. split; [now left|]. now repeat split.
  - right. exists c. split; [|exact Hc].
    exists rows, p. split; [now right | exact Hrest].
Qed.

(** X16. Every entry that [identify_lowest_prices] reports is a price
    offered by a row of the batch: the fuel type is that row's and is none
    of the four strings of the filter list, the value is what [float] makes
    of that row's price, and the club name and address are those of the
    club the row belongs to. *)
Theorem lowest_entry_is_a_row clubs_data category entry :
  Py.get (identify_lowest_prices to_float float_lt clubs_data) category
  = Some entry ->
  exists club,
    offered to_float clubs_data category (lp_price entry) club /\
    lp_club entry = name club /\ lp_address entry = address club.
Proof.
  intro H. apply lowest_get in H as [H|H]; [discriminate | exact H].
Qed.

Lemma consider_keys_NoDup club acc row :
  NoDup (Py.keys acc) ->
  NoDup (Py.keys (consider to_float float_lt club acc row)).
Proof.
  intro H. destruct row as [fuel_type price]. unfold consider.
  destruct (negb _); [|exact H].
  destruct (to_float _); [|exact H].
  destruct (Py.get acc fuel_type) as [current|];
    [destruct (float_lt _ _)|]; auto using keys_set_NoDup.
Qed.

(** X17. [identify_lowest_prices] reports each fuel type once. *)
Theorem lowest_categories_distinct clubs_data :
  NoDup (Py.keys (identify_lowest_prices to_float float_lt clubs_data)).
Proof.
  unfold identify_lowest_prices.
  assert (H : forall acc, NoDup (Py.keys acc) ->
    NoDup (Py.keys (fold_left (consider_club to_float float_lt)
                      clubs_data acc))).
  { induction clubs_data as [|club rest IH]; intros acc Hacc; [exact Hacc|].
    simpl. apply IH. unfold consider_club.
    destruct (prices club) as [[|row rows]|]; auto.
    generalize (row :: rows). intro l. revert acc Hacc.
    induction l as [|r l IHl]; intros acc Hacc; [exact Hacc|].
    simpl. apply IHl. now apply consider_keys_NoDup. }
  apply H. constructor.
Qed.

Hypothesis lt_irrefl : forall a, float_lt a a = false.
Hypothesis lt_trans : forall a b c,
  float_lt a b = true -> float_lt b c = true -> float_lt a c = true.

Lemma consider_bounded club acc row P :
  bounded float_lt acc P ->
  bounded float_lt (consider to_float float_lt club acc row)
    (fun category value =>
       P category value \/
       (category = fst row /\ Py.mem category not_aggregated = false /\
        to_float (Py.remove_char "," (Py.remove_char "$" (snd row)))
        = Some value)).
Proof.
  intro Hacc. destruct row as [fuel_type price]. unfold consider. cbn [fst snd].
  destruct (Py.mem fuel_type not_aggregated) eqn:Hmem; cbn [negb].
  { intros c x [Hp|(-> & Hm & _)]; [now apply Hacc | congruence]. }
  destruct (to_float _) as [value|] eqn:Hfloat.
  2: { intros c x [Hp|(_ & _ & Hf)]; [now apply Hacc | discriminate]. }
  destruct (Py.get acc fuel_type) as [current|] eqn:Hget.
  - destruct (float_lt value (lp_price current)) eqn:Hlt.
    + intros c x [Hp|(-> & _ & Hf)].
      * destruct (Hacc c x Hp) as (e & He & Hle).
        destruct (String.eqb_spec c fuel_type) as [->|Hne].
        -- rewrite get_set_same. eexists. split; [reflexivity|].
           cbn [lp_price]. rewrite Hget in He. injection He as <-.
           destruct (float_lt x value) eqn:Hx; [|reflexivity].
           rewrite (lt_trans Hx Hlt) in Hle. discriminate.
        -- rewrite get_set_other by exact Hne. now exists e.
      * injection Hf as <-. rewrite get_set_same.
        eexists. split; [reflexivity | apply lt_irrefl].
    + intros c x [Hp|(-> & _ & Hf)]; [now apply Hacc|].
      injection Hf as <-. now exists current.
  - intros c x [Hp|(-> & _ & Hf)].
    + destruct (Hacc c x Hp) as (e & He & Hle).
      assert (Hne : c <> fuel_type) by congruence.
      rewrite get_set_other by exact Hne. now exists e.
    + injection Hf as <-. rewrite get_set_same.
      eexists. split; [reflexivity | apply lt_irrefl].
Qed.

Lemma consider_rows_bounded club rows acc P :
  bounded float_lt acc P ->
  bounded float_lt (fold_left (consider to_float float_lt club) rows acc)
    (fun category value =>
       P category value \/
       exists price,
         In (category, price) rows /\
         Py.mem category not_aggregated = false /\
         to_float (Py.remove_char "," (Py.remove_char "$" price))
         = Some value).
Proof.
  revert acc P. induction rows as [|row rows IH]; intros acc P Hacc.
  - intros c x [Hp|(p & [] & _)]. now apply Hacc.
  - simpl. intros c x H.
    apply (IH _ _ (consider_bounded club row Hacc)).
    destruct H as [Hp|(p & [Hrow|Hin] & Hm & Hf)].
    + left. now left.
    + left. right. subst row. now repeat split.
    + right. now exists p.
Qed.

Lemma lowest_bounded clubs_data acc P :
  bounded float_lt acc P ->
  bounded float_lt (fold_left (consider_club to_float float_lt) clubs_data acc)
    (fun category value =>
       P category value \/
       exists club, offered to_float clubs_data category value club).
Proof.
  revert acc P. induction clubs_data as [|club rest IH]; intros acc P Hacc.
  - intros c x [Hp|(club & rows & p & [] & _)]. now apply Hacc.
  - simpl. intros c x H.
    assert (Hstep : bounded float_lt (consider_club to_float float_lt acc club)
      (fun category value =>
         P category value \/
         exists rows price,
           prices club = Some rows /\ In (category, price) rows /\
           Py.mem category not_aggregated = false /\
           to_float (Py.remove_char "," (Py.remove_char "$" price))
           = Some value)).
    { unfold consider_club.
      destruct (prices club) as [[|row rows]|] eqn:Hp.
      - intros c' x' [Hp'|(rows' & p & [= <-] & [] & _)]. now apply Hacc.
      - intros c' x' H'.
        apply (consider_rows_bounded club (row :: rows) Hacc).
        destruct H' as [Hp'|(rows' & p & [= <-] & Hin & Hrest)];
          [now left|]. right. now exists p.
      - intros c' x' [Hp'|(rows' & p & Hd & _)];
          [now apply Hacc | discriminate]. }
    apply (IH _ _ Hstep).
    destruct H as [Hp|(cl & rows & p & [<-|Hin] & Hpr & Hrest)].
    + left. now left.
    + left. right. now exists rows, p.
    + right. exists cl, rows, p. now split.
Qed.

(** X18. For a [<] on floats that is irreflexive and transitive, as
    Python's is, the price that [identify_lowest_prices] reports for a fuel
    type is a lower bound of the prices offered for it: every fuel type
    with an offered price is reported, and no offered price is less than
    the reported one. *)
Theorem lowest_is_lower_bound clubs_data category value club :
  offered to_float clubs_data category value club ->
  exists entry,
    Py.get (identify_lowest_prices to_float float_lt clubs_data) category
    = Some entry /\
    float_lt value (lp_price entry) = false.
Proof.
  intro H.
  apply (@lowest_bounded clubs_data [] (fun _ _ => False)).
  - intros c x [].
  - right. now exists club.
Qed.

End LowestFacts.

Lemma lowest_entry_is_a_row_witness :
  exists club,
    offered PyFloat.of_string Cases.two_clubs "Regular"
            (PyFloat.fin false 340 (-2)) club /\
    "B" = name club /\ "b" = address club.
Proof.
  apply (@lowest_entry_is_a_row _ PyFloat.of_string PyFloat.lt
           Cases.two_clubs "Regular"
           (mkLowest (PyFloat.fin false 340 (-2)) "B" "b")).
  reflexivity.
Defined.

Lemma lowest_is_lower_bound_witness :
  exists entry,
    Py.get (identify_lowest_prices PyFloat.of_string PyFloat.lt
              Cases.two_clubs) "Regular" = Some entry /\
    PyFloat.lt (PyFloat.fin false 3459 (-3)) (lp_price entry) = false.
Proof.
  apply (@lowest_is_lower_bound _ PyFloat.of_string PyFloat.lt
           PyFloat_lt_irrefl PyFloat_lt_trans Cases.two_clubs "Regular"
           (PyFloat.fin false 3459 (-3))
           (mkClubInfo "A" "a" "" "" (Some [("Regular", "$3.459");
                                            ("Premium", "$3.999")]))).
  exists [("Regular", "$3.459"); ("Premium", "$3.999")], "$3.459".
  repeat split; simpl; auto.
Defined.

(** ** What the extraction pipeline returns *)

Lemma truthy_app_r a b : Py.truthy b = true -> Py.truthy (a ++ b) = true.
Proof. destruct a; simpl; auto. Qed.

Lemma prefix_truthy p s :
  Py.truthy p = true -> String.prefix p s = true -> Py.truthy s = true.
Proof. destruct p, s; simpl; auto; discriminate. Qed.

Lemma absolute_url_http href :
  Py.startswith (absolute_url href) "http" = true.
Proof.
  unfold absolute_url.
  destruct (Py.startswith href "/"); [reflexivity|].
  destruct (Py.startswith href "http") eqn:E; [exact E | reflexivity].
Qed.

Lemma first_fuel_link_http soup selectors link :
  first_fuel_link soup selectors = Some link ->
  Py.startswith link "http" = true.
Proof.
  induction selectors as [|selector rest IH]; [discriminate|].
  simpl. destruct (find_fuel_link soup selector) as [fuel_link|]; auto.
  destruct (get_href fuel_link) as [href|]; auto.
  destruct (Py.truthy href); auto.
  intros [= <-]. apply absolute_url_http.
Qed.

(** X19. A fuel link that [get_fuel_link] returns is never empty: it is
    either an absolute URL taken from the page or the club URL followed by
    "/fuel-center"; and for a club URL that contains "/club/" there always
    is one, fetched page or not. *)
Theorem fuel_link_shape w club_url s :
  (forall link, result (get_fuel_link w club_url) s = Some link ->
     Py.truthy link = true /\
     (Py.startswith link "http" = true \/
      link = (club_url ++ "/fuel-center")%string)) /\
  (Py.str_in "/club/" club_url = true ->
   result (get_fuel_link w club_url) s <> None).
Proof.
  rewrite get_fuel_link_result.
  destruct (match result (fetch_html w club_url 1) s with
            | Some soup => first_fuel_link soup fuel_selectors
            | None => None
            end) as [link|] eqn:E.
  - split; [|discriminate]. intros l [= <-].
    assert (Hhttp : Py.startswith link "http" = true).
    { destruct (result (fetch_html w club_url 1) s) as [soup|];
        [|discriminate]. now apply (first_fuel_link_http soup fuel_selectors). }
    split; [|now left].
    apply (prefix_truthy "http"); [reflexivity | exact Hhttp].
  - split.
    + destruct (Py.str_in "/club/" club_url); [|discriminate].
      intros l [= <-]. split; [now apply truthy_app_r | now right].
    + intros ->. discriminate.
Qed.

Lemma fuel_link_shape_witness :
  result (get_fuel_link (Sample.serving Cases.linked_page) Sample.tempe_url)
         initial_state
  = Some "https://www.samsclub.com/fuel/4956" /\
  result (get_fuel_link Sample.offline Sample.tempe_url) initial_state
  <> None.
Proof.
  split; [reflexivity|].
  apply (proj2 (fuel_link_shape Sample.offline Sample.tempe_url
                  initial_state)).
  reflexivity.
Defined.

(** X20. [fetch_html] hands out a document only if a request for the URL
    was answered with a good status and a text that mentions neither
    "robot" nor "captcha"; and a first answer that mentions one ends the
    call with no document, whatever retries are left. *)
Theorem fetch_html_only_unchallenged_pages w url retries s :
  (forall soup, result (fetch_html w url retries) s = Some soup ->
     exists n text, tick s <= n /\ net w n url = HttpResponse None text soup
                    /\ bot_protected text = false) /\
  (forall text soup, net w (tick s) url = HttpResponse None text soup ->
     bot_protected text = true ->
     result (fetch_html w url retries) s = None).
Proof.
  split.
  - revert s. induction retries as [|n IH]; intros s soup; [discriminate|].
    cbn [fetch_html]. rewrite result_bind.
    change (result (requests_get w url) s) with (net w (tick s) url).
    change (after (requests_get w url) s) with (next s).
    destruct (net w (tick s) url) as [e|[e|] text page] eqn:Hnet.
    + rewrite result_bind. intro H. apply IH in H as (k & t & Hk & Hrest).
      exists k, t. split; [|exact Hrest].
      destruct n; simpl in Hk; lia.
    + rewrite result_bind. intro H. apply IH in H as (k & t & Hk & Hrest).
      exists k, t. split; [|exact Hrest].
      destruct n; simpl in Hk; lia.
    + destruct (bot_protected text) eqn:Hbot; [discriminate|].
      intros [= <-]. exists (tick s), text. now repeat split.
  - intros text soup Hnet Hbot. destruct retries as [|n]; [reflexivity|].
    cbn [fetch_html]. rewrite result_bind.
    change (result (requests_get w url) s) with (net w (tick s) url).
    now rewrite Hnet, Hbot.
Qed.

Lemma fetch_html_only_unchallenged_pages_witness :
  result (fetch_html (Sample.serving Cases.challenge_page)
            Sample.tempe_url 3) initial_state = None.
Proof.
  apply (proj2 (fetch_html_only_unchallenged_pages
                  (Sample.serving Cases.challenge_page) Sample.tempe_url 3
                  initial_state)
           "Are you a robot?" Cases.challenge_page); reflexivity.
Defined.

(** X21. When an address selector matches on the fetched page, the text of
    the first match is the address returned, known address or not, unless
    that text is the string "NAN". *)
Theorem structured_address_wins w club_url club_name s soup addr_elem :
  result (fetch_html w club_url 1) s = Some soup ->
  first_select_one soup address_selectors = Some addr_elem ->
  get_text_strip addr_elem <> "NAN" ->
  cp_address (result (get_club_info w club_url club_name) s)
  = get_text_strip addr_elem.
Proof.
  intros Hfetch Hsel Hne.
  rewrite get_club_info_address, Hfetch, Hsel. cbv zeta.
  apply String.eqb_neq in Hne. now rewrite Hne.
Qed.

Lemma structured_address_wins_witness :
  cp_address
    (result (get_club_info (Sample.serving Cases.address_page)
               Sample.tempe_url "Tempe") initial_state)
  = "1459 W Elliot Rd".
Proof.
  apply (@structured_address_wins (Sample.serving Cases.address_page)
           Sample.tempe_url "Tempe" initial_state Cases.address_page
           (Sample.leaf "1459 W Elliot Rd" None)).
  - reflexivity.
  - reflexivity.
  - discriminate.
Defined.

Lemma substring_head n c s :
  String.substring 0 (S n) (String c s) = String c (String.substring 0 n s).
Proof. reflexivity. Qed.

Lemma matched_head c s rest :
  String.length rest < String.length (String c s) ->
  exists tail, Re.matched (String c s) rest = String c tail.
Proof.
  intro H. unfold Re.matched.
  destruct (String.length (String c s) - String.length rest) as [|n] eqn:E;
    [lia|].
  rewrite substring_head. now eexists.
Qed.

Lemma price_pattern_head c s rest :
  Re.match_at price_pattern (String c s) = Some rest -> c = "$"%char.
Proof.
  unfold Re.match_at, price_pattern. cbn [Re.cat fold_right Re.exec].
  unfold Re.only. destruct (Ascii.eqb_spec "$"%char c); [auto | discriminate].
Qed.

Lemma findall_price_head fuel text :
  Forall (fun price => exists tail, price = String "$"%char tail)
         (Re.findall_from fuel price_pattern text).
Proof.
  revert text. induction fuel as [|fuel IH]; intro text; [constructor|].
  cbn [Re.findall_from].
  destruct (Re.match_at price_pattern text) as [rest|] eqn:E.
  - destruct (String.length rest <? String.length text)%nat eqn:Hlt.
    + constructor; [|apply IH].
      apply Nat.ltb_lt in Hlt.
      destruct text as [|c s]; [simpl in Hlt; lia|].
      apply price_pattern_head in E as Hc. subst c.
      now apply matched_head.
    + destruct text; [constructor | apply IH].
  - destruct text; [constructor | apply IH].
Qed.

Lemma price_card_filled card :
  Forall (fun row : Row => Py.truthy (fst row) = true /\
                           Py.truthy (snd row) = true) (price_card card).
Proof.
  unfold price_card.
  destruct (find_div card "tc f6 fw4 lh-title"); [|constructor].
  destruct (find_div card _); [|constructor].
  destruct (Py.truthy _ && Py.truthy _) eqn:E; [|constructor].
  apply andb_true_iff in E. repeat constructor; apply E.
Qed.

Lemma fallback_card_filled card :
  Forall (fun row : Row => Py.truthy (fst row) = true /\
                           Py.truthy (snd row) = true /\ snd row <> "NAN")
         (fallback_card card).
Proof.
  unfold fallback_card.
  destruct (_ && _ && negb _) eqn:E; [|constructor].
  apply andb_true_iff in E as [E Hne]. apply andb_true_iff in E as [Hf Hp].
  apply negb_true_iff, String.eqb_neq in Hne.
  repeat constructor; assumption.
Qed.

Lemma Forall_flat_map A B (P : B -> Prop) (f : A -> list B) l :
  (forall x, Forall P (f x)) -> Forall P (flat_map f l).
Proof.
  intro H. induction l as [|x l IH]; simpl; [constructor|].
  apply Forall_app. split; [apply H | exact IH].
Qed.

Lemma fallback_rows soup :
  Forall (fun row : Row => Py.truthy (fst row) = true /\
                           Py.truthy (snd row) = true /\ snd row <> "NAN")
         (get_gas_prices_fallback soup) /\
  (flat_map fallback_card (first_cards soup price_selectors) = [] ->
   Forall (fun row : Row => fst row = "Unknown" /\
                            exists tail, snd row = String "$"%char tail)
          (get_gas_prices_fallback soup)).
Proof.
  unfold get_gas_prices_fallback.
  pose proof (findall_price_head (S (String.length (get_text soup)))
                (get_text soup)) as Hscan.
  fold (Re.findall price_pattern (get_text soup)) in Hscan.
  destruct (flat_map fallback_card (first_cards soup price_selectors))
    as [|row rows] eqn:E.
  - split; [|intros _]; apply Forall_map;
      (eapply Forall_impl; [|exact Hscan]); cbn [fst snd].
    + intros price (tail & ->). repeat split. discriminate.
    + intros price Htail. now split.
  - split; [|discriminate]. rewrite <- E.
    apply Forall_flat_map. apply fallback_card_filled.
Qed.


(** X22. Every row that [get_gas_prices_fallback] returns has a non-empty
    fuel type and a non-empty price that is not "NAN"; a row it takes from
    the text of the page is tagged "Unknown" and its price begins with a
    dollar sign. *)
Theorem fallback_rows_are_filled soup :
  Forall (fun row : Row => Py.truthy (fst row) = true /\
                           Py.truthy (snd row) = true /\ snd row <> "NAN")
         (get_gas_prices_fallback soup) /\
  (flat_map fallback_card (first_cards soup price_selectors) = [] ->
   Forall (fun row : Row => fst row = "Unknown" /\
                            exists tail, snd row = String "$"%char tail)
          (get_gas_prices_fallback soup)).
Proof. apply fallback_rows. Qed.

Lemma fallback_rows_are_filled_witness :
  get_gas_prices_fallback Sample.price_text_page = [("Unknown", "$3.19")] /\
  Forall (fun row : Row => fst row = "Unknown" /\
                           exists tail, snd row = String "$"%char tail)
         (get_gas_prices_fallback Sample.price_text_page).
Proof.
  split; [reflexivity|].
  apply (proj2 (fallback_rows_are_filled Sample.price_text_page)).
  reflexivity.
Defined.

(** X23. Every row that [get_gas_prices] returns has a non-empty fuel
    type, and when the request was answered with a good status every row
    has a non-empty price as well. *)
Theorem extracted_rows_are_filled w url s :
  Forall (fun row : Row => Py.truthy (fst row) = true)
         (result (get_gas_prices w url) s) /\
  (forall text soup, net w (tick s) url = HttpResponse None text soup ->
     Forall (fun row : Row => Py.truthy (snd row) = true)
            (result (get_gas_prices w url) s)).
Proof.
  unfold get_gas_prices. rewrite result_bind.
  change (result (requests_get w url) s) with (net w (tick s) url).
  destruct (net w (tick s) url) as [e|[e|] text soup].
  - split; [repeat constructor | discriminate].
  - split; [repeat constructor | discriminate].
  - rewrite result_ret.
    assert (H : Forall (fun row : Row => Py.truthy (fst row) = true /\
                                         Py.truthy (snd row) = true)
      (or_default
         match flat_map price_card (find_all_div soup "pa3 br3 flex-grow-1")
         with
         | [] => get_gas_prices_fallback soup
         | _ :: _ =>
             flat_map price_card (find_all_div soup "pa3 br3 flex-grow-1")
         end [("No prices found", "NAN")])).
    { destruct (flat_map price_card (find_all_div soup "pa3 br3 flex-grow-1"))
        as [|row rows] eqn:E.
      - destruct (get_gas_prices_fallback soup) as [|row rows] eqn:Ef.
        + repeat constructor.
        + cbn [or_default]. rewrite <- Ef.
          eapply Forall_impl;
            [|exact (proj1 (fallback_rows soup))].
          intros r (Hf & Hp & _). now split.
      - cbn [or_default]. rewrite <- E.
        apply Forall_flat_map. apply price_card_filled. }
    split.
    + eapply Forall_impl; [|exact H]. now intros r [].
    + intros _ _ _. eapply Forall_impl; [|exact H]. now intros r [].
Qed.

Lemma extracted_rows_are_filled_witness :
  Forall (fun row : Row => Py.truthy (snd row) = true)
         (result (get_gas_prices (Sample.serving Cases.fallback_page)
                    Sample.tempe_url) initial_state).
Proof.
  apply (proj2 (extracted_rows_are_filled
                  (Sample.serving Cases.fallback_page) Sample.tempe_url
                  initial_state)
           "$3.19" Cases.fallback_page).
  reflexivity.
Defined.

(** ** Statistics of the day *)

Lemma filter_split A (f : A -> bool) l :
  length l = length (filter f l) + length (filter (fun x => negb (f x)) l).
Proof.
  induction l as [|x l IH]; [reflexivity|].
  simpl. destruct (f x); simpl; lia.
Qed.

Lemma nodup_length_le (l : list string) :
  length (nodup string_dec l) <= length l.
Proof.
  induction l as [|x l IH]; [reflexivity|].
  simpl. destruct (in_dec string_dec x l); simpl; lia.
Qed.

(** X24. In the statistics of [get_scraping_stats] the attempts of the day
    are the successful ones plus the failed ones, and the number of clubs
    scraped is at most the number of attempts. *)
Theorem scraping_stats_add_up w s :
  let stats := result (get_scraping_stats w) s in
  total_attempts_today stats = successful_today stats + failed_today stats /\
  clubs_scraped_today stats <= total_attempts_today stats.
Proof.
  cbv zeta.
  change (result (get_scraping_stats w) s) with
    (let rows := filter (fun r => String.eqb (sl_scraped_date r)
                                    (today_at w (tick s)))
                        (scraping_log (db s)) in
     let scraped := length (nodup string_dec (map sl_club_name rows)) in
     mkStats (length rows) (length (filter sl_success rows))
       (length (filter (fun r => negb (sl_success r)) rows))
       scraped (length (Py.merge locations (ADDITIONAL_CLUBS s)))
       (scraped =? length (Py.merge locations (ADDITIONAL_CLUBS s)))%nat).
  cbv zeta. cbn [total_attempts_today successful_today failed_today
                 clubs_scraped_today].
  split.
  - apply filter_split.
  - eapply Nat.le_trans; [apply nodup_length_le|]. now rewrite length_map.
Qed.

(** ** Reading the history *)

Lemma insert_desc_perm r l : Permutation (insert_desc r l) (r :: l).
Proof.
  induction l as [|x l IH]; simpl; [reflexivity|].
  destruct (stamp_leb (stamp x) (stamp r)); [reflexivity|].
  rewrite IH. apply perm_swap.
Qed.

Lemma order_by_desc_perm l : Permutation (order_by_desc l) l.
Proof.
  induction l as [|x l IH]; simpl; [reflexivity|].
  rewrite insert_desc_perm. now constructor.
Qed.

Lemma sorted_map A B (f : A -> B) (R : B -> B -> Prop) l :
  StronglySorted (fun a b => R (f a) (f b)) l ->
  StronglySorted R (map f l).
Proof.
  induction 1 as [|x l _ IH Hall]; simpl; constructor; [exact IH|].
  apply Forall_map. exact Hall.
Qed.

(** X25. [get_price_history] returns the rows of the price history whose
    date is not before the cut-off date and, when a club is named, whose
    club is that one: each of them once, none else, the newest first. *)
Theorem price_history_is_the_window cutoff club_name days s :
  Permutation
    (result (get_price_history cutoff club_name days) s)
    (map history_row
       (filter (in_window club_name (cutoff (tick s) days))
               (price_history (db s)))) /\
  StronglySorted
    (fun a b => stamp_leb (h_scraped_date b, h_scraped_time b)
                          (h_scraped_date a, h_scraped_time a) = true)
    (result (get_price_history cutoff club_name days) s).
Proof.
  change (result (get_price_history cutoff club_name days) s)
    with (map history_row
            (order_by_desc
               (filter (in_window club_name (cutoff (tick s) days))
                       (price_history (db s))))).
  split.
  - apply Permutation_map. apply order_by_desc_perm.
  - apply sorted_map. apply order_by_desc_sorted.
Qed.

(** X26. A row that [save_price_data] stores is read back by
    [get_price_history] for that club with its fuel type, price, date and
    time, as long as the date it was stored under is not before the
    cut-off date of the window. *)
Theorem saved_rows_are_read_back w cutoff club_name rows days fuel_type
    price s :
  let s' := after (save_price_data w club_name rows) s in
  In (fuel_type, price) rows ->
  Py.mem fuel_type not_stored = false ->
  str_leb (cutoff (tick s') days) (today_at w (tick s)) = true ->
  In (mkHistoryRow club_name fuel_type price (today_at w (tick s))
                   (time_at w (S (tick s))))
     (result (get_price_history cutoff (Some club_name) days) s').
Proof.
  intros s' Hin Hmem Hcut.
  change (result (get_price_history cutoff (Some club_name) days) s')
    with (map history_row
            (order_by_desc
               (filter (in_window (Some club_name) (cutoff (tick s') days))
                       (price_history (db s'))))).
  apply in_map_iff.
  exists (mkPriceRow club_name fuel_type price (today_at w (tick s))
                     (time_at w (S (tick s))) "scraped").
  split; [reflexivity|].
  apply order_by_desc_In, filter_In. split.
  - subst s'. rewrite save_price_data_history. apply in_or_app. right.
    unfold stored_rows. apply in_map_iff. exists (fuel_type, price).
    split; [reflexivity|]. apply filter_In. split; [exact Hin|].
    cbn [fst]. now rewrite Hmem.
  - unfold in_window. cbn [ph_club_name ph_scraped_date].
    rewrite String.eqb_refl, Hcut. now destruct (Py.truthy club_name).
Qed.

Lemma saved_rows_are_read_back_witness :
  In (mkHistoryRow "Tempe" "Regular" "$3.19" Sample.day Sample.hour)
     (result (get_price_history Cases.date_before (Some "Tempe") 7)
        (after (save_price_data Sample.offline "Tempe"
                  [("Regular", "$3.19"); ("Unknown", "$1.00")])
               initial_state)).
Proof.
  apply (@saved_rows_are_read_back Sample.offline Cases.date_before "Tempe"
           [("Regular", "$3.19"); ("Unknown", "$1.00")] 7 "Regular" "$3.19"
           initial_state).
  - left. reflexivity.
  - reflexivity.
  - reflexivity.
Defined.

(** ** Trends *)

Section TrendFacts.

Variable F : Type.
Variable to_float : string -> option F.
Variable float_lt : F -> F -> bool.
Variable mean : list F -> F.

Lemma float_prices_length fuel_data :
  length (float_prices to_float fuel_data) <= length fuel_data.
Proof.
  induction fuel_data as [|r l IH]; [reflexivity|].
  unfold float_prices in *. cbn [flat_map]. rewrite length_app.
  destruct (to_float _); simpl; lia.
Qed.

Lemma unique_NoDup seen l :
  NoDup (unique seen l) /\ forall x, In x (unique seen l) -> ~ In x seen.
Proof.
  revert seen. induction l as [|x l IH]; intro seen.
  - split; [constructor | intros x []].
  - cbn [unique]. destruct (Py.mem x seen) eqn:E; [apply IH|].
    destruct (IH (x :: seen)) as [Hnd Hnot]. split.
    + constructor; [|exact Hnd]. intro Hin. apply (Hnot x Hin). now left.
    + intros y [<-|Hin].
      * intro Hs. unfold Py.mem in E.
        assert (existsb (String.eqb x) seen = true).
        { apply existsb_exists. exists x. split; [exact Hs|].
          apply String.eqb_refl. }
        congruence.
      * intro Hs. apply (Hnot y Hin). now right.
Qed.

Lemma trends_of_In df fuel_type trend :
  In (fuel_type, trend) (trends_of to_float float_lt mean df) ->
  trend_of to_float float_lt mean
    (filter (fun r => String.eqb (h_fuel_type r) fuel_type) df) = Some trend.
Proof.
  unfold trends_of. intro H.
  apply in_flat_map in H as (ft & _ & H).
  destruct (trend_of to_float float_lt mean
              (filter (fun r => (h_fuel_type r =? ft)%string) df)) eqn:E;
    [|destruct H].
  destruct H as [[= -> ->]|[]]. exact E.
Qed.

(** X27. [get_price_trends] has an entry for a fuel type only if the
    window holds at least two rows of it and at least one of their prices
    parses; the entry counts the prices that parse, which may be fewer than
    the rows, and its current price is the first of them in newest-first
    order. *)
Theorem trend_needs_two_rows cutoff club_name days s fuel_type trend :
  In (fuel_type, trend)
     (result (get_price_trends to_float float_lt mean cutoff club_name days)
             s) ->
  let fuel_data :=
    filter (fun r => String.eqb (h_fuel_type r) fuel_type)
           (result (get_price_history cutoff club_name days) s) in
  2 <= length fuel_data /\
  t_data_points trend = length (float_prices to_float fuel_data) /\
  1 <= t_data_points trend <= length fuel_data /\
  head (float_prices to_float fuel_data) = Some (t_current trend).
Proof.
  intros H fuel_data.
  unfold get_price_trends in H. rewrite result_bind, result_ret in H.
  apply trends_of_In in H. fold fuel_data in H.
  unfold trend_of in H.
  destruct (1 <? length fuel_data)%nat eqn:Hlen; [|discriminate].
  apply Nat.ltb_lt in Hlen.
  pose proof (float_prices_length fuel_data) as Hle.
  destruct (float_prices to_float fuel_data) as [|p ps] eqn:Hp;
    [discriminate|].
  injection H as <-. cbn [t_data_points t_current head].
  repeat split; try lia. simpl in *. lia.
Qed.

(** X28. [get_price_trends] has at most one entry per fuel type. *)
Theorem trend_fuel_types_distinct cutoff club_name days s :
  NoDup (Py.keys
           (result (get_price_trends to_float float_lt mean cutoff
                      club_name days) s)).
Proof.
  unfold get_price_trends. rewrite result_bind, result_ret.
  unfold trends_of.
  generalize (result (get_price_history cutoff club_name days) s). intro df.
  destruct (unique_NoDup [] (map h_fuel_type df)) as [Hnd _].
  induction (unique [] (map h_fuel_type df)) as [|ft l IH];
    [constructor|].
  apply NoDup_cons_iff in Hnd as [Hnot Hnd].
  cbn [flat_map]. unfold Py.keys. rewrite map_app.
  destruct (trend_of to_float float_lt mean _) as [t|]; cbn [map app].
  - constructor; [|now apply IH].
    intro Hin. apply Hnot.
    apply in_map_iff in Hin as ([k v] & Hk & Hin). cbn in Hk. subst k.
    apply in_flat_map in Hin as (ft' & Hft & Hin).
    destruct (trend_of to_float float_lt mean
                (filter (fun r => (h_fuel_type r =? ft')%string) df));
      [|destruct Hin].
    destruct Hin as [[= -> _]|[]]. exact Hft.
  - now apply IH.
Qed.

End TrendFacts.

Lemma trend_needs_two_rows_witness :
  let s := Sample.with_history Cases.week in
  result (get_price_trends PyFloat.of_string PyFloat.lt Cases.first_price
            Cases.date_before (Some "Tempe") 7) s
  = [("Regular",
      mkTrend (PyFloat.fin false 305 (-2)) (PyFloat.fin false 305 (-2))
              (PyFloat.fin false 310 (-2)) (PyFloat.fin false 305 (-2)) 2)]
  /\ 2 <= length
       (filter (fun r => String.eqb (h_fuel_type r) "Regular")
          (result (get_price_history Cases.date_before (Some "Tempe") 7) s)).
Proof.
  split; [reflexivity|].
  apply (@trend_needs_two_rows _ PyFloat.of_string PyFloat.lt
           Cases.first_price Cases.date_before (Some "Tempe") 7
           (Sample.with_history Cases.week) "Regular"
           (mkTrend (PyFloat.fin false 305 (-2)) (PyFloat.fin false 305 (-2))
              (PyFloat.fin false 310 (-2)) (PyFloat.fin false 305 (-2)) 2)).
  left. reflexivity.
Defined.

(** ** The profile of a scraped club *)

Lemma clubs_kept_by_log w n ok e k s :
  clubs (db (after (log_scraping_attempt w n ok e k) s)) = clubs (db s).
Proof. reflexivity. Qed.

Lemma clubs_kept_by_save_price_data w n rows s :
  clubs (db (after (save_price_data w n rows) s)) = clubs (db s).
Proof.
  apply (@keeps_save_price_data (fun d d' => clubs d' = clubs d));
    [reflexivity | congruence | reflexivity].
Qed.

Lemma reconcile_clubs w club club_info rows s :
  exists s', clubs (db s') = clubs (db s) /\
    clubs (db (after (reconcile w club club_info rows) s))
    = clubs (db (after (save_club_info w club_info) s')).
Proof.
  unfold reconcile. rewrite after_bind.
  set (outcome := result _ s).
  assert (Hs : after
    (if valid_prices rows
     then ret (true, None, length rows, rows)
     else cached_prices <- get_latest_prices club ;;
          ret (false, Some "No valid prices found", 0,
               or_default cached_prices [("No prices available", "NAN")])) s
    = s) by now destruct (valid_prices rows).
  rewrite Hs. destruct outcome as [[[ok e] k] kept].
  rewrite !after_bind, after_ret, clubs_kept_by_save_price_data.
  eexists. split; [|reflexivity]. apply clubs_kept_by_log.
Qed.

(** X29. Whenever a club is scraped, successfully or not, its profile is
    upserted: afterwards the clubs table has a row of its name with the
    club URL it was scraped from and the address and fuel URL that the
    orchestrator reports for it. *)
Theorem scraped_club_gets_profile w club url s :
  result (check_if_scraped_today w club) s = false ->
  exists r,
    In r (clubs (db (after (process_club w club url) s))) /\
    c_name r = club /\ c_club_url r = url /\
    c_address r = address (result (process_club w club url) s) /\
    c_fuel_url r = fuel_url (result (process_club w club url) s).
Proof.
  intro Hcheck.
  unfold process_club. rewrite after_bind, result_bind, Hcheck.
  unfold scrape_club. rewrite !after_bind, !result_bind, after_ret, result_ret.
  change (after sleep ?x) with (next x).
  change (db (next ?x)) with (db x).
  set (s0 := after (check_if_scraped_today w club) s).
  set (fetched := result (fetch_club w club url) s0).
  set (s1 := after (fetch_club w club url) s0).
  destruct (reconcile_clubs w club (fst fetched) (snd fetched) s1)
    as (s' & _ & ->).
  destruct (reconcile_result w club (fst fetched) (snd fetched) s1)
    as (kept & _ & ->).
  destruct (fetch_club_echo w club url s0) as [Hn Hu].
  fold fetched in Hn, Hu.
  destruct (save_club_info_spec w (fst fetched) s')
    as ((r & Hin & Hname) & Hfields & _).
  exists r. split; [exact Hin|].
  destruct (Hfields r Hin Hname) as (Ha & Hcu & Hf & _).
  cbn [set_prices address fuel_url]. repeat split; congruence.
Qed.

Lemma scraped_club_gets_profile_witness :
  exists r,
    In r (clubs (db (after (process_club Sample.offline "Tempe"
                              Sample.tempe_url) initial_state))) /\
    c_name r = "Tempe" /\ c_club_url r = Sample.tempe_url /\
    c_address r =
      address (result (process_club Sample.offline "Tempe" Sample.tempe_url)
                 initial_state) /\
    c_fuel_url r =
      fuel_url (result (process_club Sample.offline "Tempe" Sample.tempe_url)
                  initial_state).
Proof.
  apply (@scraped_club_gets_profile Sample.offline "Tempe" Sample.tempe_url
           initial_state).
  reflexivity.
Defined.

Lemma save_club_info_upserts_witness :
  let before := clubs (db (Cases.with_clubs [Cases.tempe_row])) in
  let after_ :=
    clubs (db (after (save_club_info Sample.offline Cases.tempe_info)
                     (Cases.with_clubs [Cases.tempe_row]))) in
  exists r, In r after_ /\ c_name r = "Tempe" /\
            c_created_date r = "2025-08-20 10:00:00".
Proof.
  apply (proj1 (proj2 (proj2 (save_club_info_upserts Sample.offline
                                Cases.tempe_info
                                (Cases.with_clubs [Cases.tempe_row]))))
           Cases.tempe_row).
  - left. reflexivity.
  - reflexivity.
Defined.
